(** * Retail analytics: synthetic data generator, batch uploader, dashboard queries

    A shallow embedding of [Data_Uploading.py] and of the query functions of
    [dashboard_retail.py], followed by the properties of the specification.

    Conventions of the embedding.
    - Python [int] is [Z] (loop counters that only count up from a literal
      are [nat]); Python [float] is idealised as an exact rational [Q]:
      only the decimal rounding done by [round(x, ndigits)] is modelled,
      binary64 representation error is not.
    - [dict] records with a fixed set of keys are Rocq records.
    - The module-level [random] generator is an explicit state threaded
      through every call, through the interface [Rng].
    - Exceptions are values of [exn]; a call that may raise returns [py A].
    - [datetime] values are day offsets relative to [datetime.now()];
      [isoformat] rendering and [print] output are not modelled. *)

From Stdlib Require Import ZArith QArith Qround Lia Lqa List String Ascii Bool FinFun.
From Stdlib Require Import Morphisms Setoid.
From Stdlib Require Import Decimal DecimalString DecimalNat DecimalFacts.
Import ListNotations.

Local Open Scope Z_scope.

(* ===================================================================== *)
(** * Part I. The programs                                                *)
(* ===================================================================== *)

(** ** Python built-ins used by the scripts *)

(** [str(i)] for a non-negative integer. *)
Definition py_str (i : nat) : string :=
  NilEmpty.string_of_uint (Nat.to_uint i).

(** [s.rjust(w, '0')]: the padding applied by the format spec [0wd]. *)
Fixpoint zeros (k : nat) : string :=
  match k with
  | O => EmptyString
  | S k' => String "0" (zeros k')
  end.

Definition zfill (w : nat) (s : string) : string :=
  (zeros (w - String.length s) ++ s)%string.

(** [f'{i:0wd}']: decimal digits of [i], left-padded with zeros to a
    minimum width [w] (longer numbers are not truncated). *)
Definition fmt_0d (w : nat) (i : nat) : string := zfill w (py_str i).

(** [needle in s] on strings. *)
Fixpoint contains (needle s : string) : bool :=
  String.prefix needle s ||
  match s with
  | EmptyString => false
  | String _ s' => contains needle s'
  end.

(** [round(x)] to the nearest integer, ties to even. *)
Definition round_half_even (x : Q) : Z :=
  let f := Qfloor x in
  match Qcompare (x - inject_Z f) (1 # 2) with
  | Lt => f
  | Gt => f + 1
  | Eq => if Z.even f then f else f + 1
  end.

(** [10 ** k] as a positive number. *)
Fixpoint pow10 (k : nat) : positive :=
  match k with
  | O => 1%positive
  | S k' => (10 * pow10 k')%positive
  end.

(** [round(x, ndigits)] for [ndigits >= 0]: the nearest multiple of
    [10 ** -ndigits], ties to even. *)
Definition py_round (x : Q) (ndigits : nat) : Q :=
  Qmake (round_half_even (x * inject_Z (Zpos (pow10 ndigits)))) (pow10 ndigits).

(** [max(a, b)] on integers. *)
Definition py_max (a b : Z) : Z := if a <? b then b else a.

(** [sum(xs)] on numbers. *)
Definition Qsum (xs : list Q) : Q := fold_right Qplus 0%Q xs.

(** [int(s)] on a string of decimal digits. *)
Definition parse_nat (s : string) : option nat :=
  option_map Nat.of_uint (NilEmpty.uint_of_string s).

(** ** Exceptions *)

(** Details dictionary carried by a [BulkWriteError]. *)
Record bulk_details := {
  nInserted : option Z;
  writeErrors : option (list string)       (* the [errmsg] of each write error *)
}.

(** The exception classes the scripts distinguish.  In pymongo,
    [BulkWriteError] is a subclass of [PyMongoError], itself a subclass of
    [Exception]; the constructor [PyMongoError] stands for the instances of
    that class that are not a [BulkWriteError].  Exceptions outside
    [Exception] ([KeyboardInterrupt], [SystemExit]) are not modelled. *)
Inductive exn : Type :=
| BulkWriteError (details : option bulk_details)
| PyMongoError (msg : string)
| IndexError (msg : string)
| ValueError (msg : string)
| OtherException (msg : string).

Definition is_BulkWriteError (e : exn) : bool :=
  match e with BulkWriteError _ => true | _ => false end.

Definition is_PyMongoError (e : exn) : bool :=
  match e with BulkWriteError _ | PyMongoError _ => true | _ => false end.

(** [str(e)]. *)
Definition exn_str (e : exn) : string :=
  match e with
  | BulkWriteError _ => "batch op errors occurred"
  | PyMongoError m | IndexError m | ValueError m | OtherException m => m
  end.

(** Outcome of a call that may raise. *)
Inductive py (A : Type) : Type :=
| Returns (a : A)
| Raises (e : exn).
Arguments Returns {A} a.
Arguments Raises {A} e.

(** ** The random source *)

(** The two primitives of CPython's [random.Random] that the module-level
    functions are built from: [random()] and [_randbelow(n)]. *)
Class Rng (G : Type) := {
  next_float : G -> Q * G;
  next_below : Z -> G -> Z * G
}.

(** What CPython guarantees of them: [random()] is in [[0, 1)] and
    [_randbelow(n)] is in [[0, n)] for [n > 0]. *)
Class RngLaws (G : Type) `{Rng G} : Prop := {
  next_float_range : forall g, (0 <= fst (next_float g) /\ fst (next_float g) < 1)%Q;
  next_below_range : forall n g, 0 < n -> 0 <= fst (next_below n g) < n
}.

(** A scripted source for concrete runs: a tape of numbers, one consumed
    per draw ([0] once the tape is exhausted).  [random()] reads the
    absolute value of a cell as thousandths, [_randbelow(n)] reduces it
    modulo [n]. *)
Definition tape := list Z.

Definition tape_head (t : tape) : Z := match t with [] => 0 | h :: _ => Z.abs h end.

#[export] Instance tape_rng : Rng tape := {|
  next_float t := (Qmake (tape_head t mod 1000) 1000, tl t);
  next_below n t := (tape_head t mod n, tl t)
|}.

(** ** A state-and-exception monad for code that draws random numbers *)

Section Generators.
Context {G : Type} `{Rng G}.

Definition M (A : Type) : Type := G -> py A * G.

Definition ret {A} (a : A) : M A := fun g => (Returns a, g).
Definition raise {A} (e : exn) : M A := fun g => (Raises e, g).
Definition bind {A B} (m : M A) (k : A -> M B) : M B :=
  fun g => match m g with
           | (Returns a, g') => k a g'
           | (Raises e, g') => (Raises e, g')
           end.

Notation "x <- m ;; k" := (bind m (fun x => k))
  (at level 61, m at next level, right associativity).

(** [for x in xs: acc = body(x, acc)]. *)
Fixpoint for_each {A S} (xs : list A) (body : A -> S -> M S) (acc : S) : M S :=
  match xs with
  | [] => ret acc
  | x :: xs' => acc' <- body x acc ;; for_each xs' body acc'
  end.

(** [range(a, b)] for naturals. *)
Definition range (a b : nat) : list nat := seq a (b - a).

(** *** The [random] module *)

Definition random_random : M Q := fun g => let (u, g') := next_float g in (Returns u, g').

Definition randbelow (n : Z) : M Z := fun g => let (k, g') := next_below n g in (Returns k, g').

(** [random.uniform(a, b)] is [a + (b - a) * random()]. *)
Definition random_uniform (a b : Q) : M Q :=
  u <- random_random ;; ret (a + (b - a) * u)%Q.

(** [random.randint(a, b)] is [a + _randbelow(b - a + 1)], and raises
    [ValueError] on an empty range. *)
Definition random_randint (a b : Z) : M Z :=
  if b <? a then raise (ValueError "empty range for randrange()")
  else k <- randbelow (b - a + 1) ;; ret (a + k).

(** [random.choice(seq)] is [seq[_randbelow(len(seq))]], and raises
    [IndexError] on an empty sequence. *)
Definition random_choice {A} (l : list A) : M A :=
  match l with
  | [] => raise (IndexError "Cannot choose from an empty sequence")
  | _ =>
      k <- randbelow (Z.of_nat (List.length l)) ;;
      match nth_error l (Z.to_nat k) with
      | Some x => ret x
      | None => raise (IndexError "list index out of range")
      end
  end.

(** ** Configuration constants of [Data_Uploading.py] *)

Definition DATABASE_NAME : string := "retail_analytics".
Definition RESET_DATABASE : bool := false.
Definition FORCE_UPLOAD : bool := false.
Definition MIN_DOCS_PER_COLLECTION : Z := 50.
Definition BATCH_SIZE : Z := 5.
Definition BATCH_DELAY : Z := 2.

(** ** Entities *)

Record Product := {
  p_id : string;
  p_product_id : string;
  p_name : string;
  p_category : string;
  p_brand : string;
  p_price : Q;
  p_cost : Q;
  p_stock_quantity : Z;
  p_rating : Q;
  p_num_reviews : Z;
  p_created_date : Z            (* days relative to now *)
}.

Record Customer := {
  c_id : string;
  c_customer_id : string;
  c_name : string;
  c_email : string;
  c_city : string;
  c_state : string;
  c_join_date : Z;              (* days relative to now *)
  c_loyalty_tier : string;
  c_total_spent : Z;
  c_order_count : Z
}.

Record Item := {
  i_product_id : string;
  i_product_name : string;
  i_category : string;
  i_quantity : Z;
  i_unit_price : Q;
  i_item_total : Q
}.

Record Order := {
  o_order_id : string;
  o_id : string;
  o_customer_id : string;
  o_customer_name : string;
  o_customer_city : string;
  o_customer_state : string;
  o_order_date : Z;             (* days relative to now *)
  o_items : list Item;
  o_total_amount : Q;
  o_shipping_cost : Q;
  o_tax : Q;
  o_status : string;
  o_payment_method : string
}.

Record Review := {
  r_review_id : string;
  r_id : string;
  r_order_id : string;
  r_product_id : string;
  r_product_name : string;
  r_customer_id : string;
  r_customer_name : string;
  r_rating : Z;
  r_review_text : string;
  r_review_date : Z;            (* days relative to now *)
  r_helpful_votes : Z
}.

(** ** [generate_products] *)

Definition categories : list string :=
  ["Electronics"; "Clothing"; "Home & Garden"; "Sports"; "Books"; "Toys"; "Beauty"; "Food"]%string.

Definition brands : list string :=
  ["BrandA"; "BrandB"; "BrandC"; "BrandD"; "BrandE"; "Generic"]%string.

(** Body of the loop for index [i]; the draws are made in the order in
    which Python evaluates the dictionary display. *)
Definition generate_product (i : nat) : M Product :=
  category <- random_choice categories ;;
  let product_id := String "P" (fmt_0d 4 i) in
  brand <- random_choice brands ;;
  price <- random_uniform 10 500 ;;
  cost <- random_uniform 5 250 ;;
  stock_quantity <- random_randint 0 500 ;;
  rating <- random_uniform 3 5 ;;
  num_reviews <- random_randint 0 200 ;;
  days <- random_randint 30 365 ;;
  ret {| p_id := product_id;
         p_product_id := product_id;
         p_name := (category ++ " Product " ++ py_str i)%string;
         p_category := category;
         p_brand := brand;
         p_price := py_round price 2;
         p_cost := py_round cost 2;
         p_stock_quantity := stock_quantity;
         p_rating := py_round rating 1;
         p_num_reviews := num_reviews;
         p_created_date := - days |}.

Definition generate_products (n : nat) : M (list Product) :=
  for_each (range 1 (n + 1))
    (fun i products => product <- generate_product i ;; ret (products ++ [product]))
    [].

(** ** [generate_customers] *)

Definition cities : list string :=
  ["New York"; "Los Angeles"; "Chicago"; "Houston"; "Phoenix"; "Philadelphia";
   "San Antonio"; "San Diego"; "Dallas"; "San Jose"]%string.

Definition states : list string :=
  ["NY"; "CA"; "IL"; "TX"; "AZ"; "PA"; "TX"; "CA"; "TX"; "CA"]%string.

(** [l[k]]: a negative index counts from the end of the list. *)
Definition py_index {A} (l : list A) (k : Z) : M A :=
  let k' := if k <? 0 then k + Z.of_nat (List.length l) else k in
  match (if k' <? 0 then None else nth_error l (Z.to_nat k')) with
  | Some x => ret x
  | None => raise (IndexError "list index out of range")
  end.

Definition generate_customer (i : nat) : M Customer :=
  city_idx <- random_randint 0 (Z.of_nat (List.length cities) - 1) ;;
  let customer_id := String "C" (fmt_0d 5 i) in
  city <- py_index cities city_idx ;;
  state <- py_index states city_idx ;;
  days <- random_randint 1 730 ;;
  tier <- random_choice ["Bronze"; "Silver"; "Gold"; "Platinum"]%string ;;
  ret {| c_id := customer_id;
         c_customer_id := customer_id;
         c_name := ("Customer " ++ py_str i)%string;
         c_email := ("customer" ++ py_str i ++ "@email.com")%string;
         c_city := city;
         c_state := state;
         c_join_date := - days;
         c_loyalty_tier := tier;
         c_total_spent := 0;
         c_order_count := 0 |}.

Definition generate_customers (n : nat) : M (list Customer) :=
  for_each (range 1 (n + 1))
    (fun i customers => customer <- generate_customer i ;; ret (customers ++ [customer]))
    [].

(** ** [generate_orders] *)

(** Body of the inner loop; the loop state is [(items, total_amount)]. *)
Definition generate_item (products : list Product) (_ : nat)
    (st : list Item * Q) : M (list Item * Q) :=
  let '(items, total_amount) := st in
  product <- random_choice products ;;
  quantity <- random_randint 1 3 ;;
  let item_total := (p_price product * inject_Z quantity)%Q in
  let total_amount := (total_amount + item_total)%Q in
  ret (items ++ [ {| i_product_id := p_product_id product;
                     i_product_name := p_name product;
                     i_category := p_category product;
                     i_quantity := quantity;
                     i_unit_price := p_price product;
                     i_item_total := py_round item_total 2 |} ],
       total_amount).

Definition generate_order (customers : list Customer) (products : list Product)
    (i : nat) : M Order :=
  customer <- random_choice customers ;;
  days <- random_randint 0 180 ;;
  num_items <- random_randint 1 5 ;;
  st <- for_each (range 0 (Z.to_nat num_items)) (generate_item products) ([], 0%Q) ;;
  let '(items, total_amount) := st in
  shipping <- random_uniform 5 15 ;;
  status <- random_choice ["Completed"; "Completed"; "Completed"; "Pending"; "Shipped"]%string ;;
  payment <- random_choice ["Credit Card"; "Debit Card"; "PayPal"; "Cash"]%string ;;
  ret {| o_order_id := String "O" (fmt_0d 6 i);
         o_id := String "O" (fmt_0d 6 i);
         o_customer_id := c_customer_id customer;
         o_customer_name := c_name customer;
         o_customer_city := c_city customer;
         o_customer_state := c_state customer;
         o_order_date := - days;
         o_items := items;
         o_total_amount := py_round total_amount 2;
         o_shipping_cost := py_round shipping 2;
         o_tax := py_round (total_amount * (8 # 100)) 2;
         o_status := status;
         o_payment_method := payment |}.

Definition generate_orders (customers : list Customer) (products : list Product)
    (n : nat) : M (list Order) :=
  for_each (range 1 (n + 1))
    (fun i orders => order <- generate_order customers products i ;; ret (orders ++ [order]))
    [].

(** ** [generate_reviews] *)

(** [review_texts.get(rating, "Good product")]. *)
Definition review_text_of (rating : Z) : string :=
  match rating with
  | 1 => "Very disappointed with this purchase. Would not recommend."
  | 2 => "Below expectations. Several issues encountered."
  | 3 => "Average product. Does the job but nothing special."
  | 4 => "Good product. Happy with the purchase overall."
  | 5 => "Excellent quality! Exceeded my expectations. Highly recommend!"
  | _ => "Good product"
  end%string.

(** Body of the loop: a review is appended only when the chosen order
    has at least one item. *)
Definition generate_review (orders : list Order) (i : nat)
    (reviews : list Review) : M (list Review) :=
  order <- random_choice orders ;;
  match o_items order with
  | [] => ret reviews
  | _ :: _ =>
      item <- random_choice (o_items order) ;;
      rating <- random_randint 1 5 ;;
      days <- random_randint 1 30 ;;
      helpful_votes <- random_randint 0 50 ;;
      ret (reviews ++ [ {| r_review_id := String "R" (fmt_0d 5 i);
                           r_id := String "R" (fmt_0d 5 i);
                           r_order_id := o_order_id order;
                           r_product_id := i_product_id item;
                           r_product_name := i_product_name item;
                           r_customer_id := o_customer_id order;
                           r_customer_name := o_customer_name order;
                           r_rating := rating;
                           r_review_text := review_text_of rating;
                           r_review_date := o_order_date order + days;
                           r_helpful_votes := helpful_votes |} ])
  end.

Definition generate_reviews (orders : list Order) (n : nat) : M (list Review) :=
  for_each (range 1 (n + 1)) (generate_review orders) [].

(** ** The data-generation step of [upload_to_cosmos_db] *)

Record Dataset := {
  products : list Product;
  customers : list Customer;
  orders : list Order;
  reviews : list Review
}.

Definition generate_data (min_docs : Z) : M Dataset :=
  let n_products := py_max min_docs 25 in
  let n_customers := py_max min_docs 25 in
  let n_orders := py_max min_docs 30 in
  let n_reviews := py_max min_docs 25 in
  ps <- generate_products (Z.to_nat n_products) ;;
  cs <- generate_customers (Z.to_nat n_customers) ;;
  os <- generate_orders cs ps (Z.to_nat n_orders) ;;
  rs <- generate_reviews os (Z.to_nat n_reviews) ;;
  ret {| products := ps; customers := cs; orders := os; reviews := rs |}.

(** ** Specifications of generator computations *)

(** Partial correctness: every value the computation returns satisfies [P]. *)
Definition ensures {A} (m : M A) (P : A -> Prop) : Prop :=
  forall g a g', m g = (Returns a, g') -> P a.

(** Total correctness: the computation returns, with a value satisfying [P]. *)
Definition returns {A} (m : M A) (P : A -> Prop) : Prop :=
  forall g, exists a g', m g = (Returns a, g') /\ P a.

End Generators.

(* --------------------------------------------------------------------- *)
(** ** The batch uploader of [upload_to_cosmos_db]                         *)
(* --------------------------------------------------------------------- *)

(** *** The document store *)

(** Side effects of the uploader, in the order in which they happen:
    write calls on a collection and calls of [time.sleep]. *)
Inductive event (Doc Id : Type) : Type :=
| EBulkWrite (coll : string) (docs : list Doc)
| EInsertOne (coll : string) (doc : Doc)
| EDeleteMany (coll : string) (ids : list Id)
| ESleep (seconds : Q).
Arguments EBulkWrite {Doc Id} coll docs.
Arguments EInsertOne {Doc Id} coll doc.
Arguments EDeleteMany {Doc Id} coll ids.
Arguments ESleep {Doc Id} seconds.

(** [BulkWriteResult]; [None] when the attribute is missing. *)
Record bulk_write_result := { inserted_count : option Z }.

(** The pymongo collection operations the uploader calls, on a database
    state [W].  Reads leave the state unchanged; every call may raise. *)
Class Store (W Doc Id : Type) := {
  bulk_write : string -> list Doc -> W -> py bulk_write_result * W;
  insert_one : string -> Doc -> W -> py unit * W;
  delete_many : string -> list Id -> W -> py Z * W;       (* [deleted_count] *)
  count_documents : string -> W -> py Z;
  find_ids : string -> Z -> W -> py (list Id)             (* [find({}, {'_id': 1}).limit(n)] *)
}.

(** [range(0, stop, step)]. *)
Definition py_range_step (stop step : Z) : py (list Z) :=
  if step =? 0 then Raises (ValueError "range() arg 3 must not be zero")
  else if step <? 0 then Returns []
  else Returns (map (fun k => Z.of_nat k * step) (seq 0 (Z.to_nat ((stop + step - 1) / step)))).

(** [data[i:j]] for [0 <= i <= j]. *)
Definition py_slice {A} (data : list A) (i j : Z) : list A :=
  firstn (Z.to_nat (j - i)) (skipn (Z.to_nat i) data).

(** The rate-limit test on [str(e)]. *)
Definition is_rate_limit (msg : string) : bool :=
  contains "16500" msg || contains "429" msg || contains "RequestRateTooLarge" msg
  || contains "TooManyRequests" msg || contains "RetryAfterMs" msg.

(** [(2 ** attempt) * BATCH_DELAY + (u * 0.5)] for the draw [u] of [random.random()]. *)
Definition backoff_delay (attempt : Z) (u : Q) : Q :=
  (inject_Z (2 ^ attempt) * inject_Z BATCH_DELAY + u * (1 # 2))%Q.

Definition max_retries : Z := 5.

Section Uploader.
Context {G : Type} `{Rng G} {W Doc Id : Type} `{Store W Doc Id}.

(** State of a run: the database, the random source, the effects so far. *)
Record UState := {
  world : W;
  rng : G;
  log : list (event Doc Id)
}.

(** Computations of the uploader: [None] when a loop without a bound in the
    source is cut off by the fuel of the model. *)
Definition U (A : Type) : Type := UState -> option (py A * UState).

Definition retU {A} (a : A) : U A := fun st => Some (Returns a, st).
Definition raiseU {A} (e : exn) : U A := fun st => Some (Raises e, st).
Definition out_of_fuel {A} : U A := fun _ => None.
Definition bindU {A B} (m : U A) (k : A -> U B) : U B :=
  fun st => match m st with
            | Some (Returns a, st') => k a st'
            | Some (Raises e, st') => Some (Raises e, st')
            | None => None
            end.

Notation "x <- m ;; k" := (bindU m (fun x => k))
  (at level 61, m at next level, right associativity).
Notation "m ;;; k" := (bindU m (fun _ => k))
  (at level 61, right associativity).

Fixpoint for_eachU {A S} (xs : list A) (body : A -> S -> U S) (acc : S) : U S :=
  match xs with
  | [] => retU acc
  | x :: xs' => acc' <- body x acc ;; for_eachU xs' body acc'
  end.

(** [time.sleep(seconds)]. *)
Definition sleep (seconds : Q) : U unit :=
  fun st => Some (Returns tt, {| world := world st; rng := rng st;
                                 log := log st ++ [ESleep seconds] |}).

(** [random.random()] on the shared generator. *)
Definition randomU : U Q :=
  fun st => let (u, g') := next_float (rng st) in
            Some (Returns u, {| world := world st; rng := g'; log := log st |}).

(** The write calls, with their outcome reified so that the [try]
    statements around them can dispatch on it. *)
Definition call_bulk_write (coll : string) (docs : list Doc) : U (py bulk_write_result) :=
  fun st => let (r, w') := bulk_write coll docs (world st) in
            Some (Returns r, {| world := w'; rng := rng st;
                                log := log st ++ [EBulkWrite coll docs] |}).

Definition call_insert_one (coll : string) (doc : Doc) : U (py unit) :=
  fun st => let (r, w') := insert_one coll doc (world st) in
            Some (Returns r, {| world := w'; rng := rng st;
                                log := log st ++ [EInsertOne coll doc] |}).

Definition call_delete_many (coll : string) (ids : list Id) : U (py Z) :=
  fun st => let (r, w') := delete_many coll ids (world st) in
            Some (Returns r, {| world := w'; rng := rng st;
                                log := log st ++ [EDeleteMany coll ids] |}).

Definition call_count_documents (coll : string) : U Z :=
  fun st => match count_documents coll (world st) with
            | Returns n => Some (Returns n, st)
            | Raises e => Some (Raises e, st)
            end.

Definition call_find_ids (coll : string) (limit : Z) : U (list Id) :=
  fun st => match find_ids coll limit (world st) with
            | Returns l => Some (Returns l, st)
            | Raises e => Some (Raises e, st)
            end.

(** *** [insert_in_batches] *)

(** The per-document fallback: [for doc in batch: try: insert_one ...]. *)
Fixpoint insert_one_by_one (coll : string) (batch : list Doc) (inserted : Z) : U Z :=
  match batch with
  | [] => retU inserted
  | doc :: rest =>
      r <- call_insert_one coll doc ;;
      match r with
      | Returns _ => sleep (1 # 2) ;;; insert_one_by_one coll rest (inserted + 1)
      | Raises _ => insert_one_by_one coll rest inserted
      end
  end.

(** The [while attempt <= max_retries] loop for one batch.  Each iteration
    either leaves the loop or increments [attempt], so [max_retries + 1]
    units of fuel are enough. *)
Fixpoint write_loop (fuel : nat) (coll : string) (batch : list Doc)
    (attempt inserted : Z) : U Z :=
  match fuel with
  | O => out_of_fuel
  | S fuel' =>
      if attempt <=? max_retries then
        r <- call_bulk_write coll batch ;;
        match r with
        | Returns result =>
            let batch_inserted :=
              match inserted_count result with
              | Some k => k
              | None => Z.of_nat (List.length batch)
              end in
            sleep (inject_Z BATCH_DELAY) ;;;
            retU (inserted + batch_inserted)
        | Raises (BulkWriteError details) =>
            let n_success :=
              match details with
              | Some d => match nInserted d with Some k => k | None => 0 end
              | None => 0
              end in
            sleep (inject_Z (BATCH_DELAY * 2)) ;;;
            retU (inserted + n_success)
        | Raises (PyMongoError msg) =>
            if is_rate_limit msg then
              u <- randomU ;;
              sleep (backoff_delay attempt u) ;;;
              let attempt := attempt + 1 in
              if attempt >? max_retries then retU inserted
              else write_loop fuel' coll batch attempt inserted
            else insert_one_by_one coll batch inserted
        | Raises e => raiseU e
        end
      else retU inserted
  end.

(** Body of the [for i in range(0, total, batch_size)] loop. *)
Definition insert_batch (coll : string) (data : list Doc) (batch_size : Z)
    (i inserted : Z) : U Z :=
  let batch := py_slice data i (i + batch_size) in
  write_loop (S (Z.to_nat max_retries)) coll batch 0 inserted.

Definition insert_in_batches (coll : string) (data : list Doc) (batch_size : Z) : U Z :=
  let total := Z.of_nat (List.length data) in
  match py_range_step total batch_size with
  | Raises e => raiseU e
  | Returns starts => for_eachU starts (insert_batch coll data batch_size) 0
  end.

(** *** [clear_collection_safely] *)

(** The [while True] loop; the source puts no bound on it. *)
Fixpoint clear_loop (fuel : nat) (coll : string) (batch_size deleted : Z) : U Z :=
  match fuel with
  | O => out_of_fuel
  | S fuel' =>
      ids <- call_find_ids coll batch_size ;;
      match ids with
      | [] => retU deleted
      | _ :: _ =>
          r <- call_delete_many coll ids ;;
          match r with
          | Returns n => sleep (3 # 2) ;;; clear_loop fuel' coll batch_size (deleted + n)
          | Raises e =>
              if is_PyMongoError e
              then sleep 3 ;;; clear_loop fuel' coll batch_size deleted
              else raiseU e
          end
      end
  end.

Definition clear_collection_safely (fuel : nat) (coll : string) : U Z :=
  clear_loop fuel coll 20 0.

(** *** The upload block of one entity kind *)

(** The block repeated for products, customers, orders and reviews; the
    flags [FORCE_UPLOAD] and [MIN_DOCS_PER_COLLECTION] are parameters.
    Returns the number of inserted documents, or [None] when the upload is
    skipped.  [insert_in_batches] is called with its default
    [batch_size=10]. *)
Definition upload_collection (force_upload : bool) (min_docs : Z) (fuel : nat)
    (coll : string) (data : list Doc) : U (option Z) :=
  count <- call_count_documents coll ;;
  if force_upload || (count <? min_docs) then
    (if (count >? 0) && force_upload
     then clear_collection_safely fuel coll
     else retU 0) ;;;
    inserted <- insert_in_batches coll data 10 ;;
    retU (Some inserted)
  else retU None.

(** The insert calls recorded in a log. *)
Definition is_insert (coll : string) (e : event Doc Id) : bool :=
  match e with
  | EBulkWrite c _ | EInsertOne c _ => String.eqb c coll
  | _ => false
  end.

Definition insert_calls (coll : string) (l : list (event Doc Id)) : nat :=
  List.length (filter (is_insert coll) l).

(** An effect on the collection [coll], or a sleep. *)
Definition event_on (coll : string) (e : event Doc Id) : Prop :=
  match e with
  | EBulkWrite c _ | EInsertOne c _ | EDeleteMany c _ => c = coll
  | ESleep _ => True
  end.

(** Every effect the computation adds is on the collection [coll]. *)
Definition only_touches (coll : string) {A} (m : U A) : Prop :=
  forall st r st', m st = Some (r, st') ->
                   exists evs, log st' = log st ++ evs /\ Forall (event_on coll) evs.

(** The computation is not cut off by the fuel. *)
Definition finishes {A} (m : U A) : Prop :=
  forall st, exists r st', m st = Some (r, st').

(** The trace of a batch whose attempts are all rate limited: one write
    and one backoff sleep per draw of [us], from attempt number [attempt]. *)
Fixpoint backoff_trace (coll : string) (batch : list Doc) (attempt : Z) (us : list Q)
    : list (event Doc Id) :=
  match us with
  | [] => []
  | u :: us' =>
      EBulkWrite coll batch :: ESleep (backoff_delay attempt u)
      :: backoff_trace coll batch (attempt + 1) us'
  end.

End Uploader.

Arguments UState {G W Doc Id}.
Arguments U {G W Doc Id} A.

(** *** Generation followed by the four upload blocks *)

(** A document of one of the four kinds. *)
Inductive AnyDoc : Type :=
| DocProduct (p : Product)
| DocCustomer (c : Customer)
| DocOrder (o : Order)
| DocReview (r : Review).

Section UploadAll.
Context {G : Type} `{Rng G} {W Id : Type} `{Store W AnyDoc Id}.

(** A generator step run on the random source of the uploader. *)
Definition run_generator {A} (m : @M G A) : @U G W AnyDoc Id A :=
  fun st => let (r, g') := m (rng st) in
            Some (r, {| world := world st; rng := g'; log := log st |}).

(** The data generation of [upload_to_cosmos_db] and its four upload
    blocks, in the order of the script (the connection, the optional reset
    and the read-only report around them are not modelled).  Returns what
    each block inserted. *)
Definition upload_generated_data (fuel : nat)
    : @U G W AnyDoc Id (option Z * option Z * option Z * option Z) :=
  bindU (run_generator (generate_data MIN_DOCS_PER_COLLECTION)) (fun d =>
  bindU (upload_collection FORCE_UPLOAD MIN_DOCS_PER_COLLECTION fuel
           "products" (map DocProduct (products d))) (fun n_products =>
  bindU (upload_collection FORCE_UPLOAD MIN_DOCS_PER_COLLECTION fuel
           "customers" (map DocCustomer (customers d))) (fun n_customers =>
  bindU (upload_collection FORCE_UPLOAD MIN_DOCS_PER_COLLECTION fuel
           "orders" (map DocOrder (orders d))) (fun n_orders =>
  bindU (upload_collection FORCE_UPLOAD MIN_DOCS_PER_COLLECTION fuel
           "reviews" (map DocReview (reviews d))) (fun n_reviews =>
  retU (n_products, n_customers, n_orders, n_reviews)))))).

End UploadAll.

(** The number of documents of each bulk write recorded in a log. *)
Definition bulk_write_sizes {Doc Id : Type} (l : list (event Doc Id)) : list nat :=
  flat_map (fun e => match e with
                     | EBulkWrite _ docs => [List.length docs]
                     | _ => []
                     end) l.

(** *** A fake store for concrete runs *)

(** Documents are numbers and are their own [_id]; the store keeps the
    documents of every collection and either accepts every write or
    rejects every write with the rate-limit error of Cosmos DB. *)
Record FakeDb := {
  fk_docs : list (string * nat);
  fk_throttled : bool
}.

Definition fk_collection (coll : string) (db : FakeDb) : list nat :=
  map snd (filter (fun d => String.eqb (fst d) coll) (fk_docs db)).

Definition fk_rate_limit_error : exn :=
  PyMongoError "Error=16500, RetryAfterMs=50, Details='Request rate is large'".

#[export] Instance fake_store : Store FakeDb nat nat := {|
  bulk_write coll docs db :=
    if fk_throttled db then (Raises fk_rate_limit_error, db)
    else (Returns {| inserted_count := Some (Z.of_nat (List.length docs)) |},
          {| fk_docs := fk_docs db ++ map (fun d => (coll, d)) docs;
             fk_throttled := false |});
  insert_one coll doc db :=
    if fk_throttled db then (Raises fk_rate_limit_error, db)
    else (Returns tt,
          {| fk_docs := fk_docs db ++ [(coll, doc)]; fk_throttled := false |});
  delete_many coll ids db :=
    if fk_throttled db then (Raises fk_rate_limit_error, db)
    else (Returns (Z.of_nat (List.length
                     (filter (fun d => String.eqb (fst d) coll && existsb (Nat.eqb (snd d)) ids)
                             (fk_docs db)))),
          {| fk_docs := filter (fun d => negb (String.eqb (fst d) coll
                                               && existsb (Nat.eqb (snd d)) ids))
                               (fk_docs db);
             fk_throttled := false |});
  count_documents coll db := Returns (Z.of_nat (List.length (fk_collection coll db)));
  find_ids coll limit db := Returns (firstn (Z.to_nat limit) (fk_collection coll db))
|}.

(** An initial state of the uploader on the fake store. *)
Definition fake_state (docs : list (string * nat)) (throttled : bool) (t : tape)
    : @UState tape FakeDb nat nat :=
  {| world := {| fk_docs := docs; fk_throttled := throttled |}; rng := t; log := [] |}.

(** *** A store with fixed answers *)

(** Every bulk write gets the same answer, and [insert_one] rejects the
    documents (numbers) that [fx_rejects] selects; the store keeps
    nothing. *)
Record FixedDb := {
  fx_bulk_write : py bulk_write_result;
  fx_rejects : nat -> bool
}.

#[export] Instance fixed_store : Store FixedDb nat nat := {|
  bulk_write coll docs db := (fx_bulk_write db, db);
  insert_one coll doc db :=
    if fx_rejects db doc
    then (Raises (OtherException "E11000 duplicate key error collection"), db)
    else (Returns tt, db);
  delete_many coll ids db := (Returns 0, db);
  count_documents coll db := Returns 0;
  find_ids coll limit db := Returns []
|}.

Definition fixed_state (answer : py bulk_write_result) (rejects : nat -> bool) (t : tape)
    : @UState tape FixedDb nat nat :=
  {| world := {| fx_bulk_write := answer; fx_rejects := rejects |}; rng := t; log := [] |}.

(** A rate-limit signal of Cosmos DB delivered as the write error of a
    [BulkWriteError]. *)
Definition throttled_bulk_error : exn :=
  BulkWriteError
    (Some {| nInserted := Some 0;
             writeErrors :=
               Some ["Error=16500, RetryAfterMs=50, Details='Request rate is large'"%string] |}).

(* --------------------------------------------------------------------- *)
(** ** The query functions of [dashboard_retail.py]                        *)
(* --------------------------------------------------------------------- *)

(** *** Documents and data frames *)

Inductive value : Type :=
| VNull
| VInt (z : Z)
| VNum (q : Q)
| VStr (s : string).

(** A document returned by a query: a [dict] in key order. *)
Definition document : Type := list (string * value).

Definition doc_get (d : document) (key : string) : option value :=
  match find (fun kv => String.eqb (fst kv) key) d with
  | Some kv => Some (snd kv)
  | None => None
  end.

(** A [pandas.DataFrame]: column labels and rows of cells (a missing cell
    is [None]). *)
Record DataFrame := {
  df_columns : list string;
  df_rows : list (list (option value))
}.

(** [pd.DataFrame()]. *)
Definition empty_frame : DataFrame := {| df_columns := []; df_rows := [] |}.

(** [pd.DataFrame(data)] for a list of dicts: the columns are the keys in
    order of first appearance. *)
Fixpoint add_keys (cols : list string) (d : document) : list string :=
  match d with
  | [] => cols
  | (k, _) :: d' =>
      add_keys (if existsb (String.eqb k) cols then cols else cols ++ [k]) d'
  end.

Definition frame_of_records (data : list document) : DataFrame :=
  let cols := fold_left add_keys data [] in
  {| df_columns := cols; df_rows := map (fun d => map (doc_get d) cols) data |}.

(** [df.empty]: some axis has length 0. *)
Definition df_empty (df : DataFrame) : bool :=
  match df_columns df, df_rows df with
  | [], _ => true
  | _, [] => true
  | _, _ => false
  end.

(** [df.columns = names], which raises on a length mismatch. *)
Definition set_columns (df : DataFrame) (names : list string) : py DataFrame :=
  if (List.length names =? List.length (df_columns df))%nat
  then Returns {| df_columns := names; df_rows := df_rows df |}
  else Raises (ValueError "Length mismatch").

(** *** Aggregation pipelines *)

Inductive accumulator : Type :=
| SumOne                          (* [{'$sum': 1}] *)
| SumField (field : string)
| AvgField (field : string)
| FirstField (field : string).

Inductive stage : Type :=
| Group (key : string) (fields : list (string * accumulator))
| MatchGte (field : string) (bound : Z)
| Sort (keys : list (string * Z))
| Limit (n : Z).

Definition category_pipeline : list stage :=
  [ Group "$category"
      [ ("total_products", SumOne); ("avg_price", AvgField "$price");
        ("avg_rating", AvgField "$rating"); ("total_stock", SumField "$stock_quantity") ];
    Sort [ ("total_products", -1) ] ]%string.

Definition sales_pipeline : list stage :=
  [ Group "$customer_state"
      [ ("total_orders", SumOne); ("total_revenue", SumField "$total_amount");
        ("avg_order_value", AvgField "$total_amount") ];
    Sort [ ("total_revenue", -1) ] ]%string.

Definition top_products_pipeline : list stage :=
  [ Group "$product_id"
      [ ("product_name", FirstField "$product_name"); ("avg_rating", AvgField "$rating");
        ("review_count", SumOne) ];
    MatchGte "review_count" 2;
    Sort [ ("avg_rating", -1); ("review_count", -1) ];
    Limit 15 ]%string.

(** *** The database client *)

(** What the dashboard asks of a connected client: the handshake
    [server_info()], [list(db.<coll>.find({}, {'_id': 0}))] and
    [list(db.<coll>.aggregate(pipeline))].  Each may raise. *)
Record MongoClient := {
  server_info : py unit;
  find_all : string -> py (list document);
  aggregate : string -> list stage -> py (list document)
}.

(** *** Computations that write [st.error] messages *)

Definition D (A : Type) : Type := list string -> py A * list string.

Definition retD {A} (a : A) : D A := fun out => (Returns a, out).
Definition liftD {A} (r : py A) : D A := fun out => (r, out).
Definition bindD {A B} (m : D A) (k : A -> D B) : D B :=
  fun out => match m out with
             | (Returns a, out') => k a out'
             | (Raises e, out') => (Raises e, out')
             end.

(** [st.error(msg)]. *)
Definition st_error (msg : string) : D unit := fun out => (Returns tt, out ++ [msg]).

(** [try: body  except Exception as e: handler(e)]. *)
Definition try_except {A} (body : D A) (handler : exn -> D A) : D A :=
  fun out => match body out with
             | (Returns a, out') => (Returns a, out')
             | (Raises e, out') => handler e out'
             end.

Section Dashboard.

Notation "x <- m ;; k" := (bindD m (fun x => k))
  (at level 61, m at next level, right associativity).
Notation "m ;;; k" := (bindD m (fun _ => k))
  (at level 61, right associativity).

(** [connect] stands for the call [MongoClient(COSMOS_CONNECTION_STRING, ...)].
    The [st.cache_resource] and [st.cache_data] decorators, which replay
    the value of an earlier call, are not modelled. *)
Variable connect : py MongoClient.

Definition init_connection : D (option MongoClient) :=
  try_except
    (client <- liftD connect ;;
     liftD (server_info client) ;;;
     retD (Some client))
    (fun e =>
       st_error ("Failed to connect to Azure Cosmos DB: " ++ exn_str e) ;;;
       retD None).

(** The four loaders differ in the collection and in the message only. *)
Definition load_collection (coll : string) (message : string) : D DataFrame :=
  try_except
    (client <- init_connection ;;
     match client with
     | None => retD empty_frame
     | Some client =>
         data <- liftD (find_all client coll) ;;
         retD (frame_of_records data)
     end)
    (fun e => st_error (message ++ exn_str e) ;;; retD empty_frame).

Definition load_products : D DataFrame :=
  load_collection "products" "Error loading products: ".

Definition load_customers : D DataFrame :=
  load_collection "customers" "Error loading customers: ".

Definition load_orders : D DataFrame :=
  load_collection "orders" "Error loading orders: ".

Definition load_reviews : D DataFrame :=
  load_collection "reviews" "Error loading reviews: ".

(** The three aggregation functions differ in the collection, the
    pipeline, the column labels and the message only. *)
Definition run_aggregation (coll : string) (pipeline : list stage)
    (columns : list string) (message : string) : D DataFrame :=
  try_except
    (client <- init_connection ;;
     match client with
     | None => retD empty_frame
     | Some client =>
         data <- liftD (aggregate client coll pipeline) ;;
         match data with
         | _ :: _ =>
             df <- liftD (set_columns (frame_of_records data) columns) ;;
             retD df
         | [] => retD empty_frame
         end
     end)
    (fun e => st_error (message ++ exn_str e) ;;; retD empty_frame).

Definition get_category_stats : D DataFrame :=
  run_aggregation "products" category_pipeline
    ["category"; "total_products"; "avg_price"; "avg_rating"; "total_stock"]%string
    "Error loading category stats: ".

Definition get_sales_by_state : D DataFrame :=
  run_aggregation "orders" sales_pipeline
    ["state"; "total_orders"; "total_revenue"; "avg_order_value"]%string
    "Error loading sales by state: ".

Definition get_top_products : D DataFrame :=
  run_aggregation "reviews" top_products_pipeline
    ["product_id"; "product_name"; "avg_rating"; "review_count"]%string
    "Error loading top products: ".

End Dashboard.

(** The seven query functions, each with the query it sends to a connected
    client and the prefix of its error message. *)
Record query_fn := {
  q_run : py MongoClient -> D DataFrame;
  q_source : MongoClient -> py (list document);
  q_message : string
}.

Definition dashboard_queries : list query_fn :=
  [ {| q_run := load_products; q_source := fun c => find_all c "products";
       q_message := "Error loading products: " |};
    {| q_run := load_customers; q_source := fun c => find_all c "customers";
       q_message := "Error loading customers: " |};
    {| q_run := load_orders; q_source := fun c => find_all c "orders";
       q_message := "Error loading orders: " |};
    {| q_run := load_reviews; q_source := fun c => find_all c "reviews";
       q_message := "Error loading reviews: " |};
    {| q_run := get_category_stats;
       q_source := fun c => aggregate c "products" category_pipeline;
       q_message := "Error loading category stats: " |};
    {| q_run := get_sales_by_state;
       q_source := fun c => aggregate c "orders" sales_pipeline;
       q_message := "Error loading sales by state: " |};
    {| q_run := get_top_products;
       q_source := fun c => aggregate c "reviews" top_products_pipeline;
       q_message := "Error loading top products: " |} ]%string.

(** A client whose collections are all empty, and one whose queries fail. *)
Definition empty_client : MongoClient :=
  {| server_info := Returns tt;
     find_all := fun _ => Returns [];
     aggregate := fun _ _ => Returns [] |}.

Definition failing_client : MongoClient :=
  {| server_info := Returns tt;
     find_all := fun _ => Raises (PyMongoError "cursor timed out");
     aggregate := fun _ _ => Raises (OtherException "connection reset") |}.

(** ** Sample inputs for concrete runs *)

Definition demo_products : list Product :=
  [ {| p_id := "P0001"; p_product_id := "P0001"; p_name := "Books Product 1";
       p_category := "Books"; p_brand := "BrandA";
       p_price := 1999 # 100; p_cost := 850 # 100; p_stock_quantity := 12;
       p_rating := 45 # 10; p_num_reviews := 3; p_created_date := -40 |} ].

Definition demo_customers : list Customer :=
  [ {| c_id := "C00001"; c_customer_id := "C00001"; c_name := "Customer 1";
       c_email := "customer1@email.com"; c_city := "Chicago"; c_state := "IL";
       c_join_date := -100; c_loyalty_tier := "Gold";
       c_total_spent := 0; c_order_count := 0 |} ].

(** Draws of one order: customer 0, 10 days ago, 1 + 1 items, (product 0,
    quantity 1 + 2), (product 0, quantity 1 + 0), shipping sample 0.5,
    status 0, payment method 0. *)
Definition demo_order_tape : tape := [0; 10; 1; 0; 2; 0; 0; 500; 0; 0].

(** The order [generate_orders] builds from these draws. *)
Definition demo_order : Order :=
  {| o_order_id := "O000001"; o_id := "O000001";
     o_customer_id := "C00001"; o_customer_name := "Customer 1";
     o_customer_city := "Chicago"; o_customer_state := "IL";
     o_order_date := -10;
     o_items :=
       [ {| i_product_id := "P0001"; i_product_name := "Books Product 1";
            i_category := "Books"; i_quantity := 3;
            i_unit_price := 1999 # 100; i_item_total := 5997 # 100 |};
         {| i_product_id := "P0001"; i_product_name := "Books Product 1";
            i_category := "Books"; i_quantity := 1;
            i_unit_price := 1999 # 100; i_item_total := 1999 # 100 |} ];
     o_total_amount := 7996 # 100;
     o_shipping_cost := 1000 # 100;
     o_tax := 640 # 100;
     o_status := "Completed"; o_payment_method := "Credit Card" |}.

(** Draws of one product: category 3, brand 1, price sample 0.345, cost
    sample 0.250, stock 7, rating sample 0.235, 9 reviews, 30 + 40 days. *)
Definition demo_product_tape : tape := [3; 1; 12345; 250; 7; 235; 9; 40].

(** The product [generate_products] builds from these draws. *)
Definition demo_product : Product :=
  {| p_id := "P0001"; p_product_id := "P0001"; p_name := "Sports Product 1";
     p_category := "Sports"; p_brand := "BrandB";
     p_price := 17905 # 100; p_cost := 6625 # 100; p_stock_quantity := 7;
     p_rating := 35 # 10; p_num_reviews := 9; p_created_date := -70 |}.

(** Draws of two customers: (city 2, 1 + 10 days, tier 1) and (city 0,
    1 + 20 days, tier 3). *)
Definition demo_customer_tape : tape := [2; 10; 1; 0; 20; 3].

Definition demo_customer : Customer :=
  {| c_id := "C00001"; c_customer_id := "C00001"; c_name := "Customer 1";
     c_email := "customer1@email.com"; c_city := "Chicago"; c_state := "IL";
     c_join_date := -11; c_loyalty_tier := "Silver";
     c_total_spent := 0; c_order_count := 0 |}.

(** The list a run returned, empty if it raised. *)
Definition returned {A S : Type} (r : py (list A) * S) : list A :=
  match fst r with
  | Returns l => l
  | Raises _ => []
  end.

(** ** Vocabulary of the statements *)

(** The identifier format of a kind: one prefix letter followed by exactly
    [w] decimal digits. *)
Definition is_digit (c : ascii) : bool :=
  ((48 <=? nat_of_ascii c) && (nat_of_ascii c <=? 57))%nat.

Fixpoint all_digits (s : string) : bool :=
  match s with
  | EmptyString => true
  | String c s' => is_digit c && all_digits s'
  end.

Definition id_format (prefix : ascii) (w : nat) (s : string) : bool :=
  match s with
  | EmptyString => false
  | String c rest => Ascii.eqb c prefix && (String.length rest =? w)%nat && all_digits rest
  end.

(** The identifiers of a collection of [n] elements: numbered from 1 in
    order, pairwise distinct, and of the fixed width [w] as long as [n] has
    at most [w] digits. *)
Definition ids_ok (prefix : ascii) (w n : nat) (ids : list string) : Prop :=
  ids = map (fun i => String prefix (fmt_0d w i)) (seq 1 n) /\
  NoDup ids /\
  (Z.of_nat n < 10 ^ Z.of_nat w ->
   Forall (fun s => id_format prefix w s = true) ids).

Section ProductSamples.
Context {G : Type} `{Rng G}.

Local Notation "x <- m ;; k" := (bind m (fun x => k))
  (at level 61, m at next level, right associativity).

(** The state of the random source once [generate_products] has built [k]
    products from the state [g]: the state from which product number
    [k + 1] is built. *)
Definition state_after_products (k : nat) (g : G) : G :=
  snd (generate_products k g).

(** The numbers that the three calls of [random.uniform] return while a
    product is built from the state [g], for the price, the cost and the
    rating: three separate draws, made after those of the category and of
    the brand, the draw of the stock coming between the cost and the
    rating. *)
Definition product_samples (g : G) : py (Q * Q * Q) :=
  fst ((category <- random_choice categories ;;
        brand <- random_choice brands ;;
        price <- random_uniform 10 500 ;;
        cost <- random_uniform 5 250 ;;
        stock_quantity <- random_randint 0 500 ;;
        rating <- random_uniform 3 5 ;;
        ret (price, cost, rating)) g).

End ProductSamples.

(** The error carries one of the rate-limit markers of Cosmos DB: a
    [PyMongoError] in its message, a [BulkWriteError] in the [errmsg] of
    one of its write errors. *)
Definition carries_rate_limit_signal (e : exn) : bool :=
  match e with
  | PyMongoError msg => is_rate_limit msg
  | BulkWriteError (Some details) =>
      match writeErrors details with
      | Some errmsgs => existsb is_rate_limit errmsgs
      | None => false
      end
  | _ => false
  end.

(** What a query function [run] does on every outcome [connect] of
    creating the client, given the query [source] it sends and the prefix
    [message] of its error message: it returns a frame; on a connected
    client the frame is empty, without a message, when the query returns
    no document, and is the empty frame, with one error message, when the
    query raises; without a connection it is the empty frame. *)
Definition degrades_to_empty_frame (run : py MongoClient -> D DataFrame)
    (source : MongoClient -> py (list document)) (message : string) : Prop :=
  forall (connect : py MongoClient) (out : list string),
  exists df out',
    run connect out = (Returns df, out') /\
    (forall client,
        connect = Returns client -> server_info client = Returns tt ->
        (source client = Returns [] -> df_empty df = true /\ out' = out) /\
        (forall e, source client = Raises e ->
                   df = empty_frame /\ out' = out ++ [(message ++ exn_str e)%string])) /\
    (forall e, connect = Raises e -> df = empty_frame) /\
    (forall client e,
        connect = Returns client -> server_info client = Raises e -> df = empty_frame).

(** [x] and [y] differ by at most [tol]. *)
Definition within (tol x y : Q) : Prop := (x - y <= tol /\ y - x <= tol)%Q.

(** [x] has at most [nd] decimals: rounding to [nd] decimals leaves it unchanged. *)
Definition has_decimals (nd : nat) (x : Q) : Prop := (py_round x nd == x)%Q.

(** The tolerance left by [k] roundings to two decimals: [k] half cents. *)
Definition half_cents (k : nat) : Q := (inject_Z (Z.of_nat k) * (1 # 200))%Q.

(** The unrounded total of a line item, [unit_price * quantity]. *)
Definition item_raw (it : Item) : Q := (i_unit_price it * inject_Z (i_quantity it))%Q.

(** *** What each loop body guarantees *)

(** What the loop body guarantees of the product built for index [i]. *)
Definition product_ok (i : nat) (p : Product) : Prop :=
  p_id p = String "P" (fmt_0d 4 i) /\
  p_product_id p = String "P" (fmt_0d 4 i) /\
  ((10 <= p_price p <= 500)%Q /\ has_decimals 2 (p_price p)) /\
  ((5 <= p_cost p <= 250)%Q /\ has_decimals 2 (p_cost p)) /\
  ((3 <= p_rating p <= 5)%Q /\ has_decimals 1 (p_rating p)).

(** What the loop body guarantees of the customer built for index [i]. *)
Definition customer_ok (i : nat) (c : Customer) : Prop :=
  c_id c = String "C" (fmt_0d 5 i) /\
  c_customer_id c = String "C" (fmt_0d 5 i) /\
  exists idx : nat,
    (idx < 10)%nat /\
    nth_error cities idx = Some (c_city c) /\
    nth_error states idx = Some (c_state c).

(** A line item copies a product of [products] and carries the rounded
    product of its unit price and quantity. *)
Definition item_ok (products : list Product) (it : Item) : Prop :=
  (exists p, In p products /\
             i_product_id it = p_product_id p /\
             i_unit_price it = p_price p) /\
  1 <= i_quantity it <= 3 /\
  i_item_total it = py_round (item_raw it) 2.

(** Invariant of the inner loop of [generate_orders] after the iterations
    listed in [pre]. *)
Definition items_inv (products : list Product) (pre : list nat) (st : list Item * Q) : Prop :=
  List.length (fst st) = List.length pre /\
  Forall (item_ok products) (fst st) /\
  (snd st == Qsum (map item_raw (fst st)))%Q.

(** What the loop body guarantees of the order built for index [i]. *)
Definition order_ok (customers : list Customer) (products : list Product)
    (i : nat) (o : Order) : Prop :=
  o_order_id o = String "O" (fmt_0d 6 i) /\
  o_id o = String "O" (fmt_0d 6 i) /\
  (exists c, In c customers /\ o_customer_id o = c_customer_id c) /\
  (1 <= List.length (o_items o) <= 5)%nat /\
  Forall (item_ok products) (o_items o) /\
  (o_total_amount o == py_round (Qsum (map item_raw (o_items o))) 2)%Q /\
  (o_tax o == py_round (Qsum (map item_raw (o_items o)) * (8 # 100)) 2)%Q /\
  ((5 <= o_shipping_cost o <= 15)%Q /\ has_decimals 2 (o_shipping_cost o)).

(** A review refers to an order of [orders] and to one of its items. *)
Definition review_refers_to (orders : list Order) (r : Review) : Prop :=
  exists o, In o orders /\
            r_order_id r = o_order_id o /\
            r_customer_id r = o_customer_id o /\
            exists it, In it (o_items o) /\ r_product_id r = i_product_id it.

(** When every order has an item, each iteration appends a review, so
    reviews are numbered like the loop indices. *)
Definition review_id_ok (i : nat) (r : Review) : Prop :=
  r_review_id r = String "R" (fmt_0d 5 i) /\ r_id r = String "R" (fmt_0d 5 i).

(* --------------------------------------------------------------------- *)
(** ** Vocabulary of the further properties                                *)
(* --------------------------------------------------------------------- *)

(** *** Generated records *)

(** The fields of the product built for index [i] that come from the
    fixed tables and integer ranges of [generate_products]. *)
Definition product_fields_ok (i : nat) (p : Product) : Prop :=
  In (p_category p) categories /\
  In (p_brand p) brands /\
  p_name p = (p_category p ++ " Product " ++ py_str i)%string /\
  p_id p = p_product_id p /\
  0 <= p_stock_quantity p <= 500 /\
  0 <= p_num_reviews p <= 200 /\
  -365 <= p_created_date p <= -30.

Definition loyalty_tiers : list string := ["Bronze"; "Silver"; "Gold"; "Platinum"]%string.

(** The fields of the customer built for index [i]. *)
Definition customer_fields_ok (i : nat) (c : Customer) : Prop :=
  c_id c = c_customer_id c /\
  c_name c = ("Customer " ++ py_str i)%string /\
  c_email c = ("customer" ++ py_str i ++ "@email.com")%string /\
  In (c_loyalty_tier c) loyalty_tiers /\
  c_total_spent c = 0 /\
  c_order_count c = 0 /\
  -730 <= c_join_date c <= -1.

(** A line item is a copy of one product of [products]. *)
Definition item_copies_product (products : list Product) (it : Item) : Prop :=
  exists p, In p products /\
            i_product_id it = p_product_id p /\
            i_product_name it = p_name p /\
            i_category it = p_category p /\
            i_unit_price it = p_price p.

(** An order carries the four denormalised fields of one customer of
    [customers], items copied from [products], and a status, a payment
    method and a date from the fixed tables and range. *)
Definition order_fields_ok (customers : list Customer) (products : list Product)
    (o : Order) : Prop :=
  (exists c, In c customers /\
             o_customer_id o = c_customer_id c /\
             o_customer_name o = c_name c /\
             o_customer_city o = c_city c /\
             o_customer_state o = c_state c) /\
  Forall (item_copies_product products) (o_items o) /\
  o_id o = o_order_id o /\
  In (o_status o) ["Completed"; "Pending"; "Shipped"]%string /\
  In (o_payment_method o) ["Credit Card"; "Debit Card"; "PayPal"; "Cash"]%string /\
  -180 <= o_order_date o <= 0.

(** A review copies the customer of one order of [orders] and the name of
    the reviewed item, is dated 1 to 30 days after the order, and its text
    is the one of its rating. *)
Definition review_fields_ok (orders : list Order) (r : Review) : Prop :=
  (exists o it,
      In o orders /\ In it (o_items o) /\
      r_order_id r = o_order_id o /\
      r_customer_id r = o_customer_id o /\
      r_customer_name r = o_customer_name o /\
      r_product_id r = i_product_id it /\
      r_product_name r = i_product_name it /\
      o_order_date o + 1 <= r_review_date r <= o_order_date o + 30) /\
  r_id r = r_review_id r /\
  1 <= r_rating r <= 5 /\
  r_review_text r = review_text_of (r_rating r) /\
  0 <= r_helpful_votes r <= 50.

(** The reviews are numbered by distinct loop indices between 1 and [n]. *)
Definition review_ids_from (n : nat) (rs : list Review) : Prop :=
  exists idxs : list nat,
    map r_review_id rs = map (fun i => String "R" (fmt_0d 5 i)) idxs /\
    NoDup idxs /\
    Forall (fun i => (1 <= i <= n)%nat) idxs.

(** The reviews built before iteration [i] carry distinct indices below [i]. *)
Definition review_ids_below (i : nat) (rs : list Review) : Prop :=
  exists idxs : list nat,
    map r_review_id rs = map (fun j => String "R" (fmt_0d 5 j)) idxs /\
    NoDup idxs /\
    Forall (fun j => (1 <= j < i)%nat) idxs.

Section ReviewIterations.
Context {G : Type} `{Rng G}.

(** The order that [random.choice(orders)] picks at iteration [i] (from 1)
    of [generate_reviews(orders, n)] run from the state [g]: the draw is
    made at the state the first [i - 1] iterations leave. *)
Definition chosen_order (orders : list Order) (g : G) (i : nat) : py Order :=
  fst (random_choice orders (snd (generate_reviews orders (pred i) g))).

(** The order picked at iteration [i] has an item. *)
Definition appends_review (orders : list Order) (g : G) (i : nat) : bool :=
  match chosen_order orders g i with
  | Returns order => match o_items order with [] => false | _ :: _ => true end
  | Raises _ => false
  end.

End ReviewIterations.

(** The error [random.choice] raises on an empty sequence. *)
Definition empty_choice_error : exn :=
  IndexError "Cannot choose from an empty sequence".

(** The computation raises [e] from every state of the random source. *)
Definition raises_with {G A : Type} (m : @M G A) (e : exn) : Prop :=
  forall g, exists g', m g = (Raises e, g').

(** *** The uploader *)

(** The batches [insert_in_batches] goes through: [data[i:i + batch_size]]
    for [i] in [range(0, len(data), batch_size)]. *)
Definition batches {A : Type} (data : list A) (batch_size : Z) : list (list A) :=
  match py_range_step (Z.of_nat (List.length data)) batch_size with
  | Returns starts => map (fun i => py_slice data i (i + batch_size)) starts
  | Raises _ => []
  end.

(** The trace of batches whose bulk write succeeds at the first attempt. *)
Definition success_trace {Doc Id : Type} (coll : string) (bs : list (list Doc))
    : list (event Doc Id) :=
  flat_map (fun b => [EBulkWrite coll b; ESleep (inject_Z BATCH_DELAY)]) bs.

(** The documents passed to [insert_one], in order. *)
Definition insert_one_docs {Doc Id : Type} (l : list (event Doc Id)) : list Doc :=
  flat_map (fun e => match e with
                     | EInsertOne _ doc => [doc]
                     | _ => []
                     end) l.

(** The durations of the sleeps, in order. *)
Definition sleep_durations {Doc Id : Type} (l : list (event Doc Id)) : list Q :=
  flat_map (fun e => match e with
                     | ESleep seconds => [seconds]
                     | _ => []
                     end) l.

Section OneByOne.
Context {W Doc Id : Type} `{Store W Doc Id}.

(** The number of documents of [batch] that go through when they are
    passed to [insert_one] one after the other, from the state [w] of the
    store. *)
Fixpoint accepted_one_by_one (coll : string) (batch : list Doc) (w : W) : Z :=
  match batch with
  | [] => 0
  | doc :: rest =>
      let (r, w1) := insert_one coll doc w in
      match r with
      | Returns _ => 1 + accepted_one_by_one coll rest w1
      | Raises _ => accepted_one_by_one coll rest w1
      end
  end.

End OneByOne.

(** [n_success] of the [except BulkWriteError] clause. *)
Definition reported_inserted (details : option bulk_details) : Z :=
  match details with
  | Some d => match nInserted d with Some k => k | None => 0 end
  | None => 0
  end.

Section Retried.
Context {W Doc Id : Type} `{Store W Doc Id}.

(** [batch_inserted] of a successful bulk write. *)
Definition batch_inserted (batch : list Doc) (result : bulk_write_result) : Z :=
  match inserted_count result with
  | Some k => k
  | None => Z.of_nat (List.length batch)
  end.

(** From the state [w], the store rejects [k] bulk writes of [batch] in a
    row with a rate-limit error, then accepts the next one with [result]
    and is left in the state [w_end]. *)
Fixpoint throttled_then_accepted (coll : string) (batch : list Doc) (k : nat) (w : W)
    (result : bulk_write_result) (w_end : W) : Prop :=
  match k with
  | O => bulk_write coll batch w = (Returns result, w_end)
  | S k' =>
      exists msg w1,
        bulk_write coll batch w = (Raises (PyMongoError msg), w1) /\
        is_rate_limit msg = true /\
        throttled_then_accepted coll batch k' w1 result w_end
  end.

End Retried.

Definition is_delete {Doc Id : Type} (e : event Doc Id) : bool :=
  match e with EDeleteMany _ _ => true | _ => false end.

Definition is_write {Doc Id : Type} (e : event Doc Id) : bool :=
  match e with ESleep _ => false | _ => true end.

Section UploaderVocabulary.
Context {G W Doc Id : Type}.

(** Every effect the computation adds satisfies [P]. *)
Definition adds_only (P : event Doc Id -> Prop) {A} (m : @U G W Doc Id A) : Prop :=
  forall st r st', m st = Some (r, st') ->
                   exists evs, log st' = log st ++ evs /\ Forall P evs.

End UploaderVocabulary.

(** *** The whole of [upload_to_cosmos_db] *)

(** The calls of the script on the client and on the database object,
    besides the collection operations of [Store].  [client_server_info]
    stands for [MongoClient(COSMOS_CONNECTION_STRING, ...)] followed by
    [client.server_info()]; like the other reads, and like
    [client.close()], it leaves the contents of the database as they are. *)
Class Client (W Doc : Type) := {
  client_server_info : W -> py unit;
  drop_database : W -> py unit * W;
  list_collection_names : W -> py (list string);
  find_one : string -> W -> py (option Doc);
  client_close : W -> py unit
}.

(** The values of the dictionary [COLLECTIONS], in the order of its items;
    every key is equal to its value. *)
Definition COLLECTIONS : list string :=
  ["products"; "customers"; "orders"; "reviews"]%string.

Section UploadScript.
Context {G : Type} `{Rng G} {W Id : Type} `{Store W AnyDoc Id} `{Client W AnyDoc}.

Local Abbreviation U := (@U G W AnyDoc Id).

Local Notation "x <- m ;; k" := (bindU m (fun x => k))
  (at level 61, m at next level, right associativity).
Local Notation "m ;;; k" := (bindU m (fun _ => k))
  (at level 61, right associativity).

(** A call that reads the database. *)
Definition call_read {A} (f : W -> py A) : U A :=
  fun st => Some (f (world st), st).

Definition call_drop_database : U unit :=
  fun st => let (r, w') := drop_database (world st) in
            Some (r, {| world := w'; rng := rng st; log := log st |}).

(** [try: body  except Exception as e: handler(e)]. *)
Definition try_exceptU {A} (body : U A) (handler : exn -> U A) : U A :=
  fun st => match body st with
            | Some (Raises e, st') => handler e st'
            | other => other
            end.

(** The [if RESET_DATABASE:] block. *)
Definition reset_database (reset : bool) : U unit :=
  if reset
  then try_exceptU (call_drop_database ;;; sleep 2) (fun _ => retU tt)
  else retU tt.

(** The report of the existing collections before the upload. *)
Definition check_existing : U unit :=
  existing_collections <- call_read list_collection_names ;;
  for_eachU COLLECTIONS
    (fun collection_name _ =>
       if existsb (String.eqb collection_name) existing_collections
       then call_count_documents collection_name ;;; retU tt
       else retU tt)
    tt.

(** The loop of the summary: [all_success] becomes [False] at every
    collection that counts fewer than [min_docs] documents. *)
Definition verify_collections (min_docs : Z) : U bool :=
  for_eachU COLLECTIONS
    (fun collection all_success =>
       count <- call_count_documents collection ;;
       retU (if count <? min_docs then false else all_success))
    true.

(** The sample documents: one [find_one()] on three collections.  What is
    printed of a sample is read with [dict.get], and the [items] of a
    document of one of the four kinds is a list, so that only [find_one]
    can raise. *)
Definition show_samples : U unit :=
  for_eachU ["products"; "orders"; "reviews"]%string
    (fun coll_name _ => call_read (find_one coll_name) ;;; retU tt)
    tt.

(** [upload_to_cosmos_db()]; the messages it prints are left out. *)
Definition upload_to_cosmos_db (fuel : nat) : U bool :=
  try_exceptU
    (call_read client_server_info ;;;
     reset_database RESET_DATABASE ;;;
     d <- run_generator (generate_data MIN_DOCS_PER_COLLECTION) ;;
     check_existing ;;;
     upload_collection FORCE_UPLOAD MIN_DOCS_PER_COLLECTION fuel
       "products" (map DocProduct (products d)) ;;;
     upload_collection FORCE_UPLOAD MIN_DOCS_PER_COLLECTION fuel
       "customers" (map DocCustomer (customers d)) ;;;
     upload_collection FORCE_UPLOAD MIN_DOCS_PER_COLLECTION fuel
       "orders" (map DocOrder (orders d)) ;;;
     upload_collection FORCE_UPLOAD MIN_DOCS_PER_COLLECTION fuel
       "reviews" (map DocReview (reviews d)) ;;;
     all_success <- verify_collections MIN_DOCS_PER_COLLECTION ;;
     show_samples ;;;
     call_read client_close ;;;
     retU all_success)
    (fun _ => retU false).

(** The script as a whole, from the value of the environment variable
    [COSMOS_CONNECTION_STRING] to the exit code: [sys.exit(1)] at import
    when the variable is unset or empty, else
    [sys.exit(0 if success else 1)]. *)
Definition main (connection_string : option string) (fuel : nat) : U Z :=
  match connection_string with
  | None => retU 1
  | Some EmptyString => retU 1
  | Some _ => success <- upload_to_cosmos_db fuel ;; retU (if success then 0 else 1)
  end.

(** The computation leaves the state as it is. *)
Definition read_only {A} (m : U A) : Prop :=
  forall st r st', m st = Some (r, st') -> st' = st.

End UploadScript.

(** Every collection of [COLLECTIONS] counts at least [min_docs] documents. *)
Definition all_populated {W Doc Id : Type} `{Store W Doc Id} (min_docs : Z) (w : W) : Prop :=
  Forall (fun coll => exists n, count_documents coll w = Returns n /\ min_docs <= n)
         COLLECTIONS.

(** *** A scripted store for concrete runs *)

(** The store answers the bulk writes with the replies of its script, one
    per call, and accepts every write once the script is used up; it
    reports the same count for every collection and keeps no document. *)
Record ScriptDb := {
  sd_online : bool;
  sd_count : Z;
  sd_replies : list (py bulk_write_result)
}.

Definition script_store {Doc : Type} : Store ScriptDb Doc nat := {|
  bulk_write coll docs db :=
    match sd_replies db with
    | [] => (Returns {| inserted_count := Some (Z.of_nat (List.length docs)) |}, db)
    | r :: rs => (r, {| sd_online := sd_online db; sd_count := sd_count db;
                        sd_replies := rs |})
    end;
  insert_one coll doc db := (Returns tt, db);
  delete_many coll ids db := (Returns (Z.of_nat (List.length ids)), db);
  count_documents coll db := Returns (sd_count db);
  find_ids coll limit db := Returns []
|}.

Definition script_client {Doc : Type} : Client ScriptDb Doc := {|
  client_server_info db :=
    if sd_online db then Returns tt
    else Raises (PyMongoError "No servers found yet");
  drop_database db := (Returns tt, db);
  list_collection_names db := Returns COLLECTIONS;
  find_one coll db := Returns None;
  client_close db := Returns tt
|}.

(** An initial state of the uploader on the scripted store. *)
Definition script_state {Doc : Type} (online : bool) (count : Z)
    (replies : list (py bulk_write_result)) (t : tape) : @UState tape ScriptDb Doc nat :=
  {| world := {| sd_online := online; sd_count := count; sd_replies := replies |};
     rng := t; log := [] |}.

(** A call [clear_collection_safely] may make on [coll]: a [delete_many]
    on it, or a sleep. *)
Definition clear_event {Doc Id : Type} (coll : string) (e : event Doc Id) : Prop :=
  match e with
  | EDeleteMany c _ => c = coll
  | ESleep _ => True
  | _ => False
  end.

(** *** The aggregation functions of the dashboard *)

(** The three aggregation functions, each with the query it sends and the
    labels it gives to the columns of the result. *)
Definition aggregations
    : list ((py MongoClient -> D DataFrame) * (MongoClient -> py (list document))
            * list string) :=
  [ (get_category_stats, fun c => aggregate c "products" category_pipeline,
     ["category"; "total_products"; "avg_price"; "avg_rating"; "total_stock"]);
    (get_sales_by_state, fun c => aggregate c "orders" sales_pipeline,
     ["state"; "total_orders"; "total_revenue"; "avg_order_value"]);
    (get_top_products, fun c => aggregate c "reviews" top_products_pipeline,
     ["product_id"; "product_name"; "avg_rating"; "review_count"]) ]%string.

(** A client that answers every aggregation with one document of a
    category. *)
Definition one_category_client : MongoClient :=
  {| server_info := Returns tt;
     find_all := fun _ => Returns [];
     aggregate := fun _ _ =>
       Returns [ [ ("_id", VStr "Books"); ("total_products", VInt 7);
                   ("avg_price", VNum (25 # 1)); ("avg_rating", VNum (4 # 1));
                   ("total_stock", VInt 120) ] ]%string |}.

(** *** Further sample inputs *)

(** An order without items. *)
Definition itemless_order : Order :=
  {| o_order_id := "O000002"; o_id := "O000002";
     o_customer_id := "C00001"; o_customer_name := "Customer 1";
     o_customer_city := "Chicago"; o_customer_state := "IL";
     o_order_date := -3; o_items := [];
     o_total_amount := 0; o_shipping_cost := 599 # 100; o_tax := 0;
     o_status := "Pending"; o_payment_method := "Cash" |}.

(** Draws of three iterations over [demo_order] and [itemless_order]: a
    review of [demo_order], then [itemless_order], then a review of
    [demo_order]. *)
Definition skipping_review_tape : tape := [0; 1; 4; 3; 7; 1; 0; 0; 2; 9; 11].

(** Draws of two reviews of [demo_order]. *)
Definition demo_review_tape : tape := [0; 1; 4; 3; 7; 0; 0; 2; 9; 11].

(** A partial failure that reports three inserted documents. *)
Definition partial_failure : option bulk_details :=
  Some {| nInserted := Some 3; writeErrors := Some ["E11000 duplicate key"%string] |}.

(* ===================================================================== *)
(** * Part II. Properties                                                 *)
(* ===================================================================== *)

(** ** Decimal formatting of identifiers *)

Section Identifiers.
Local Open Scope nat_scope.

Lemma all_digits_app (s1 s2 : string) :
  all_digits (s1 ++ s2) = all_digits s1 && all_digits s2.
Proof. induction s1 as [ | c s1 IH ]; simpl; [ reflexivity | rewrite IH, andb_assoc; reflexivity ]. Qed.

Lemma all_digits_zeros (k : nat) : all_digits (zeros k) = true.
Proof. induction k; simpl; auto. Qed.

Lemma all_digits_string_of_uint (d : uint) : all_digits (NilEmpty.string_of_uint d) = true.
Proof. induction d; simpl; auto. Qed.

Lemma length_zeros (k : nat) : String.length (zeros k) = k.
Proof. induction k; simpl; auto. Qed.

Lemma length_append (s1 s2 : string) :
  String.length (s1 ++ s2) = String.length s1 + String.length s2.
Proof. induction s1; simpl; auto. Qed.

Lemma length_string_of_uint (d : uint) :
  String.length (NilEmpty.string_of_uint d) = nb_digits d.
Proof. induction d; simpl; auto. Qed.

Lemma length_fmt_0d (w i : nat) :
  String.length (fmt_0d w i) = Nat.max w (String.length (py_str i)).
Proof. unfold fmt_0d, zfill. rewrite length_append, length_zeros. lia. Qed.

(** Value of a digit sequence: a number with [k] digits and a non-zero
    leading digit is at least [10 ^ (k - 1)]. *)
Lemma of_uint_acc_lower (d : uint) (acc : nat) :
  acc * 10 ^ nb_digits d <= Nat.of_uint_acc d acc.
Proof.
  revert acc. induction d; intros acc; simpl Nat.of_uint_acc; simpl nb_digits;
    [ simpl; lia | .. ];
    (eapply Nat.le_trans; [ | apply IHd ]);
    rewrite Nat.tail_mul_spec, Nat.pow_succ_r';
    apply Nat.le_trans with ((10 * acc) * 10 ^ nb_digits d); try lia;
    apply Nat.mul_le_mono_r; lia.
Qed.

Lemma unorm_to_uint (i : nat) : unorm (Nat.to_uint i) = Nat.to_uint i.
Proof. rewrite <- Unsigned.to_of, Unsigned.of_to. reflexivity. Qed.

Lemma nb_digits_to_uint (w i : nat) :
  1 <= w -> i < 10 ^ w -> nb_digits (Nat.to_uint i) <= w.
Proof.
  intros Hw Hi.
  pose proof (unorm_to_uint i) as Hn. pose proof (Unsigned.of_to i) as Hv.
  destruct (Nat.to_uint i) as [ | d | d | d | d | d | d | d | d | d | d ] eqn:E.
  1: { simpl. lia. }
  1: { (* leading zero: the number is [0] itself *)
    rewrite unorm_D0 in Hn.
    unfold unorm in Hn. pose proof (nzhead_nonzero d d) as Hz.
    destruct (nzhead d) eqn:Ed; try congruence.
    inversion Hn; subst. simpl. lia. }
  all: unfold Nat.of_uint in Hv; simpl Nat.of_uint_acc in Hv;
    match type of Hv with Nat.of_uint_acc ?u ?a = _ =>
      pose proof (of_uint_acc_lower u a) as Hlow;
      simpl nb_digits;
      destruct (Nat.le_gt_cases (S (nb_digits u)) w) as [ | Hgt ]; [ assumption | exfalso ];
      assert (10 ^ w <= 10 ^ nb_digits u) by (apply Nat.pow_le_mono_r; lia)
    end;
    simpl in Hlow; lia.
Qed.

Lemma length_fmt_0d_small (w i : nat) :
  1 <= w -> i < 10 ^ w -> String.length (fmt_0d w i) = w.
Proof.
  intros Hw Hi. rewrite length_fmt_0d. unfold py_str.
  rewrite length_string_of_uint.
  pose proof (nb_digits_to_uint w i Hw Hi). lia.
Qed.

Lemma all_digits_fmt_0d (w i : nat) : all_digits (fmt_0d w i) = true.
Proof.
  unfold fmt_0d, zfill, py_str.
  rewrite all_digits_app, all_digits_zeros, all_digits_string_of_uint. reflexivity.
Qed.

(** Decoding: the digits of [fmt_0d w i] read back as [i]. *)
Lemma uint_of_string_zeros (k : nat) (s : string) :
  NilEmpty.uint_of_string (zeros k ++ s) =
  option_map (Nat.iter k D0) (NilEmpty.uint_of_string s).
Proof.
  induction k as [ | k IH ]; simpl.
  - destruct (NilEmpty.uint_of_string s); reflexivity.
  - rewrite IH. destruct (NilEmpty.uint_of_string s); reflexivity.
Qed.

Lemma parse_fmt_0d (w i : nat) : parse_nat (fmt_0d w i) = Some i.
Proof.
  unfold parse_nat, fmt_0d, zfill, py_str.
  rewrite uint_of_string_zeros, NilEmpty.usu. simpl.
  rewrite <- Unsigned.of_uint_norm, unorm_iter_D0, Unsigned.of_uint_norm, Unsigned.of_to.
  reflexivity.
Qed.

Lemma fmt_0d_inj (w i j : nat) : fmt_0d w i = fmt_0d w j -> i = j.
Proof.
  intros E. apply (f_equal parse_nat) in E. rewrite !parse_fmt_0d in E. congruence.
Qed.

Lemma id_format_fmt (c : ascii) (w i : nat) :
  1 <= w -> i < 10 ^ w -> id_format c w (String c (fmt_0d w i)) = true.
Proof.
  intros Hw Hi. unfold id_format.
  rewrite Ascii.eqb_refl, length_fmt_0d_small, Nat.eqb_refl, all_digits_fmt_0d by assumption.
  reflexivity.
Qed.

Lemma NoDup_ids (c : ascii) (w n : nat) :
  NoDup (map (fun i => String c (fmt_0d w i)) (seq 1 n)).
Proof.
  apply Injective_map_NoDup; [ | apply seq_NoDup ].
  intros i j E. inversion E. eapply fmt_0d_inj; eassumption.
Qed.

Lemma ids_ok_intro (c : ascii) (w n : nat) (ids : list string) :
  1 <= w ->
  ids = map (fun i => String c (fmt_0d w i)) (seq 1 n) ->
  ids_ok c w n ids.
Proof.
  intros Hw ->. split; [ reflexivity | ]. split; [ apply NoDup_ids | ].
  intros Hn. apply Forall_forall. intros s Hs.
  apply in_map_iff in Hs. destruct Hs as (i & <- & Hi).
  apply in_seq in Hi. apply id_format_fmt; [ exact Hw | ].
  apply Nat2Z.inj_lt. rewrite Nat2Z.inj_pow. simpl Z.of_nat at 2. lia.
Qed.

Lemma Forall2_map_eq {A B C : Type} (f : B -> C) (h : A -> C) (xs : list A) (l : list B) :
  Forall2 (fun i x => f x = h i) xs l -> map f l = map h xs.
Proof. induction 1; simpl; congruence. Qed.

End Identifiers.

(** ** Decimal rounding *)

Section Rounding.

Lemma round_half_even_error (y : Q) :
  (inject_Z (round_half_even y) - y <= 1 # 2 /\ y - inject_Z (round_half_even y) <= 1 # 2)%Q.
Proof.
  unfold round_half_even.
  pose proof (Qfloor_le y) as Hlo. pose proof (Qlt_floor y) as Hhi.
  rewrite inject_Z_plus in Hhi. change (inject_Z 1) with 1%Q in Hhi.
  destruct (Qcompare (y - inject_Z (Qfloor y)) (1 # 2)) eqn:E.
  - apply Qeq_alt in E.
    destruct (Z.even (Qfloor y)); rewrite ?inject_Z_plus;
      change (inject_Z 1) with 1%Q; split; lra.
  - apply Qlt_alt in E. split; lra.
  - apply Qgt_alt in E. rewrite inject_Z_plus.
    change (inject_Z 1) with 1%Q. split; lra.
Qed.

Lemma round_half_even_lower (y : Q) (z : Z) :
  (inject_Z z <= y)%Q -> z <= round_half_even y.
Proof.
  intros Hz. apply Qfloor_resp_le in Hz. rewrite Qfloor_Z in Hz.
  unfold round_half_even.
  destruct (Qcompare _ _); [ destruct (Z.even _) | | ]; lia.
Qed.

Lemma round_half_even_upper (y : Q) (z : Z) :
  (y <= inject_Z z)%Q -> round_half_even y <= z.
Proof.
  intros Hz. pose proof (Qfloor_le y) as Hlo.
  assert (Hf : Qfloor y <= z) by (rewrite Zle_Qle; lra).
  unfold round_half_even.
  destruct (Qcompare (y - inject_Z (Qfloor y)) (1 # 2)) eqn:E.
  - apply Qeq_alt in E.
    assert (Qfloor y < z) by (rewrite Zlt_Qlt; lra).
    destruct (Z.even _); lia.
  - exact Hf.
  - apply Qgt_alt in E.
    assert (Qfloor y < z) by (rewrite Zlt_Qlt; lra). lia.
Qed.

Lemma round_half_even_Z (z : Z) : round_half_even (inject_Z z) = z.
Proof.
  apply Z.le_antisymm.
  - apply round_half_even_upper. lra.
  - apply round_half_even_lower. lra.
Qed.


Lemma py_round_div (x : Q) (nd : nat) :
  (py_round x nd == inject_Z (round_half_even (x * inject_Z (Zpos (pow10 nd)))) / inject_Z (Zpos (pow10 nd)))%Q.
Proof. unfold py_round. apply Qmake_Qdiv. Qed.

Lemma py_round2_error (x : Q) : within (1 # 200) (py_round x 2) x.
Proof.
  unfold within.
  rewrite py_round_div.
  destruct (round_half_even_error (x * inject_Z (Zpos (pow10 2)))) as [H1 H2].
  simpl pow10 in *.
  set (z := inject_Z (round_half_even _)) in *.
  change (inject_Z 100) with (100%Q) in *.
  clearbody z. unfold Qdiv. change (/ 100)%Q with (1 # 100)%Q. split; lra.
Qed.


Lemma scale_lower (x : Q) (p : positive) (z : Z) :
  (z # p <= x)%Q <-> (inject_Z z <= x * inject_Z (Zpos p))%Q.
Proof.
  destruct x as [n d]. unfold Qle, Qmult, inject_Z; simpl.
  rewrite Pos.mul_1_r. lia.
Qed.

Lemma scale_upper (x : Q) (p : positive) (z : Z) :
  (x <= z # p)%Q <-> (x * inject_Z (Zpos p) <= inject_Z z)%Q.
Proof.
  destruct x as [n d]. unfold Qle, Qmult, inject_Z; simpl.
  rewrite Pos.mul_1_r. lia.
Qed.

Lemma Qmake_le (a b : Z) (p : positive) : a <= b -> (a # p <= b # p)%Q.
Proof. intros Hab. unfold Qle; simpl. apply Z.mul_le_mono_nonneg_r; lia. Qed.

Lemma py_round_range (x : Q) (nd : nat) (za zb : Z) :
  (za # pow10 nd <= x)%Q -> (x <= zb # pow10 nd)%Q ->
  (za # pow10 nd <= py_round x nd /\ py_round x nd <= zb # pow10 nd)%Q.
Proof.
  intros Ha Hb. unfold py_round. split; apply Qmake_le.
  - apply round_half_even_lower. apply (proj1 (scale_lower _ _ _)). exact Ha.
  - apply round_half_even_upper. apply (proj1 (scale_upper _ _ _)). exact Hb.
Qed.

(** A number with [nd] decimals is left unchanged. *)
Lemma py_round_exact (z : Z) (nd : nat) (x : Q) :
  (x == z # pow10 nd)%Q -> (py_round x nd == x)%Q.
Proof.
  intros Hx.
  assert (H1 : (z # pow10 nd <= x)%Q) by (rewrite Hx; apply Qle_refl).
  assert (H2 : (x <= z # pow10 nd)%Q) by (rewrite Hx; apply Qle_refl).
  destruct (py_round_range x nd z z H1 H2) as [Hlo Hhi].
  apply Qle_antisym; eapply Qle_trans; eassumption.
Qed.

Lemma py_round_idem (x : Q) (nd : nat) : (py_round (py_round x nd) nd == py_round x nd)%Q.
Proof. eapply py_round_exact. unfold py_round at 1. reflexivity. Qed.


Lemma py_round_between (x a b : Q) (nd : nat) :
  (a <= x <= b)%Q -> has_decimals nd a -> has_decimals nd b ->
  (a <= py_round x nd <= b)%Q.
Proof.
  unfold has_decimals. intros [Ha Hb] Ea Eb.
  destruct (py_round_range x nd (round_half_even (a * inject_Z (Zpos (pow10 nd))))
                                (round_half_even (b * inject_Z (Zpos (pow10 nd))))) as [Hlo Hhi].
  - fold (py_round a nd). rewrite Ea. exact Ha.
  - fold (py_round b nd). rewrite Eb. exact Hb.
  - fold (py_round a nd) in Hlo. fold (py_round b nd) in Hhi.
    rewrite Ea in Hlo. rewrite Eb in Hhi. split; assumption.
Qed.

Lemma has_decimals_py_round (x : Q) (nd : nat) : has_decimals nd (py_round x nd).
Proof. apply py_round_idem. Qed.

#[global] Instance round_half_even_Proper : Proper (Qeq ==> eq) round_half_even.
Proof.
  intros x y E. unfold round_half_even.
  rewrite (Qfloor_comp x y E).
  assert (C : Qcompare (x - inject_Z (Qfloor y)) (1 # 2) =
              Qcompare (y - inject_Z (Qfloor y)) (1 # 2)).
  { apply Qcompare_comp; [ rewrite E | ]; reflexivity. }
  rewrite C. reflexivity.
Qed.

#[global] Instance py_round_Proper : Proper (Qeq ==> eq ==> Qeq) py_round.
Proof.
  intros x y E nd nd' <-. unfold py_round.
  assert (E' : (x * inject_Z (Zpos (pow10 nd)) == y * inject_Z (Zpos (pow10 nd)))%Q)
    by (rewrite E; reflexivity).
  rewrite (round_half_even_Proper _ _ E'). reflexivity.
Qed.

(** Numbers with two decimals are the hundredths; they are closed under
    sums and under products with integers. *)
Lemma has_decimals_hundredths (x : Q) :
  has_decimals 2 x <-> exists z : Z, (x == z # 100)%Q.
Proof.
  split.
  - intros Hx. exists (round_half_even (x * inject_Z (Zpos (pow10 2)))).
    unfold has_decimals in Hx. rewrite <- Hx at 1. reflexivity.
  - intros (z & Hz). apply (py_round_exact z 2). exact Hz.
Qed.

Lemma has_decimals_plus (x y : Q) :
  has_decimals 2 x -> has_decimals 2 y -> has_decimals 2 (x + y).
Proof.
  rewrite !has_decimals_hundredths. intros (a & Ha) (b & Hb).
  exists (a + b). rewrite Ha, Hb. unfold Qeq, Qplus; simpl. lia.
Qed.

Lemma has_decimals_scale (x : Q) (k : Z) :
  has_decimals 2 x -> has_decimals 2 (x * inject_Z k).
Proof.
  rewrite !has_decimals_hundredths. intros (a & Ha).
  exists (a * k). rewrite Ha. unfold Qeq, Qmult, inject_Z; simpl. lia.
Qed.

Lemma has_decimals_Qsum (xs : list Q) :
  Forall (has_decimals 2) xs -> has_decimals 2 (Qsum xs).
Proof.
  induction 1 as [ | x xs Hx _ IH ]; simpl.
  - unfold has_decimals, Qeq. reflexivity.
  - apply has_decimals_plus; assumption.
Qed.

Lemma Qsum_app (xs ys : list Q) : (Qsum (xs ++ ys) == Qsum xs + Qsum ys)%Q.
Proof.
  induction xs as [ | x xs IH ]; simpl.
  - lra.
  - rewrite IH. lra.
Qed.

End Rounding.

(** ** Reasoning about the generator monad *)

Section GeneratorFacts.
Context {G : Type} {R : Rng G} {L : RngLaws G}.

Local Abbreviation M := (@M G).
Local Abbreviation ensures := (@ensures G).
Local Abbreviation returns := (@returns G).

Notation "x <- m ;; k" := (bind m (fun x => k))
  (at level 61, m at next level, right associativity).

Lemma ensures_ret {A} (a : A) (P : A -> Prop) : P a -> ensures (ret a) P.
Proof. intros Pa g a' g' E. inversion E; subst; exact Pa. Qed.

Lemma ensures_raise {A} (e : exn) (P : A -> Prop) : ensures (raise e) P.
Proof. intros g a g' E. discriminate E. Qed.

Lemma ensures_bind {A B} (m : M A) (k : A -> M B) (P : A -> Prop) (Q : B -> Prop) :
  ensures m P -> (forall a, P a -> ensures (k a) Q) -> ensures (bind m k) Q.
Proof.
  intros Hm Hk g b g' E. unfold bind in E.
  destruct (m g) as [[a | e] g0] eqn:Em; [ | discriminate E ].
  exact (Hk a (Hm _ _ _ Em) _ _ _ E).
Qed.

Lemma ensures_weaken {A} (m : M A) (P Q : A -> Prop) :
  ensures m P -> (forall a, P a -> Q a) -> ensures m Q.
Proof. intros Hm HPQ g a g' E. apply HPQ. exact (Hm _ _ _ E). Qed.

Lemma ensures_conj {A} (m : M A) (P Q : A -> Prop) :
  ensures m P -> ensures m Q -> ensures m (fun a => P a /\ Q a).
Proof. intros HP HQ g a g' E. split; [ exact (HP _ _ _ E) | exact (HQ _ _ _ E) ]. Qed.

Lemma returns_ret {A} (a : A) (P : A -> Prop) : P a -> returns (ret a) P.
Proof. intros Pa g. exists a, g. split; [ reflexivity | exact Pa ]. Qed.

Lemma returns_bind {A B} (m : M A) (k : A -> M B) (P : A -> Prop) (Q : B -> Prop) :
  returns m P -> (forall a, P a -> returns (k a) Q) -> returns (bind m k) Q.
Proof.
  intros Hm Hk g. destruct (Hm g) as (a & g0 & Em & Pa).
  destruct (Hk a Pa g0) as (b & g1 & Ek & Qb).
  exists b, g1. unfold bind. rewrite Em. split; assumption.
Qed.

Lemma returns_weaken {A} (m : M A) (P Q : A -> Prop) :
  returns m P -> (forall a, P a -> Q a) -> returns m Q.
Proof.
  intros Hm HPQ g. destruct (Hm g) as (a & g' & E & Pa).
  exists a, g'. split; [ exact E | exact (HPQ a Pa) ].
Qed.

Lemma returns_ensures {A} (m : M A) (P Q : A -> Prop) :
  returns m P -> ensures m Q -> returns m (fun a => P a /\ Q a).
Proof.
  intros Hm Hq g. destruct (Hm g) as (a & g' & E & Pa).
  exists a, g'. repeat split; [ exact E | exact Pa | exact (Hq _ _ _ E) ].
Qed.

(** Loop rule: an invariant indexed by the prefix of the sequence already
    traversed. *)
Lemma ensures_for_each {A S} (body : A -> S -> M S) (I : list A -> S -> Prop) :
  forall (xs pre : list A) (acc : S),
    I pre acc ->
    (forall pre' x acc', In x xs -> I pre' acc' -> ensures (body x acc') (I (pre' ++ [x]))) ->
    ensures (for_each xs body acc) (I (pre ++ xs)).
Proof.
  induction xs as [ | x xs IH ]; intros pre acc Hacc Hbody; simpl.
  - rewrite List.app_nil_r. apply ensures_ret. exact Hacc.
  - eapply ensures_bind.
    + apply (Hbody pre x acc); [ left; reflexivity | exact Hacc ].
    + intros acc' Hacc'.
      replace (pre ++ x :: xs) with ((pre ++ [x]) ++ xs)
        by (rewrite <- List.app_assoc; reflexivity).
      apply IH; [ exact Hacc' | ].
      intros pre' y acc'' Hy. apply Hbody. right; exact Hy.
Qed.

Lemma returns_for_each {A S} (body : A -> S -> M S) (I : list A -> S -> Prop) :
  forall (xs pre : list A) (acc : S),
    I pre acc ->
    (forall pre' x acc', In x xs -> I pre' acc' -> returns (body x acc') (I (pre' ++ [x]))) ->
    returns (for_each xs body acc) (I (pre ++ xs)).
Proof.
  induction xs as [ | x xs IH ]; intros pre acc Hacc Hbody; simpl.
  - rewrite List.app_nil_r. apply returns_ret. exact Hacc.
  - eapply returns_bind.
    + apply (Hbody pre x acc); [ left; reflexivity | exact Hacc ].
    + intros acc' Hacc'.
      replace (pre ++ x :: xs) with ((pre ++ [x]) ++ xs)
        by (rewrite <- List.app_assoc; reflexivity).
      apply IH; [ exact Hacc' | ].
      intros pre' y acc'' Hy. apply Hbody. right; exact Hy.
Qed.

(** *** Specifications of the [random] functions *)

Lemma returns_random_random :
  returns random_random (fun u => 0 <= u /\ u < 1)%Q.
Proof.
  intros g. unfold random_random.
  pose proof (next_float_range g) as Hr.
  destruct (next_float g) as [u g']. exists u, g'. split; [ reflexivity | exact Hr ].
Qed.

Lemma returns_randbelow (n : Z) :
  0 < n -> returns (randbelow n) (fun k => 0 <= k < n).
Proof.
  intros Hn g. unfold randbelow.
  pose proof (next_below_range n g Hn) as Hr.
  destruct (next_below n g) as [k g']. exists k, g'. split; [ reflexivity | exact Hr ].
Qed.

Lemma returns_random_uniform (a b : Q) :
  (a <= b)%Q ->
  returns (random_uniform a b)
          (fun x => exists u, (0 <= u /\ u < 1)%Q /\ x = (a + (b - a) * u)%Q /\ (a <= x /\ x <= b)%Q).
Proof.
  intros Hab. unfold random_uniform.
  eapply returns_bind; [ apply returns_random_random | ].
  intros u [Hu0 Hu1]. apply returns_ret.
  exists u. split; [ split; assumption | ]. split; [ reflexivity | ].
  assert (0 <= (b - a) * u)%Q by (apply Qmult_le_0_compat; lra).
  assert (0 <= (b - a) * (1 - u))%Q by (apply Qmult_le_0_compat; lra).
  split; lra.
Qed.

Lemma returns_random_randint (a b : Z) :
  a <= b -> returns (random_randint a b) (fun k => a <= k <= b).
Proof.
  intros Hab. unfold random_randint.
  destruct (b <? a) eqn:E; [ apply Z.ltb_lt in E; lia | ].
  eapply returns_bind; [ apply returns_randbelow; lia | ].
  intros k Hk. apply returns_ret. cbv beta in Hk. lia.
Qed.

Lemma returns_random_choice {A} (l : list A) :
  l <> [] -> returns (random_choice l) (fun x => In x l).
Proof.
  intros Hl. unfold random_choice.
  destruct l as [ | x0 l0 ]; [ congruence | ].
  set (l := x0 :: l0) in *.
  eapply returns_bind; [ apply (returns_randbelow (Z.of_nat (List.length l))); simpl; lia | ].
  intros k Hk. cbv beta in Hk |- *.
  destruct (nth_error l (Z.to_nat k)) as [ x | ] eqn:E.
  - apply returns_ret. eapply nth_error_In; exact E.
  - apply nth_error_None in E. lia.
Qed.

Lemma ensures_of_returns {A} (m : M A) (P : A -> Prop) : returns m P -> ensures m P.
Proof.
  intros Hm g a g' E. destruct (Hm g) as (a' & g'' & E' & Pa).
  rewrite E in E'. inversion E'; subst. exact Pa.
Qed.

Lemma ensures_random_randint (a b : Z) :
  ensures (random_randint a b) (fun k => a <= k <= b).
Proof.
  destruct (Z.le_gt_cases a b) as [Hab | Hab].
  - apply ensures_of_returns, returns_random_randint, Hab.
  - unfold random_randint. apply Z.ltb_lt in Hab. rewrite Hab. apply ensures_raise.
Qed.

Lemma ensures_random_choice {A} (l : list A) :
  ensures (random_choice l) (fun x => In x l).
Proof.
  destruct l as [ | x0 l0 ].
  - apply ensures_raise.
  - apply ensures_of_returns, returns_random_choice. discriminate.
Qed.

Lemma ensures_py_index {A} (l : list A) (k : Z) :
  0 <= k ->
  ensures (py_index l k) (fun x => nth_error l (Z.to_nat k) = Some x).
Proof.
  intros Hk. unfold py_index.
  destruct (k <? 0) eqn:Ek; [ apply Z.ltb_lt in Ek; lia | ]. rewrite Ek.
  destruct (nth_error l (Z.to_nat k)) as [ x | ] eqn:E.
  - apply ensures_ret. reflexivity.
  - apply ensures_raise.
Qed.

Lemma returns_py_index {A} (l : list A) (k : Z) :
  0 <= k < Z.of_nat (List.length l) ->
  returns (py_index l k) (fun x => nth_error l (Z.to_nat k) = Some x).
Proof.
  intros Hk. unfold py_index.
  destruct (k <? 0) eqn:Ek; [ apply Z.ltb_lt in Ek; lia | ]. rewrite Ek.
  destruct (nth_error l (Z.to_nat k)) as [ x | ] eqn:E.
  - apply returns_ret. reflexivity.
  - apply nth_error_None in E. lia.
Qed.

Lemma returns_of_ensures {A} (m : M A) (P Q : A -> Prop) :
  returns m P -> ensures m Q -> returns m Q.
Proof.
  intros Hm Hq. eapply returns_weaken; [ apply (returns_ensures _ _ _ Hm Hq) | ].
  intros a [_ Qa]. exact Qa.
Qed.

Lemma ensures_random_uniform (a b : Q) :
  (a <= b)%Q ->
  ensures (random_uniform a b)
          (fun x => exists u, (0 <= u /\ u < 1)%Q /\ x = (a + (b - a) * u)%Q /\ (a <= x /\ x <= b)%Q).
Proof. intros Hab. apply ensures_of_returns, returns_random_uniform, Hab. Qed.

(** One step of symbolic execution through a [bind]. *)
Ltac estep :=
  eapply ensures_bind;
  [ first [ apply ensures_random_randint
          | apply ensures_random_choice
          | apply ensures_random_uniform; lra
          | apply ensures_py_index; lia ]
  | cbv beta; intros ? ? ].

Ltac rstep :=
  eapply returns_bind;
  [ first [ apply returns_random_randint; first [ lia | simpl; lia ]
          | apply returns_random_choice; discriminate
          | apply returns_random_uniform; lra ]
  | cbv beta; intros ? ? ].

(** Loops that append one generated element per index. *)
Lemma ensures_collect {A} (gen : nat -> M A) (P : nat -> A -> Prop) (xs : list nat) :
  (forall i, In i xs -> ensures (gen i) (P i)) ->
  ensures (for_each xs (fun i acc => x <- gen i ;; ret (acc ++ [x])) [])
          (fun l => Forall2 P xs l).
Proof.
  intros Hgen.
  apply (ensures_for_each _ (fun pre acc => Forall2 P pre acc) xs [] []); [ constructor | ].
  intros pre x acc Hx Hacc.
  eapply ensures_bind; [ apply Hgen, Hx | ].
  intros a Pa. apply ensures_ret.
  apply Forall2_app; [ exact Hacc | constructor; [ exact Pa | constructor ] ].
Qed.

Lemma returns_collect {A} (gen : nat -> M A) (P : nat -> A -> Prop) (xs : list nat) :
  (forall i, In i xs -> returns (gen i) (P i)) ->
  returns (for_each xs (fun i acc => x <- gen i ;; ret (acc ++ [x])) [])
          (fun l => Forall2 P xs l).
Proof.
  intros Hgen.
  apply (returns_for_each _ (fun pre acc => Forall2 P pre acc) xs [] []); [ constructor | ].
  intros pre x acc Hx Hacc.
  eapply returns_bind; [ apply Hgen, Hx | ].
  intros a Pa. apply returns_ret.
  apply Forall2_app; [ exact Hacc | constructor; [ exact Pa | constructor ] ].
Qed.

Lemma Forall2_In_r {A B} (P : A -> B -> Prop) (xs : list A) (ys : list B) (y : B) :
  Forall2 P xs ys -> In y ys -> exists x, In x xs /\ P x y.
Proof.
  induction 1 as [ | x0 y0 xs ys H0 _ IH ]; intros Hin; [ contradiction | ].
  destruct Hin as [ <- | Hin ].
  - exists x0. split; [ left; reflexivity | exact H0 ].
  - destruct (IH Hin) as (x & Hx & Px). exists x. split; [ right; exact Hx | exact Px ].
Qed.

Lemma range_1_succ (n : nat) : range 1 (n + 1) = seq 1 n.
Proof. unfold range. f_equal. lia. Qed.

(** *** Customers *)

Lemma ensures_generate_customer (i : nat) :
  ensures (generate_customer i) (customer_ok i).
Proof.
  unfold generate_customer.
  estep. estep. estep. estep. estep.
  apply ensures_ret. unfold customer_ok; simpl.
  repeat split.
  exists (Z.to_nat a). simpl in H. intuition lia.
Qed.

Lemma returns_generate_customer (i : nat) :
  returns (generate_customer i) (customer_ok i).
Proof.
  eapply returns_of_ensures; [ | apply ensures_generate_customer ].
  unfold generate_customer.
  rstep.
  eapply returns_bind; [ apply returns_py_index; simpl in *; lia | intros ? _ ].
  eapply returns_bind; [ apply returns_py_index; simpl in *; lia | intros ? _ ].
  rstep. rstep. apply (returns_ret _ (fun _ => True)). exact I.
Qed.

Lemma generate_customers_spec (n : nat) :
  returns (generate_customers n) (fun cs => Forall2 customer_ok (seq 1 n) cs).
Proof.
  unfold generate_customers. rewrite range_1_succ.
  apply returns_collect. intros i _. apply returns_generate_customer.
Qed.

(** *** Products *)

Ltac decimals := unfold has_decimals, Qeq; reflexivity.

(** Bounds of a rounded sample from the bounds of the sample. *)
Ltac round_bounds :=
  first [ eapply (fun Hx Ha Hb => proj1 (py_round_between _ _ _ _ Hx Ha Hb))
        | eapply (fun Hx Ha Hb => proj2 (py_round_between _ _ _ _ Hx Ha Hb)) ];
  [ eassumption | decimals | decimals ].

Lemma ensures_generate_product (i : nat) :
  ensures (generate_product i) (product_ok i).
Proof.
  unfold generate_product.
  estep. estep. estep. estep. estep. estep. estep. estep.
  apply ensures_ret. unfold product_ok; simpl.
  repeat match goal with
         | Hu : exists u : Q, _ |- _ => destruct Hu as (? & _ & _ & ?)
         end.
  repeat split; try apply has_decimals_py_round; round_bounds.
Qed.

Lemma returns_generate_product (i : nat) :
  returns (generate_product i) (product_ok i).
Proof.
  eapply returns_of_ensures; [ | apply ensures_generate_product ].
  unfold generate_product.
  rstep. rstep. rstep. rstep. rstep. rstep. rstep. rstep.
  apply (returns_ret _ (fun _ => True)). exact I.
Qed.

Lemma generate_products_spec (n : nat) :
  returns (generate_products n) (fun ps => Forall2 product_ok (seq 1 n) ps).
Proof.
  unfold generate_products. rewrite range_1_succ.
  apply returns_collect. intros i _. apply returns_generate_product.
Qed.

(** *** Orders *)

Lemma ensures_generate_item (products : list Product) (pre : list nat) (k : nat)
    (st : list Item * Q) :
  items_inv products pre st ->
  ensures (generate_item products k st) (items_inv products (pre ++ [k])).
Proof.
  destruct st as [items total]. intros (Hlen & Hall & Hsum). simpl in *.
  unfold generate_item. estep. estep. apply ensures_ret.
  unfold items_inv; simpl. repeat split.
  - rewrite !length_app, Hlen. reflexivity.
  - apply Forall_app. split; [ exact Hall | ].
    constructor; [ | constructor ].
    unfold item_ok, item_raw; simpl. repeat split; try lia.
    exists a. repeat split. assumption.
  - rewrite map_app, Qsum_app, Hsum. unfold item_raw at 3; simpl. lra.
Qed.

Lemma ensures_generate_order (customers : list Customer) (products : list Product) (i : nat) :
  ensures (generate_order customers products i) (order_ok customers products i).
Proof.
  unfold generate_order.
  estep. estep. estep.
  eapply ensures_bind.
  { apply (ensures_for_each _ (items_inv products) _ [] ([], 0%Q)).
    - unfold items_inv; simpl. split; [ reflexivity | split; [ constructor | lra ] ].
    - intros pre k st _ Hst. apply ensures_generate_item, Hst. }
  intros [items total] (Hlen & Hall & Hsum). simpl in Hlen, Hall, Hsum.
  estep. estep. estep. apply ensures_ret.
  unfold order_ok; simpl.
  repeat match goal with
         | Hu : exists u : Q, _ |- _ => destruct Hu as (? & _ & _ & ?)
         end.
  unfold range in Hlen. rewrite length_seq in Hlen.
  repeat split; try assumption; try lia.
  - exists a. split; [ assumption | reflexivity ].
  - rewrite Hsum. reflexivity.
  - rewrite Hsum. reflexivity.
  - round_bounds.
  - round_bounds.
  - apply has_decimals_py_round.
Qed.

Lemma returns_generate_item (products : list Product) (k : nat) (st : list Item * Q) :
  products <> [] -> returns (generate_item products k st) (fun _ => True).
Proof.
  intros Hp. destruct st as [items total]. unfold generate_item.
  eapply returns_bind; [ apply returns_random_choice, Hp | intros p _ ].
  rstep. apply returns_ret. exact I.
Qed.

Lemma returns_generate_order (customers : list Customer) (products : list Product) (i : nat) :
  customers <> [] -> products <> [] ->
  returns (generate_order customers products i) (order_ok customers products i).
Proof.
  intros Hc Hp.
  eapply returns_of_ensures; [ | apply ensures_generate_order ].
  unfold generate_order.
  eapply returns_bind; [ apply returns_random_choice, Hc | intros c _ ].
  rstep. rstep.
  eapply returns_bind.
  { apply (returns_for_each _ (fun _ _ => True) _ [] ([], 0%Q)); [ exact I | ].
    intros pre k st _ _. apply returns_generate_item, Hp. }
  intros [items total] _.
  rstep. rstep. rstep. apply (returns_ret _ (fun _ => True)). exact I.
Qed.

Lemma generate_orders_ensures (customers : list Customer) (products : list Product) (n : nat) :
  ensures (generate_orders customers products n)
          (fun os => Forall2 (order_ok customers products) (seq 1 n) os).
Proof.
  unfold generate_orders. rewrite range_1_succ.
  apply ensures_collect. intros i _. apply ensures_generate_order.
Qed.

Lemma generate_orders_returns (customers : list Customer) (products : list Product) (n : nat) :
  customers <> [] -> products <> [] ->
  returns (generate_orders customers products n)
          (fun os => Forall2 (order_ok customers products) (seq 1 n) os).
Proof.
  intros Hc Hp. unfold generate_orders. rewrite range_1_succ.
  apply returns_collect. intros i _. apply returns_generate_order; assumption.
Qed.

(** Every order of a generated list satisfies [order_ok] for its index. *)
Lemma generated_order_ok (customers : list Customer) (products : list Product) (n : nat)
    (g g' : G) (os : list Order) (o : Order) :
  generate_orders customers products n g = (Returns os, g') ->
  In o os -> exists i, In i (seq 1 n) /\ order_ok customers products i o.
Proof.
  intros Hrun Hin.
  eapply Forall2_In_r; [ | exact Hin ].
  exact (generate_orders_ensures customers products n g os g' Hrun).
Qed.

(** Rounding every line total moves their sum by at most half a cent each. *)
Lemma item_totals_error (products : list Product) (items : list Item) :
  Forall (item_ok products) items ->
  within (half_cents (List.length items))
         (Qsum (map i_item_total items)) (Qsum (map item_raw items)).
Proof.
  unfold within, half_cents.
  induction 1 as [ | it items (_ & _ & Hit) _ IH ]; simpl Qsum; simpl List.length.
  - simpl. change (inject_Z 0) with 0%Q. split; lra.
  - rewrite Nat2Z.inj_succ. unfold Z.succ. rewrite inject_Z_plus.
    change (inject_Z 1) with 1%Q.
    destruct (py_round2_error (item_raw it)) as [H1 H2].
    destruct IH as [IH1 IH2].
    simpl map. simpl Qsum. rewrite Hit. split; lra.
Qed.

(** *** Reviews *)

Lemma ensures_generate_review (orders : list Order) (i : nat) (acc : list Review) :
  Forall (review_refers_to orders) acc ->
  ensures (generate_review orders i acc) (Forall (review_refers_to orders)).
Proof.
  intros Hacc. unfold generate_review.
  estep. destruct (o_items a) as [ | it0 its ] eqn:Eit.
  - apply ensures_ret. exact Hacc.
  - estep. estep. estep. estep. apply ensures_ret.
    apply Forall_app. split; [ exact Hacc | ].
    constructor; [ | constructor ].
    exists a. simpl. repeat split; try assumption.
    exists a0. rewrite Eit. split; [ assumption | reflexivity ].
Qed.

Lemma returns_generate_review (orders : list Order) (i : nat) (acc : list Review) :
  orders <> [] -> returns (generate_review orders i acc) (fun _ => True).
Proof.
  intros Hne. unfold generate_review.
  eapply returns_bind; [ apply returns_random_choice, Hne | intros o Ho ].
  destruct (o_items o) as [ | it0 its ] eqn:Eit.
  - apply returns_ret. exact I.
  - rstep. rstep. rstep. rstep. apply returns_ret. exact I.
Qed.

Lemma generate_reviews_ensures (orders : list Order) (n : nat) :
  ensures (generate_reviews orders n) (Forall (review_refers_to orders)).
Proof.
  unfold generate_reviews.
  apply (ensures_for_each _ (fun _ acc => Forall (review_refers_to orders) acc) _ [] []).
  - constructor.
  - intros pre i acc _ Hacc. apply ensures_generate_review, Hacc.
Qed.

Lemma generate_reviews_returns (orders : list Order) (n : nat) :
  orders <> [] ->
  returns (generate_reviews orders n) (Forall (review_refers_to orders)).
Proof.
  intros Hne. eapply returns_of_ensures; [ | apply generate_reviews_ensures ].
  unfold generate_reviews.
  apply (returns_for_each _ (fun _ _ => True) _ [] []); [ exact I | ].
  intros pre i acc _ _. apply returns_generate_review, Hne.
Qed.

(** With prices in whole cents, as [generate_products] makes them, no
    rounding error is left: [total_amount] is exactly the sum of the
    [item_total] fields. *)
Lemma order_total_exact_for_cent_prices
    (customers : list Customer) (products : list Product) (n : nat)
    (g g' : G) (os : list Order) (o : Order) :
  Forall (fun p => has_decimals 2 (p_price p)) products ->
  generate_orders customers products n g = (Returns os, g') ->
  In o os ->
  (o_total_amount o == Qsum (map i_item_total (o_items o)))%Q.
Proof.
  intros Hcents Hrun Hin.
  destruct (generated_order_ok _ _ _ _ _ _ _ Hrun Hin)
    as (i & _ & _ & _ & _ & _ & Hitems & Htotal & _).
  assert (Hraw : Forall (has_decimals 2) (map item_raw (o_items o))).
  { apply Forall_map. eapply Forall_impl; [ | exact Hitems ].
    intros it ((p & Hp & _ & Hprice) & _). unfold item_raw. rewrite Hprice.
    apply has_decimals_scale. rewrite Forall_forall in Hcents. apply Hcents, Hp. }
  pose proof (has_decimals_Qsum _ Hraw) as Hsum. unfold has_decimals in Hsum.
  rewrite Htotal, Hsum.
  clear Htotal Hsum. induction Hitems as [ | it items (_ & _ & Hit) _ IH ]; simpl.
  - reflexivity.
  - inversion Hraw as [ | x xs Hx Hxs ]; subst. unfold has_decimals in Hx.
    rewrite Hit, Hx, (IH Hxs). reflexivity.
Qed.

Lemma generate_reviews_ids (orders : list Order) (n : nat) :
  Forall (fun o => o_items o <> []) orders ->
  ensures (generate_reviews orders n) (fun rs => Forall2 review_id_ok (seq 1 n) rs).
Proof.
  intros Hitems. unfold generate_reviews. rewrite range_1_succ.
  apply (ensures_for_each _ (fun pre acc => Forall2 review_id_ok pre acc) _ [] []);
    [ constructor | ].
  intros pre i acc _ Hacc. unfold generate_review.
  estep. rewrite Forall_forall in Hitems.
  destruct (o_items a) as [ | it0 its ] eqn:Eit.
  - exfalso. apply (Hitems a); assumption.
  - estep. estep. estep. estep. apply ensures_ret.
    apply Forall2_app; [ exact Hacc | ].
    constructor; [ split; reflexivity | constructor ].
Qed.

Lemma generated_orders_have_items (customers : list Customer) (products : list Product)
    (n : nat) (os : list Order) :
  Forall2 (order_ok customers products) (seq 1 n) os ->
  Forall (fun o => o_items o <> []) os.
Proof.
  intros Hall. apply Forall_forall. intros o Ho.
  destruct (Forall2_In_r _ _ _ _ Hall Ho) as (i & _ & _ & _ & _ & Hlen & _).
  intros E. rewrite E in Hlen. simpl in Hlen. lia.
Qed.

(** Generation cannot fail: the four generators of [upload_to_cosmos_db]
    return whatever the minimum count, since at least 25 products and
    customers and 30 orders are asked for. *)
Lemma Forall2_seq_nonempty {A} (P : nat -> A -> Prop) (n : nat) (l : list A) :
  (0 < n)%nat -> Forall2 P (seq 1 n) l -> l <> [].
Proof.
  intros Hn Hall E. subst l. inversion Hall as [ E' | ].
  destruct n; [ lia | discriminate E' ].
Qed.

Lemma py_max_lower (a b : Z) : b <= py_max a b.
Proof. unfold py_max. destruct (a <? b) eqn:E; [ | apply Z.ltb_ge in E ]; lia. Qed.

Lemma generate_data_returns (min_docs : Z) :
  returns (generate_data min_docs)
          (fun d => Forall (review_refers_to (orders d)) (reviews d)).
Proof.
  unfold generate_data.
  pose proof (py_max_lower min_docs 25) as H25.
  pose proof (py_max_lower min_docs 30) as H30.
  eapply returns_bind; [ apply generate_products_spec | intros ps Hps ].
  eapply returns_bind; [ apply generate_customers_spec | intros cs Hcs ].
  apply Forall2_seq_nonempty in Hps; [ | lia ].
  apply Forall2_seq_nonempty in Hcs; [ | lia ].
  eapply returns_bind; [ apply generate_orders_returns; assumption | intros os Hos ].
  apply Forall2_seq_nonempty in Hos; [ | lia ].
  eapply returns_bind; [ apply generate_reviews_returns; assumption | intros rs Hrs ].
  apply returns_ret. exact Hrs.
Qed.

(** ** Properties of the generated data *)

(** C1. For every order produced by [generate_orders], [total_amount]
    equals the sum of the [item_total] fields of its items up to the
    tolerance left by rounding each of these values to two decimals (half a
    cent for the total and half a cent for each of the at most five items),
    and [tax] equals 8% of [total_amount] up to the rounding of the tax
    (half a cent) and of the total (8% of half a cent). *)
Theorem order_total_and_tax_within_rounding_tolerance
    (customers : list Customer) (products : list Product) (n : nat)
    (g g' : G) (os : list Order) (o : Order) :
  generate_orders customers products n g = (Returns os, g') ->
  In o os ->
  (List.length (o_items o) <= 5)%nat /\
  within (half_cents (List.length (o_items o) + 1))
         (o_total_amount o) (Qsum (map i_item_total (o_items o))) /\
  within ((1 # 200) + (8 # 100) * (1 # 200))
         (o_tax o) ((8 # 100) * o_total_amount o).
Proof.
  intros Hrun Hin.
  destruct (generated_order_ok _ _ _ _ _ _ _ Hrun Hin)
    as (i & _ & _ & _ & _ & Hlen & Hitems & Htotal & Htax & _).
  split; [ lia | ].
  pose proof (item_totals_error products _ Hitems) as [E1 E2].
  set (S := Qsum (map item_raw (o_items o))) in *.
  destruct (py_round2_error S) as [T1 T2].
  destruct (py_round2_error (S * (8 # 100))) as [X1 X2].
  unfold within, half_cents in *.
  rewrite Nat2Z.inj_add, inject_Z_plus. change (inject_Z (Z.of_nat 1)) with 1%Q.
  rewrite Htotal, Htax.
  repeat split; lra.
Qed.

Lemma item_raw_nonneg (products : list Product) (items : list Item) :
  Forall (fun p => 0 <= p_price p)%Q products ->
  Forall (item_ok products) items ->
  (0 <= Qsum (map item_raw items))%Q.
Proof.
  intros Hprices. induction 1 as [ | it items ((p & Hp & _ & Hprice) & Hq & _) _ IH ]; simpl.
  - lra.
  - assert (0 <= item_raw it)%Q.
    { unfold item_raw. rewrite Hprice.
      apply Qmult_le_0_compat.
      - rewrite Forall_forall in Hprices. apply Hprices, Hp.
      - change 0%Q with (inject_Z 0). rewrite <- Zle_Qle. lia. }
    lra.
Qed.

Lemma py_round_nonneg (x : Q) (nd : nat) : (0 <= x)%Q -> (0 <= py_round x nd)%Q.
Proof.
  intros Hx. unfold py_round.
  assert (Hz : 0 <= round_half_even (x * inject_Z (Zpos (pow10 nd)))).
  { apply round_half_even_lower. change (inject_Z 0) with 0%Q.
    apply Qmult_le_0_compat; [ exact Hx | ]. unfold Qle; simpl; lia. }
  unfold Qle; simpl. lia.
Qed.

(** C2 (as the code has it). For every order produced by
    [generate_orders] from products with non-negative prices,
    [total_amount] is the two-decimal rounding of the sum of
    [unit_price * quantity] over its items; [tax] (8% of that sum) and
    [shipping_cost] (between 5 and 15) are separate fields fixed when the
    order is built, and are not part of [total_amount], which is strictly
    less than the line-item totals plus tax and shipping. *)
Theorem order_total_excludes_tax_and_shipping
    (customers : list Customer) (products : list Product) (n : nat)
    (g g' : G) (os : list Order) (o : Order) :
  Forall (fun p => 0 <= p_price p)%Q products ->
  generate_orders customers products n g = (Returns os, g') ->
  In o os ->
  (o_total_amount o == py_round (Qsum (map item_raw (o_items o))) 2)%Q /\
  (o_tax o == py_round (Qsum (map item_raw (o_items o)) * (8 # 100)) 2)%Q /\
  (5 <= o_shipping_cost o <= 15)%Q /\
  (o_total_amount o <
   Qsum (map i_item_total (o_items o)) + o_tax o + o_shipping_cost o)%Q.
Proof.
  intros Hprices Hrun Hin.
  destruct (generated_order_ok _ _ _ _ _ _ _ Hrun Hin)
    as (i & _ & _ & _ & _ & Hlen & Hitems & Htotal & Htax & Hship & _).
  repeat split; try assumption; try apply Hship.
  pose proof (item_totals_error products _ Hitems) as [E1 E2].
  pose proof (item_raw_nonneg products _ Hprices Hitems) as Hnn.
  set (S := Qsum (map item_raw (o_items o))) in *.
  destruct (py_round2_error S) as [T1 T2].
  assert (Htaxnn : (0 <= o_tax o)%Q).
  { rewrite Htax. apply py_round_nonneg.
    apply Qmult_le_0_compat; [ exact Hnn | lra ]. }
  assert (Hk : (half_cents (List.length (o_items o)) <= 5 # 200)%Q).
  { unfold half_cents.
    assert (inject_Z (Z.of_nat (List.length (o_items o))) <= inject_Z 5)%Q
      by (rewrite <- Zle_Qle; lia).
    change (inject_Z 5) with 5%Q in *. lra. }
  rewrite Htotal. destruct Hship as [Hs _]. lra.
Qed.


(** C6 (as the code has it). In the four collections generated in
    sequence, the identifiers of each kind are numbered from 1 in order
    ([P], [C], [O], [R] followed by the zero-padded index), are pairwise
    distinct, and have exactly 4, 5, 6 and 5 digits as long as the
    collection has fewer than 10^4, 10^5, 10^6 and 10^5 elements. *)
Theorem generated_ids_sequential_distinct_fixed_width
    (np nc no nr : nat) (g0 g1 g2 g3 g4 : G)
    (ps : list Product) (cs : list Customer) (os : list Order) (rs : list Review) :
  generate_products np g0 = (Returns ps, g1) ->
  generate_customers nc g1 = (Returns cs, g2) ->
  generate_orders cs ps no g2 = (Returns os, g3) ->
  generate_reviews os nr g3 = (Returns rs, g4) ->
  ids_ok "P" 4 np (map p_product_id ps) /\
  ids_ok "C" 5 nc (map c_customer_id cs) /\
  ids_ok "O" 6 no (map o_order_id os) /\
  ids_ok "R" 5 nr (map r_review_id rs).
Proof.
  intros Hp Hc Ho Hr.
  pose proof (ensures_of_returns _ _ (generate_products_spec np) _ _ _ Hp) as Pp.
  pose proof (ensures_of_returns _ _ (generate_customers_spec nc) _ _ _ Hc) as Pc.
  pose proof (generate_orders_ensures cs ps no _ _ _ Ho) as Po.
  pose proof (generate_reviews_ids os nr
                (generated_orders_have_items _ _ _ _ Po) _ _ _ Hr) as Pr.
  cbv beta in Pp, Pc, Po, Pr.
  split; [ | split; [ | split ] ];
    (apply ids_ok_intro; [ lia | ]); apply Forall2_map_eq.
  - eapply Forall2_impl; [ | exact Pp ]. intros i p Hok. apply Hok.
  - eapply Forall2_impl; [ | exact Pc ]. intros i c Hok. apply Hok.
  - eapply Forall2_impl; [ | exact Po ]. intros i o Hok. apply Hok.
  - eapply Forall2_impl; [ | exact Pr ]. intros i r Hok. apply Hok.
Qed.

(** A loop over [xs ++ ys] is the loop over [xs] followed by the loop over
    [ys]. *)
Lemma for_each_app {A S} (xs ys : list A) (body : A -> S -> M S) :
  forall (acc : S) (g : G),
    for_each (xs ++ ys) body acc g
    = match for_each xs body acc g with
      | (Returns acc', g') => for_each ys body acc' g'
      | (Raises e, g') => (Raises e, g')
      end.
Proof.
  induction xs as [ | x xs IH ]; intros acc g; simpl; [ reflexivity | ].
  unfold bind. destruct (body x acc g) as [ [ acc' | e ] g' ]; [ apply IH | reflexivity ].
Qed.

(** One more product is built from the state the previous ones leave. *)
Lemma generate_products_succ (n : nat) (g : G) :
  generate_products (Datatypes.S n) g
  = match generate_products n g with
    | (Returns ps, g1) =>
        match generate_product (Datatypes.S n) g1 with
        | (Returns p, g2) => (Returns (ps ++ [p]), g2)
        | (Raises e, g2) => (Raises e, g2)
        end
    | (Raises e, g1) => (Raises e, g1)
    end.
Proof.
  unfold generate_products. rewrite !range_1_succ, seq_S, for_each_app.
  destruct (for_each (seq 1 n) _ [] g) as [ [ ps | e ] g1 ]; [ | reflexivity ].
  simpl. unfold bind.
  destruct (generate_product (Datatypes.S n) g1) as [ [ p | e ] g2 ]; reflexivity.
Qed.

(** The product at position [k] (from 0) is the one built for index
    [k + 1] from the state the first [k] products leave. *)
Lemma generate_products_nth :
  forall (n : nat) (g g' : G) (ps : list Product) (k : nat) (p : Product),
    generate_products n g = (Returns ps, g') ->
    nth_error ps k = Some p ->
    exists g2, generate_product (Datatypes.S k) (state_after_products k g) = (Returns p, g2).
Proof.
  induction n as [ | n IH ]; intros g g' ps k p Hrun Hk.
  - unfold generate_products in Hrun. simpl in Hrun. injection Hrun as <- _.
    destruct k; discriminate Hk.
  - rewrite generate_products_succ in Hrun.
    destruct (generate_products n g) as [ [ ps_n | e ] g1 ] eqn:En; [ | discriminate Hrun ].
    destruct (generate_product (Datatypes.S n) g1) as [ [ p_n | e ] g2 ] eqn:Ep;
      [ | discriminate Hrun ].
    injection Hrun as <- _.
    pose proof (ensures_of_returns _ _ (generate_products_spec n) g ps_n g1 En) as Hall.
    apply Forall2_length in Hall. rewrite length_seq in Hall.
    destruct (Nat.lt_ge_cases k n) as [ Hlt | Hge ].
    + rewrite nth_error_app1 in Hk by lia. exact (IH g g1 ps_n k p En Hk).
    + rewrite nth_error_app2 in Hk by lia.
      destruct (k - List.length ps_n)%nat as [ | d ] eqn:Ed;
        [ | destruct d; discriminate Hk ].
      injection Hk as <-. assert (k = n) by lia. subst k.
      exists g2. unfold state_after_products. rewrite En. exact Ep.
Qed.

(** The price, the cost and the rating of a product are the roundings of
    the three samples drawn while it is built. *)
Lemma generate_product_samples (i : nat) (g g' : G) (p : Product) :
  generate_product i g = (Returns p, g') ->
  exists price cost rating : Q,
    product_samples g = Returns (price, cost, rating) /\
    ((10 <= price <= 500) /\ (5 <= cost <= 250) /\ (3 <= rating <= 5))%Q /\
    p_price p = py_round price 2 /\
    p_cost p = py_round cost 2 /\
    p_rating p = py_round rating 1.
Proof.
  unfold generate_product, product_samples, bind. intros Hrun.
  destruct (random_choice categories g) as [ [ category | e ] g1 ]; [ | discriminate Hrun ].
  destruct (random_choice brands g1) as [ [ brand | e ] g2 ]; [ | discriminate Hrun ].
  destruct (random_uniform 10 500 g2) as [ [ price | e ] g3 ] eqn:Eprice;
    [ | discriminate Hrun ].
  destruct (random_uniform 5 250 g3) as [ [ cost | e ] g4 ] eqn:Ecost;
    [ | discriminate Hrun ].
  destruct (random_randint 0 500 g4) as [ [ stock | e ] g5 ]; [ | discriminate Hrun ].
  destruct (random_uniform 3 5 g5) as [ [ rating | e ] g6 ] eqn:Erating;
    [ | discriminate Hrun ].
  destruct (random_randint 0 200 g6) as [ [ num_reviews | e ] g7 ]; [ | discriminate Hrun ].
  destruct (random_randint 30 365 g7) as [ [ days | e ] g8 ]; [ | discriminate Hrun ].
  unfold ret in Hrun. injection Hrun as <- _.
  destruct (ensures_random_uniform 10 500 ltac:(lra) _ _ _ Eprice) as (_ & _ & _ & Hprice).
  destruct (ensures_random_uniform 5 250 ltac:(lra) _ _ _ Ecost) as (_ & _ & _ & Hcost).
  destruct (ensures_random_uniform 3 5 ltac:(lra) _ _ _ Erating) as (_ & _ & _ & Hrating).
  exists price, cost, rating. simpl.
  split; [ reflexivity | ]. split; [ repeat split; tauto | ].
  repeat split.
Qed.

(** C8 (as the code has it). For every product produced by
    [generate_products], the price, the cost and the rating come from three
    separate draws of [random.uniform], made while that product is built:
    a sample in [10, 500], one in [5, 250] and one in [3, 5].  The price
    and the cost are their samples rounded to two decimals; the rating is
    its sample rounded to one decimal.  The rounded values stay in the
    ranges of the samples. *)
Theorem product_numeric_fields_are_rounded_samples
    (n : nat) (g g' : G) (ps : list Product) (k : nat) (p : Product) :
  generate_products n g = (Returns ps, g') ->
  nth_error ps k = Some p ->
  exists price cost rating : Q,
    product_samples (state_after_products k g) = Returns (price, cost, rating) /\
    ((10 <= price <= 500) /\ (5 <= cost <= 250) /\ (3 <= rating <= 5))%Q /\
    (p_price p == py_round price 2)%Q /\
    (p_cost p == py_round cost 2)%Q /\
    (p_rating p == py_round rating 1)%Q /\
    ((10 <= p_price p <= 500) /\ (5 <= p_cost p <= 250) /\ (3 <= p_rating p <= 5))%Q.
Proof.
  intros Hrun Hk.
  destruct (generate_products_nth n g g' ps k p Hrun Hk) as (g2 & Hp).
  destruct (generate_product_samples _ _ _ _ Hp)
    as (price & cost & rating & Hs & Hranges & Hprice & Hcost & Hrating).
  pose proof (ensures_of_returns _ _ (generate_products_spec n) g ps g' Hrun) as Hall.
  destruct (Forall2_In_r _ _ _ _ Hall (nth_error_In _ _ Hk))
    as (i & _ & _ & _ & (Rprice & _) & (Rcost & _) & (Rrating & _)).
  exists price, cost, rating.
  split; [ exact Hs | ]. split; [ exact Hranges | ].
  split; [ rewrite Hprice; reflexivity | ].
  split; [ rewrite Hcost; reflexivity | ].
  split; [ rewrite Hrating; reflexivity | ].
  repeat split; tauto.
Qed.

(** C10. For every customer produced by [generate_customers], [city] and
    [state] are the entries of [cities] and [states] at one common index;
    in particular New York comes with NY and Chicago with IL. *)
Theorem customer_city_state_matched
    (n : nat) (g g' : G) (cs : list Customer) (c : Customer) :
  generate_customers n g = (Returns cs, g') ->
  In c cs ->
  (exists idx : nat,
      (idx < 10)%nat /\
      nth_error cities idx = Some (c_city c) /\
      nth_error states idx = Some (c_state c)) /\
  In (c_city c, c_state c) (combine cities states) /\
  (c_city c = "New York"%string -> c_state c = "NY"%string) /\
  (c_city c = "Chicago"%string -> c_state c = "IL"%string).
Proof.
  intros Hrun Hin.
  pose proof (ensures_of_returns _ _ (generate_customers_spec n) g cs g' Hrun) as Hall.
  destruct (Forall2_In_r _ _ _ _ Hall Hin) as (i & _ & _ & _ & idx & Hidx & Hcity & Hstate).
  split; [ exists idx; repeat split; assumption | ].
  do 10 (destruct idx as [ | idx ];
         [ simpl in Hcity, Hstate; inversion Hcity; inversion Hstate;
           repeat split; try discriminate; simpl; tauto | ]).
  lia.
Qed.

End GeneratorFacts.

(** ** Properties of the uploader *)

Section UploaderFacts.
Context {G : Type} {R : Rng G} {L : RngLaws G} {W Doc Id : Type} {S : Store W Doc Id}.

Local Abbreviation UState := (@UState G W Doc Id).
Local Abbreviation backoff_trace := (@backoff_trace Doc Id).

(** The extra delay over [BATCH_DELAY * 2 ^ k] is the jitter, in [[0, 0.5)]. *)
Lemma backoff_delay_bounds (k : Z) (u : Q) :
  (0 <= u /\ u < 1)%Q ->
  (inject_Z (BATCH_DELAY * 2 ^ k) <= backoff_delay k u /\
   backoff_delay k u < inject_Z (BATCH_DELAY * 2 ^ k) + (1 # 2))%Q.
Proof.
  intros [H0 H1]. unfold backoff_delay.
  rewrite inject_Z_mult. unfold BATCH_DELAY. change (inject_Z 2) with 2%Q.
  generalize (inject_Z (2 ^ k)). intros x. split; lra.
Qed.

(** A batch whose every write attempt is rate limited, from attempt number
    [attempt] on: the loop makes one attempt and one backoff sleep per
    remaining attempt number, then gives the batch up. *)
Lemma write_loop_rate_limited (Inv : W -> Prop) (coll : string) (batch : list Doc) :
  (forall w, Inv w ->
     exists msg w', bulk_write coll batch w = (Raises (PyMongoError msg), w') /\
                    is_rate_limit msg = true /\ Inv w') ->
  forall (fuel : nat) (attempt inserted : Z) (st : UState),
    Inv (world st) ->
    0 <= attempt <= max_retries ->
    (Z.to_nat (max_retries - attempt) < fuel)%nat ->
    exists us st',
      write_loop fuel coll batch attempt inserted st = Some (Returns inserted, st') /\
      List.length us = Datatypes.S (Z.to_nat (max_retries - attempt)) /\
      Forall (fun u => 0 <= u /\ u < 1)%Q us /\
      log st' = log st ++ backoff_trace coll batch attempt us /\
      Inv (world st').
Proof.
  intros Hrl. unfold max_retries.
  induction fuel as [ | fuel IH ]; intros attempt inserted st Hinv Hatt Hfuel.
  - lia.
  - simpl write_loop. unfold max_retries.
    destruct (attempt <=? 5) eqn:Ele; [ | apply Z.leb_gt in Ele; lia ].
    destruct (Hrl (world st) Hinv) as (msg & w' & Hbw & Hmsg & Hinv').
    pose proof (next_float_range (rng st)) as Hu.
    unfold bindU at 1. unfold call_bulk_write. rewrite Hbw. rewrite Hmsg.
    unfold bindU at 1. unfold randomU. simpl rng.
    destruct (next_float (rng st)) as [u g'] eqn:Eu. simpl in Hu.
    unfold bindU at 1. unfold sleep. cbn [world rng log].
    destruct (attempt + 1 >? 5) eqn:Egt.
    + apply Z.gtb_lt in Egt.
      exists [u]. eexists. split; [ reflexivity | ].
      split; [ cbn [List.length]; lia | ].
      split; [ constructor; [ exact Hu | constructor ] | ].
      split; [ simpl; rewrite <- List.app_assoc; reflexivity | exact Hinv' ].
    + assert (Hle : attempt + 1 <= 5).
      { destruct (Z.le_gt_cases (attempt + 1) 5) as [ Hle | Hgt ]; [ exact Hle | ].
        apply Z.lt_gt, Z.gtb_gt in Hgt. congruence. }
      set (st1 := {| world := w'; rng := g';
                     log := (log st ++ [EBulkWrite coll batch])
                            ++ [ESleep (backoff_delay attempt u)] |}).
      destruct (IH (attempt + 1) inserted st1 Hinv' ltac:(lia) ltac:(lia))
        as (us & st' & Hrun & Hlen & Hus & Hlog & Hinv'').
      exists (u :: us), st'. split; [ exact Hrun | ].
      split; [ cbn [List.length]; rewrite Hlen; lia | ].
      split; [ constructor; assumption | ].
      split; [ | exact Hinv'' ].
      rewrite Hlog. simpl. rewrite <- !List.app_assoc. reflexivity.
Qed.

Lemma backoff_trace_insert_calls (coll : string) (batch : list Doc) (attempt : Z) (us : list Q) :
  insert_calls coll (backoff_trace coll batch attempt us) = List.length us.
Proof.
  revert attempt. unfold insert_calls.
  induction us as [ | u us IH ]; intros attempt; simpl; [ reflexivity | ].
  rewrite String.eqb_refl. simpl. rewrite IH. reflexivity.
Qed.

(** C3 (as the code has it). If every bulk write of a batch fails with a
    rate-limit error raised as a [PyMongoError] that is not a
    [BulkWriteError], [insert_in_batches] attempts the batch 6 times, the
    first attempt and exactly [max_retries = 5] retries, then leaves it and
    returns to the loop over batches with the count of inserted documents
    unchanged.  Each failed attempt number [k] (from 0 to 5) is followed,
    before the next attempt, by a sleep of [BATCH_DELAY * 2 ^ k] seconds
    plus a jitter in [[0, 0.5)]. *)
Theorem rate_limited_batch_retried_max_retries_times
    (Inv : W -> Prop) (coll : string) (data : list Doc) (batch_size i inserted : Z)
    (st : UState) :
  let batch := py_slice data i (i + batch_size) in
  Inv (world st) ->
  (forall w, Inv w ->
     exists msg w', bulk_write coll batch w = (Raises (PyMongoError msg), w') /\
                    is_rate_limit msg = true /\ Inv w') ->
  exists us st',
    insert_batch coll data batch_size i inserted st = Some (Returns inserted, st') /\
    log st' = log st ++ backoff_trace coll batch 0 us /\
    insert_calls coll (backoff_trace coll batch 0 us) = 6%nat /\
    List.length us = 6%nat /\
    max_retries = 5 /\
    Z.of_nat (insert_calls coll (backoff_trace coll batch 0 us)) - 1 = max_retries /\
    (forall k u, nth_error us k = Some u ->
       (inject_Z (BATCH_DELAY * 2 ^ Z.of_nat k) <= backoff_delay (Z.of_nat k) u /\
        backoff_delay (Z.of_nat k) u < inject_Z (BATCH_DELAY * 2 ^ Z.of_nat k) + (1 # 2))%Q).
Proof.
  intros batch Hinv Hrl. unfold insert_batch. fold batch.
  destruct (write_loop_rate_limited Inv coll batch Hrl
              (Datatypes.S (Z.to_nat max_retries)) 0 inserted st Hinv)
    as (us & st' & Hrun & Hlen & Hus & Hlog & _).
  - unfold max_retries. lia.
  - rewrite Z.sub_0_r. lia.
  - rewrite Z.sub_0_r in Hlen.
    assert (Hsix : List.length us = 6%nat) by (rewrite Hlen; reflexivity).
    exists us, st'. split; [ exact Hrun | ]. split; [ exact Hlog | ].
    split; [ rewrite backoff_trace_insert_calls; exact Hsix | ].
    split; [ exact Hsix | ].
    split; [ reflexivity | ].
    split; [ rewrite backoff_trace_insert_calls, Hsix; reflexivity | ].
    intros k u Hk. apply backoff_delay_bounds.
    rewrite Forall_forall in Hus. apply Hus. eapply nth_error_In; exact Hk.
Qed.

(** C4. When the collection already holds at least [min_docs] documents and
    the force flag is off, the upload block of that collection returns
    without any effect: no insert call (no call at all) is made and the
    database is left as it was. *)
Theorem populated_collection_upload_skipped
    (min_docs : Z) (fuel : nat) (coll : string) (data : list Doc) (st : UState) (count : Z) :
  count_documents coll (world st) = Returns count ->
  min_docs <= count ->
  upload_collection false min_docs fuel coll data st = Some (Returns None, st) /\
  forall r st', upload_collection false min_docs fuel coll data st = Some (r, st') ->
                insert_calls coll (log st') = insert_calls coll (log st) /\
                log st' = log st /\ world st' = world st.
Proof.
  intros Hcount Hmin.
  assert (Hrun : upload_collection false min_docs fuel coll data st = Some (Returns None, st)).
  { unfold upload_collection, bindU, call_count_documents. rewrite Hcount.
    simpl orb. destruct (count <? min_docs) eqn:E; [ apply Z.ltb_lt in E; lia | ].
    reflexivity. }
  split; [ exact Hrun | ].
  intros r st' Hrun'. rewrite Hrun in Hrun'. inversion Hrun'; subst. repeat split.
Qed.

(** *** Effects stay on the collection being uploaded, and the bounded
    loops finish *)

Lemma only_touches_nothing (coll : string) {A} (m : @U G W Doc Id A) :
  (forall st r st', m st = Some (r, st') -> log st' = log st) ->
  only_touches coll m.
Proof.
  intros Hm st r st' Hrun. exists []. rewrite List.app_nil_r.
  split; [ exact (Hm _ _ _ Hrun) | constructor ].
Qed.

Lemma only_touches_one (coll : string) {A} (m : @U G W Doc Id A) (e : event Doc Id) :
  event_on coll e ->
  (forall st r st', m st = Some (r, st') -> log st' = log st ++ [e]) ->
  only_touches coll m.
Proof.
  intros He Hm st r st' Hrun. exists [e].
  split; [ exact (Hm _ _ _ Hrun) | constructor; [ exact He | constructor ] ].
Qed.

Lemma only_touches_bind (coll : string) {A B} (m : @U G W Doc Id A) (k : A -> U B) :
  only_touches coll m -> (forall a, only_touches coll (k a)) ->
  only_touches coll (bindU m k).
Proof.
  intros Hm Hk st r st' Hrun. unfold bindU in Hrun.
  destruct (m st) as [ [ [ a | e ] st1 ] | ] eqn:Em; [ | | discriminate Hrun ].
  - destruct (Hm _ _ _ Em) as (evs1 & Hlog1 & Hall1).
    destruct (Hk a _ _ _ Hrun) as (evs2 & Hlog2 & Hall2).
    exists (evs1 ++ evs2). split.
    + rewrite Hlog2, Hlog1, List.app_assoc. reflexivity.
    + apply Forall_app. split; assumption.
  - inversion Hrun; subst. exact (Hm _ _ _ Em).
Qed.

Lemma only_touches_retU (coll : string) {A} (a : A) :
  only_touches coll (retU (G := G) (W := W) (Doc := Doc) (Id := Id) a).
Proof. apply only_touches_nothing. intros st r st' [= _ <-]. reflexivity. Qed.

Lemma only_touches_raiseU (coll : string) {A} (e : exn) :
  only_touches coll (raiseU (G := G) (W := W) (Doc := Doc) (Id := Id) (A := A) e).
Proof. apply only_touches_nothing. intros st r st' [= _ <-]. reflexivity. Qed.

Lemma only_touches_sleep (coll : string) (seconds : Q) :
  only_touches coll (sleep (G := G) (W := W) (Doc := Doc) (Id := Id) seconds).
Proof.
  apply (only_touches_one coll _ (ESleep seconds)); [ exact I | ].
  intros st r st' [= _ <-]. reflexivity.
Qed.

Lemma only_touches_randomU (coll : string) :
  only_touches coll (randomU (W := W) (Doc := Doc) (Id := Id)).
Proof.
  apply only_touches_nothing. intros st r st'. unfold randomU.
  destruct (next_float (rng st)). intros [= _ <-]. reflexivity.
Qed.

Lemma only_touches_bulk_write (coll : string) (docs : list Doc) :
  only_touches coll (call_bulk_write (G := G) coll docs).
Proof.
  apply (only_touches_one coll _ (EBulkWrite coll docs)); [ reflexivity | ].
  intros st r st'. unfold call_bulk_write.
  destruct (bulk_write coll docs (world st)). intros [= _ <-]. reflexivity.
Qed.

Lemma only_touches_insert_one (coll : string) (doc : Doc) :
  only_touches coll (call_insert_one (G := G) coll doc).
Proof.
  apply (only_touches_one coll _ (EInsertOne coll doc)); [ reflexivity | ].
  intros st r st'. unfold call_insert_one.
  destruct (insert_one coll doc (world st)). intros [= _ <-]. reflexivity.
Qed.

Lemma only_touches_delete_many (coll : string) (ids : list Id) :
  only_touches coll (call_delete_many (G := G) coll ids).
Proof.
  apply (only_touches_one coll _ (EDeleteMany coll ids)); [ reflexivity | ].
  intros st r st'. unfold call_delete_many.
  destruct (delete_many coll ids (world st)). intros [= _ <-]. reflexivity.
Qed.

Lemma only_touches_count (coll : string) :
  only_touches coll (call_count_documents (G := G) (Doc := Doc) (Id := Id) coll).
Proof.
  apply only_touches_nothing. intros st r st'. unfold call_count_documents.
  destruct (count_documents coll (world st)); intros [= _ <-]; reflexivity.
Qed.

Lemma only_touches_find_ids (coll : string) (limit : Z) :
  only_touches coll (call_find_ids (G := G) (Doc := Doc) coll limit).
Proof.
  apply only_touches_nothing. intros st r st'. unfold call_find_ids.
  destruct (find_ids coll limit (world st)); intros [= _ <-]; reflexivity.
Qed.

Lemma only_touches_out_of_fuel (coll : string) {A} :
  only_touches coll (out_of_fuel (G := G) (W := W) (Doc := Doc) (Id := Id) (A := A)).
Proof. intros st r st' Hrun. discriminate Hrun. Qed.

Ltac touches :=
  repeat first
    [ apply only_touches_retU | apply only_touches_raiseU | apply only_touches_sleep
    | apply only_touches_randomU | apply only_touches_bulk_write
    | apply only_touches_insert_one | apply only_touches_delete_many
    | apply only_touches_count | apply only_touches_find_ids
    | apply only_touches_out_of_fuel
    | apply only_touches_bind; [ | intros ? ]
    | assumption ].

Lemma only_touches_insert_one_by_one (coll : string) (batch : list Doc) :
  forall inserted, only_touches coll (insert_one_by_one (G := G) coll batch inserted).
Proof.
  induction batch as [ | doc rest IH ]; intros inserted; simpl.
  - touches.
  - apply only_touches_bind; [ touches | intros [ [] | e ] ]; touches; apply IH.
Qed.

Lemma only_touches_write_loop (coll : string) (batch : list Doc) :
  forall fuel attempt inserted,
    only_touches coll (write_loop (G := G) fuel coll batch attempt inserted).
Proof.
  induction fuel as [ | fuel IH ]; intros attempt inserted; simpl.
  - touches.
  - destruct (attempt <=? max_retries); [ | touches ].
    apply only_touches_bind; [ touches | ].
    intros [ result | [ details | msg | msg | msg | msg ] ]; touches.
    destruct (is_rate_limit msg).
    + touches. destruct (attempt + 1 >? max_retries); [ touches | apply IH ].
    + apply only_touches_insert_one_by_one.
Qed.

Lemma only_touches_for_eachU (coll : string) {A B} (body : A -> B -> @U G W Doc Id B) :
  (forall x acc, only_touches coll (body x acc)) ->
  forall xs acc, only_touches coll (for_eachU xs body acc).
Proof.
  intros Hbody. induction xs as [ | x xs IH ]; intros acc; simpl.
  - touches.
  - apply only_touches_bind; [ apply Hbody | intros acc'; apply IH ].
Qed.

Lemma only_touches_insert_in_batches (coll : string) (data : list Doc) (batch_size : Z) :
  only_touches coll (insert_in_batches (G := G) coll data batch_size).
Proof.
  unfold insert_in_batches.
  destruct (py_range_step _ batch_size) as [ starts | e ]; [ | touches ].
  apply only_touches_for_eachU. intros i inserted. apply only_touches_write_loop.
Qed.

Lemma only_touches_clear_loop (coll : string) (batch_size : Z) :
  forall fuel deleted, only_touches coll (clear_loop (G := G) (Doc := Doc) fuel coll batch_size deleted).
Proof.
  induction fuel as [ | fuel IH ]; intros deleted; simpl.
  - touches.
  - apply only_touches_bind; [ touches | intros [ | id ids ] ]; [ touches | ].
    apply only_touches_bind; [ touches | intros [ n | e ] ].
    + touches. apply IH.
    + destruct (is_PyMongoError e); touches. apply IH.
Qed.

(** The upload block of a collection makes no call on any other one. *)
Lemma upload_collection_only_touches_its_collection
    (force_upload : bool) (min_docs : Z) (fuel : nat) (coll : string) (data : list Doc) :
  only_touches coll (upload_collection (G := G) force_upload min_docs fuel coll data).
Proof.
  unfold upload_collection.
  apply only_touches_bind; [ touches | intros count ].
  destruct (force_upload || (count <? min_docs)); [ | touches ].
  apply only_touches_bind.
  - destruct ((count >? 0) && force_upload); [ apply only_touches_clear_loop | touches ].
  - intros _. apply only_touches_bind; [ apply only_touches_insert_in_batches | intros n ].
    touches.
Qed.

Lemma insert_calls_other_collection (coll other : string) (evs : list (event Doc Id)) :
  other <> coll -> Forall (event_on other) evs -> insert_calls coll evs = 0%nat.
Proof.
  intros Hne. unfold insert_calls.
  induction 1 as [ | e evs He _ IH ]; simpl; [ reflexivity | ].
  destruct e as [ c docs | c doc | c ids | secs ]; simpl in He |- *; try exact IH;
    subst c; (destruct (String.eqb other coll) eqn:E;
              [ apply String.eqb_eq in E; contradiction | exact IH ]).
Qed.

(** So the upload of another kind leaves the insert calls made on [coll]
    as they were. *)
Lemma upload_of_other_collection_inserts_nothing
    (force_upload : bool) (min_docs : Z) (fuel : nat) (coll other : string)
    (data : list Doc) (st st' : UState) (r : py (option Z)) :
  other <> coll ->
  upload_collection force_upload min_docs fuel other data st = Some (r, st') ->
  insert_calls coll (log st') = insert_calls coll (log st).
Proof.
  intros Hne Hrun.
  destruct (upload_collection_only_touches_its_collection _ _ _ _ _ _ _ _ Hrun)
    as (evs & Hlog & Hall).
  rewrite Hlog. unfold insert_calls. rewrite filter_app, length_app.
  fold (insert_calls coll (log st)). fold (insert_calls coll evs).
  rewrite (insert_calls_other_collection coll other evs Hne Hall). lia.
Qed.

Lemma finishes_bind {A B} (m : @U G W Doc Id A) (k : A -> U B) :
  finishes m -> (forall a, finishes (k a)) -> finishes (bindU m k).
Proof.
  intros Hm Hk st. unfold bindU.
  destruct (Hm st) as ([ a | e ] & st1 & ->); [ apply Hk | ].
  eexists _, _. reflexivity.
Qed.

Lemma finishes_insert_one_by_one (coll : string) (batch : list Doc) :
  forall inserted, finishes (insert_one_by_one (G := G) coll batch inserted).
Proof.
  induction batch as [ | doc rest IH ]; intros inserted st; simpl.
  - eexists _, _. reflexivity.
  - unfold bindU at 1, call_insert_one.
    destruct (insert_one coll doc (world st)) as [ [ [] | e ] w' ].
    + unfold bindU, sleep. apply IH.
    + apply IH.
Qed.

(** [max_retries + 1 - attempt] units of fuel are enough for the retry loop. *)
Lemma finishes_write_loop (coll : string) (batch : list Doc) :
  forall fuel attempt inserted,
    (0 < fuel)%nat ->
    (Z.to_nat (max_retries + 1 - attempt) <= fuel)%nat ->
    finishes (write_loop (G := G) fuel coll batch attempt inserted).
Proof.
  unfold max_retries.
  induction fuel as [ | fuel IH ]; intros attempt inserted Hpos Hfuel st; simpl.
  - lia.
  - unfold max_retries.
    destruct (attempt <=? 5) eqn:Ele; [ | eexists _, _; reflexivity ].
    apply Z.leb_le in Ele.
    unfold bindU at 1, call_bulk_write.
    destruct (bulk_write coll batch (world st))
      as [ [ result | [ details | msg | msg | msg | msg ] ] w' ];
      try (eexists _, _; reflexivity).
    destruct (is_rate_limit msg); [ | apply finishes_insert_one_by_one ].
    unfold bindU at 1, randomU. cbn [rng world log].
    destruct (next_float (rng st)) as [u g'].
    unfold bindU at 1, sleep. cbn [rng world log].
    destruct (attempt + 1 >? 5) eqn:Egt; [ eexists _, _; reflexivity | ].
    assert (attempt + 1 <= 5).
    { destruct (Z.le_gt_cases (attempt + 1) 5) as [ Hle | Hgt ]; [ exact Hle | ].
      apply Z.lt_gt, Z.gtb_gt in Hgt. congruence. }
    apply IH; lia.
Qed.

Lemma finishes_for_eachU {A B} (body : A -> B -> @U G W Doc Id B) :
  (forall x acc, finishes (body x acc)) ->
  forall xs acc, finishes (for_eachU xs body acc).
Proof.
  intros Hbody. induction xs as [ | x xs IH ]; intros acc; simpl.
  - intros st. eexists _, _. reflexivity.
  - apply finishes_bind; [ apply Hbody | intros acc'; apply IH ].
Qed.

(** [insert_in_batches] always comes to an end. *)
Lemma finishes_insert_in_batches (coll : string) (data : list Doc) (batch_size : Z) :
  finishes (insert_in_batches (G := G) coll data batch_size).
Proof.
  unfold insert_in_batches.
  destruct (py_range_step _ batch_size) as [ starts | e ].
  - apply finishes_for_eachU. intros i inserted. unfold insert_batch.
    apply finishes_write_loop; unfold max_retries; lia.
  - intros st. eexists _, _. reflexivity.
Qed.

(** A [BulkWriteError] is handled by the first [except] clause whatever it
    says: the batch is attempted once, the reported [nInserted] is counted,
    and no retry is made. *)
Lemma bulk_write_error_not_retried (coll : string) (data : list Doc)
    (batch_size i inserted : Z) (st : UState) (details : option bulk_details) (w' : W) :
  bulk_write coll (py_slice data i (i + batch_size)) (world st)
    = (Raises (BulkWriteError details), w') ->
  exists n st',
    insert_batch coll data batch_size i inserted st = Some (Returns (inserted + n), st') /\
    log st' = log st ++ [ EBulkWrite coll (py_slice data i (i + batch_size));
                          ESleep (inject_Z (BATCH_DELAY * 2)) ].
Proof.
  intros Hbw. unfold insert_batch. simpl write_loop.
  unfold bindU at 1, call_bulk_write. rewrite Hbw.
  eexists _, _. split; [ reflexivity | ].
  cbn [log]. rewrite <- List.app_assoc. reflexivity.
Qed.

Lemma insert_calls_app (coll : string) (l1 l2 : list (event Doc Id)) :
  insert_calls coll (l1 ++ l2) = (insert_calls coll l1 + insert_calls coll l2)%nat.
Proof. unfold insert_calls. rewrite filter_app, length_app. reflexivity. Qed.

(** After giving a batch up the loop goes on with the next one: when every
    bulk write is rate limited, [insert_in_batches] returns 0 after
    [1 + max_retries] attempts on each batch. *)
Lemma for_each_batch_rate_limited (Inv : W -> Prop) (coll : string) (data : list Doc)
    (batch_size : Z) :
  (forall batch w, Inv w ->
     exists msg w', bulk_write coll batch w = (Raises (PyMongoError msg), w') /\
                    is_rate_limit msg = true /\ Inv w') ->
  forall (starts : list Z) (inserted : Z) (st : UState),
    Inv (world st) ->
    exists st',
      for_eachU starts (insert_batch coll data batch_size) inserted st
        = Some (Returns inserted, st') /\
      insert_calls coll (log st')
        = (insert_calls coll (log st) + 6 * List.length starts)%nat /\
      Inv (world st').
Proof.
  intros Hrl. induction starts as [ | i starts IH ]; intros inserted st Hinv.
  - exists st. split; [ reflexivity | ]. split; [ simpl; lia | exact Hinv ].
  - destruct (write_loop_rate_limited Inv coll (py_slice data i (i + batch_size))
                (Hrl _) (Datatypes.S (Z.to_nat max_retries)) 0 inserted st Hinv)
      as (us & st1 & Hrun & Hlen & _ & Hlog & Hinv1).
    { unfold max_retries. lia. }
    { rewrite Z.sub_0_r. lia. }
    destruct (IH inserted st1 Hinv1) as (st' & Hrest & Hcalls & Hinv').
    exists st'. split; [ | split; [ | exact Hinv' ] ].
    + cbn [for_eachU]. unfold bindU at 1. unfold insert_batch at 1.
      rewrite Hrun. exact Hrest.
    + rewrite Hcalls, Hlog, insert_calls_app, backoff_trace_insert_calls, Hlen.
      cbn [List.length]. unfold max_retries. simpl Z.to_nat. lia.
Qed.

Lemma insert_in_batches_all_rate_limited (Inv : W -> Prop) (coll : string)
    (data : list Doc) (batch_size : Z) (st : UState) :
  0 < batch_size ->
  Inv (world st) ->
  (forall batch w, Inv w ->
     exists msg w', bulk_write coll batch w = (Raises (PyMongoError msg), w') /\
                    is_rate_limit msg = true /\ Inv w') ->
  exists st',
    insert_in_batches coll data batch_size st = Some (Returns 0, st') /\
    insert_calls coll (log st')
      = (insert_calls coll (log st)
         + 6 * Z.to_nat ((Z.of_nat (List.length data) + batch_size - 1) / batch_size))%nat.
Proof.
  intros Hbs Hinv Hrl. unfold insert_in_batches, py_range_step.
  destruct (batch_size =? 0) eqn:E0; [ apply Z.eqb_eq in E0; lia | ].
  destruct (batch_size <? 0) eqn:E1; [ apply Z.ltb_lt in E1; lia | ].
  destruct (for_each_batch_rate_limited Inv coll data batch_size Hrl
              (map (fun k => Z.of_nat k * batch_size)
                   (seq 0 (Z.to_nat ((Z.of_nat (List.length data) + batch_size - 1)
                                     / batch_size))))
              0 st Hinv) as (st' & Hrun & Hcalls & _).
  exists st'. split; [ exact Hrun | ].
  rewrite Hcalls, length_map, length_seq. reflexivity.
Qed.

End UploaderFacts.

(** ** Properties of the dashboard queries *)

Section DashboardFacts.

Ltac connect_cases connect :=
  let client := fresh "client" in
  let e := fresh "e" in
  destruct connect as [ client | e ];
  [ destruct (server_info client) as [ [] | e ] eqn:?Einfo | ].

Lemma load_collection_degrades (coll message : string) :
  degrades_to_empty_frame (fun connect => load_collection connect coll message)
                          (fun c => find_all c coll) message.
Proof.
  intros connect out.
  unfold load_collection, init_connection, try_except, bindD, liftD, retD, st_error.
  connect_cases connect.
  - destruct (find_all client coll) as [ data | e ] eqn:Efind.
    + eexists _, _. split; [ reflexivity | ].
      split; [ | split; intros; congruence ].
      intros c [= <-] _. rewrite Efind. split.
      * intros [= ->]. split; reflexivity.
      * intros e [=].
    + eexists _, _. split; [ reflexivity | ].
      split; [ | split; intros; congruence ].
      intros c [= <-] _. rewrite Efind. split.
      * intros [=].
      * intros e' [= <-]. split; reflexivity.
  - eexists _, _. split; [ reflexivity | ].
    split; [ | split; intros; reflexivity ].
    intros c [= <-] Hinfo. congruence.
  - eexists _, _. split; [ reflexivity | ].
    split; [ | split; intros; reflexivity ].
    intros c [=].
Qed.

Lemma run_aggregation_degrades (coll : string) (pipeline : list stage)
    (columns : list string) (message : string) :
  degrades_to_empty_frame (fun connect => run_aggregation connect coll pipeline columns message)
                          (fun c => aggregate c coll pipeline) message.
Proof.
  intros connect out.
  unfold run_aggregation, init_connection, try_except, bindD, liftD, retD, st_error.
  connect_cases connect.
  - destruct (aggregate client coll pipeline) as [ [ | d data ] | e ] eqn:Eagg.
    + eexists _, _. split; [ reflexivity | ].
      split; [ | split; intros; congruence ].
      intros c [= <-] _. rewrite Eagg. split.
      * intros _. split; reflexivity.
      * intros e [=].
    + destruct (set_columns (frame_of_records (d :: data)) columns) as [ df | e ];
        (eexists _, _; split; [ reflexivity | ];
         split; [ | split; intros; congruence ];
         intros c [= <-] _; rewrite Eagg; split; [ intros [=] | intros e' [=] ]).
    + eexists _, _. split; [ reflexivity | ].
      split; [ | split; intros; congruence ].
      intros c [= <-] _. rewrite Eagg. split.
      * intros [=].
      * intros e' [= <-]. split; reflexivity.
  - eexists _, _. split; [ reflexivity | ].
    split; [ | split; intros; reflexivity ].
    intros c [= <-] Hinfo. congruence.
  - eexists _, _. split; [ reflexivity | ].
    split; [ | split; intros; reflexivity ].
    intros c [=].
Qed.

(** C7. Each of the seven query functions of the dashboard (the four
    loaders and the three aggregations) returns a data frame and never
    raises: the frame is empty when the source collection yields no
    document; when the query raises, the function shows one error message
    and returns the empty frame; when the connection fails it returns the
    empty frame as well. *)
Theorem dashboard_query_degrades_to_empty_frame (q : query_fn) :
  In q dashboard_queries ->
  degrades_to_empty_frame (q_run q) (q_source q) (q_message q).
Proof.
  intros Hq. unfold dashboard_queries in Hq.
  repeat (destruct Hq as [ <- | Hq ];
          [ first [ apply load_collection_degrades | apply run_aggregation_degrades ] | ]).
  contradiction.
Qed.

End DashboardFacts.

(** ** Concrete runs on the scripted random source *)

#[export] Instance tape_laws : RngLaws tape.
Proof.
  split.
  - intros t. simpl. pose proof (Z.mod_pos_bound (tape_head t) 1000 ltac:(lia)) as Hb.
    unfold Qle, Qlt; simpl. lia.
  - intros n t Hn. simpl. apply Z.mod_pos_bound. exact Hn.
Qed.

Lemma demo_order_run :
  generate_orders demo_customers demo_products 1 demo_order_tape
  = (Returns [demo_order], []).
Proof. vm_compute. reflexivity. Qed.

Lemma demo_product_run :
  generate_products 1 demo_product_tape = (Returns [demo_product], []).
Proof. vm_compute. reflexivity. Qed.

Lemma demo_customer_run :
  exists c2, generate_customers 2 demo_customer_tape = (Returns [demo_customer; c2], []).
Proof. eexists. vm_compute. reflexivity. Qed.

(** C1 on the order built from [demo_order_tape]: two items and a total of
    79.96, a tax of 6.40. *)
Lemma order_total_and_tax_witness :
  generate_orders demo_customers demo_products 1 demo_order_tape
    = (Returns [demo_order], []) /\
  In demo_order [demo_order] /\
  ((List.length (o_items demo_order) <= 5)%nat /\
   within (half_cents (List.length (o_items demo_order) + 1))
          (o_total_amount demo_order) (Qsum (map i_item_total (o_items demo_order))) /\
   within ((1 # 200) + (8 # 100) * (1 # 200))
          (o_tax demo_order) ((8 # 100) * o_total_amount demo_order)).
Proof.
  split; [ exact demo_order_run | ].
  split; [ left; reflexivity | ].
  exact (order_total_and_tax_within_rounding_tolerance
           demo_customers demo_products 1 demo_order_tape [] [demo_order] demo_order
           demo_order_run (or_introl eq_refl)).
Defined.

Lemma demo_prices_nonneg : Forall (fun p => 0 <= p_price p)%Q demo_products.
Proof. repeat constructor. simpl. discriminate. Qed.

(** C2 (as the code has it) on the order built from [demo_order_tape]. *)
Lemma order_total_excludes_tax_and_shipping_witness :
  Forall (fun p => 0 <= p_price p)%Q demo_products /\
  generate_orders demo_customers demo_products 1 demo_order_tape
    = (Returns [demo_order], []) /\
  In demo_order [demo_order] /\
  (o_total_amount demo_order <
   Qsum (map i_item_total (o_items demo_order)) + o_tax demo_order
   + o_shipping_cost demo_order)%Q.
Proof.
  split; [ exact demo_prices_nonneg | ].
  split; [ exact demo_order_run | ].
  split; [ left; reflexivity | ].
  exact (proj2 (proj2 (proj2
           (order_total_excludes_tax_and_shipping
              demo_customers demo_products 1 demo_order_tape [] [demo_order] demo_order
              demo_prices_nonneg demo_order_run (or_introl eq_refl))))).
Defined.

(** C2, counterexample to the claim as stated: the order built from
    [demo_order_tape] has line totals 59.97 + 19.99, tax 6.40 and shipping
    10.00, and its [total_amount] is 79.96, not 96.36. *)
Lemma order_total_is_not_items_plus_tax_plus_shipping :
  generate_orders demo_customers demo_products 1 demo_order_tape
    = (Returns [demo_order], []) /\
  (o_total_amount demo_order == 7996 # 100)%Q /\
  (Qsum (map i_item_total (o_items demo_order)) + o_tax demo_order
   + o_shipping_cost demo_order == 9636 # 100)%Q /\
  ~ (o_total_amount demo_order ==
     Qsum (map i_item_total (o_items demo_order)) + o_tax demo_order
     + o_shipping_cost demo_order)%Q.
Proof.
  split; [ exact demo_order_run | ].
  split; [ reflexivity | ].
  split; [ reflexivity | ].
  unfold Qeq. vm_compute. discriminate.
Qed.


(** No order is enforced between price and cost: one run with the cost
    above the price, one with the price above the cost. *)
Lemma price_and_cost_are_unrelated :
  (exists p, fst (generate_products 1 ([0; 0; 0; 999] : tape)) = Returns [p] /\
             (p_price p < p_cost p)%Q) /\
  (exists p, fst (generate_products 1 ([0; 0; 999; 0] : tape)) = Returns [p] /\
             (p_cost p < p_price p)%Q).
Proof.
  split; eexists; (split; [ vm_compute; reflexivity | reflexivity ]).
Qed.

(** C8 (as the code has it) on the product built from [demo_product_tape]:
    the samples 179.05, 66.25 and 3.47 give the price 179.05, the cost
    66.25 and the rating 3.5.  Other draws give a cost above the price. *)
Lemma product_numeric_fields_witness :
  generate_products 1 demo_product_tape = (Returns [demo_product], []) /\
  nth_error [demo_product] 0 = Some demo_product /\
  (exists price cost rating : Q,
    product_samples (state_after_products 0 demo_product_tape)
      = Returns (price, cost, rating) /\
    ((10 <= price <= 500) /\ (5 <= cost <= 250) /\ (3 <= rating <= 5))%Q /\
    (p_price demo_product == py_round price 2)%Q /\
    (p_cost demo_product == py_round cost 2)%Q /\
    (p_rating demo_product == py_round rating 1)%Q /\
    ((10 <= p_price demo_product <= 500) /\ (5 <= p_cost demo_product <= 250) /\
     (3 <= p_rating demo_product <= 5))%Q) /\
  (p_price demo_product == 17905 # 100)%Q /\
  (p_cost demo_product == 6625 # 100)%Q /\
  (p_rating demo_product == 35 # 10)%Q /\
  (exists p, fst (generate_products 1 ([0; 0; 0; 999] : tape)) = Returns [p] /\
             (p_price p < p_cost p)%Q) /\
  (exists p, fst (generate_products 1 ([0; 0; 999; 0] : tape)) = Returns [p] /\
             (p_cost p < p_price p)%Q).
Proof.
  split; [ exact demo_product_run | ].
  split; [ reflexivity | ].
  split; [ exact (product_numeric_fields_are_rounded_samples
                    1 demo_product_tape [] [demo_product] 0 demo_product
                    demo_product_run eq_refl) | ].
  split; [ reflexivity | ]. split; [ reflexivity | ]. split; [ reflexivity | ].
  exact price_and_cost_are_unrelated.
Defined.

(** C8, counterexample to the claim as stated: the rating of the product
    built from [demo_product_tape] is not its sample rounded to two
    decimals.  The sample is 3.47, which rounding to two decimals leaves
    as it is; the product stores 3.5. *)
Lemma rating_is_not_rounded_to_two_decimals :
  exists price cost rating : Q,
    generate_products 1 demo_product_tape = (Returns [demo_product], []) /\
    nth_error [demo_product] 0 = Some demo_product /\
    product_samples (state_after_products 0 demo_product_tape)
      = Returns (price, cost, rating) /\
    (rating == 347 # 100)%Q /\
    (py_round rating 2 == 347 # 100)%Q /\
    (p_rating demo_product == 35 # 10)%Q /\
    ~ (p_rating demo_product == py_round rating 2)%Q.
Proof.
  eexists _, _, _. split; [ exact demo_product_run | ].
  split; [ reflexivity | ].
  split; [ vm_compute; reflexivity | ].
  split; [ reflexivity | ].
  split; [ reflexivity | ].
  split; [ reflexivity | ].
  unfold Qeq. vm_compute. discriminate.
Qed.

(** C10 on the first of the two customers built from [demo_customer_tape]. *)
Lemma customer_city_state_witness :
  generate_customers 2 demo_customer_tape
    = (Returns (returned (generate_customers 2 demo_customer_tape)), []) /\
  In demo_customer (returned (generate_customers 2 demo_customer_tape)) /\
  In (c_city demo_customer, c_state demo_customer) (combine cities states) /\
  (c_city demo_customer = "Chicago"%string -> c_state demo_customer = "IL"%string).
Proof.
  assert (Hrun : generate_customers 2 demo_customer_tape
                 = (Returns (returned (generate_customers 2 demo_customer_tape)), []))
    by (vm_compute; reflexivity).
  assert (Hin : In demo_customer (returned (generate_customers 2 demo_customer_tape)))
    by (left; vm_compute; reflexivity).
  split; [ exact Hrun | ]. split; [ exact Hin | ].
  pose proof (customer_city_state_matched 2 demo_customer_tape [] _ demo_customer Hrun Hin)
    as (_ & Hpair & _ & Hchi).
  split; [ exact Hpair | exact Hchi ].
Defined.

(** C6, counterexample to the claim as stated: the 10000th product of a
    collection of 10000 is numbered [P10000], with five digits. *)
Lemma product_id_with_five_digits :
  exists ps g',
    generate_products (Z.to_nat 10000) ([] : tape) = (Returns ps, g') /\
    In "P10000"%string (map p_product_id ps) /\
    id_format "P" 4 "P10000" = false.
Proof.
  destruct (generate_products_spec (Z.to_nat 10000) ([] : tape)) as (ps & g' & Hrun & Hall).
  exists ps, g'. split; [ exact Hrun | ]. split; [ | reflexivity ].
  rewrite (Forall2_map_eq p_product_id (fun i => String "P" (fmt_0d 4 i))
             (seq 1 (Z.to_nat 10000)) ps).
  - apply in_map_iff. exists (Z.to_nat 10000). split; [ vm_compute; reflexivity | ].
    apply in_seq. lia.
  - eapply Forall2_impl; [ | exact Hall ]. intros i p Hok. apply Hok.
Qed.

(** C6 (as the code has it) on four collections of two elements each,
    generated with every draw equal to 0. *)
Lemma generated_ids_witness :
  let t0 : tape := [] in
  let ps := returned (generate_products 2 t0) in
  let cs := returned (generate_customers 2 t0) in
  let os := returned (generate_orders cs ps 2 t0) in
  let rs := returned (generate_reviews os 2 t0) in
  generate_products 2 t0 = (Returns ps, t0) /\
  generate_customers 2 t0 = (Returns cs, t0) /\
  generate_orders cs ps 2 t0 = (Returns os, t0) /\
  generate_reviews os 2 t0 = (Returns rs, t0) /\
  ids_ok "P" 4 2 (map p_product_id ps) /\
  ids_ok "C" 5 2 (map c_customer_id cs) /\
  ids_ok "O" 6 2 (map o_order_id os) /\
  ids_ok "R" 5 2 (map r_review_id rs).
Proof.
  intros t0 ps cs os rs.
  assert (H1 : generate_products 2 t0 = (Returns ps, t0)) by (vm_compute; reflexivity).
  assert (H2 : generate_customers 2 t0 = (Returns cs, t0)) by (vm_compute; reflexivity).
  assert (H3 : generate_orders cs ps 2 t0 = (Returns os, t0)) by (vm_compute; reflexivity).
  assert (H4 : generate_reviews os 2 t0 = (Returns rs, t0)) by (vm_compute; reflexivity).
  repeat (split; [ assumption | ]).
  exact (generated_ids_sequential_distinct_fixed_width 2 2 2 2 t0 t0 t0 t0 t0 ps cs os rs
           H1 H2 H3 H4).
Defined.

(** ** Concrete runs of the uploader on the fake store *)

(** A throttled store stays throttled and rejects every bulk write with the
    rate-limit error. *)
Lemma fake_store_throttled (coll : string) (batch : list nat) (w : FakeDb) :
  fk_throttled w = true ->
  exists msg w', bulk_write coll batch w = (Raises (PyMongoError msg), w') /\
                 is_rate_limit msg = true /\ fk_throttled w' = true.
Proof.
  intros Hw. simpl. rewrite Hw.
  eexists. exists w. split; [ reflexivity | ]. split; [ reflexivity | exact Hw ].
Qed.

(** C3 (as the code has it) on the first batch of twelve documents, on a
    throttled store: six attempts, five of them retries. *)
Lemma rate_limited_batch_witness :
  let st := fake_state [] true [100; 200; 300; 400; 500; 600] in
  let batch := py_slice (seq 1 12) 0 (0 + 10) in
  fk_throttled (world st) = true /\
  exists us st',
    insert_batch "products" (seq 1 12) 10 0 0 st = Some (Returns 0, st') /\
    log st' = log st ++ backoff_trace "products" batch 0 us /\
    insert_calls "products" (backoff_trace (Id := nat) "products" batch 0 us) = 6%nat /\
    List.length us = 6%nat /\
    max_retries = 5 /\
    (forall k u, nth_error us k = Some u ->
       (inject_Z (BATCH_DELAY * 2 ^ Z.of_nat k) <= backoff_delay (Z.of_nat k) u /\
        backoff_delay (Z.of_nat k) u < inject_Z (BATCH_DELAY * 2 ^ Z.of_nat k) + (1 # 2))%Q).
Proof.
  intros st batch. split; [ reflexivity | ].
  destruct (rate_limited_batch_retried_max_retries_times
              (fun w => fk_throttled w = true) "products" (seq 1 12) 10 0 0 st
              eq_refl (fake_store_throttled "products" batch))
    as (us & st' & Hrun & Hlog & Hcalls & Hlen & Hmax & _ & Hdelays).
  exists us, st'. repeat split; try assumption; apply (Hdelays k u H).
Defined.

(** C3, counterexample to the claim as stated: a store that fails every
    bulk write with a rate-limit signal delivered as a [BulkWriteError].
    The batch is attempted once and never retried: the error is handled as
    a partial failure, with one sleep of [2 * BATCH_DELAY] seconds and no
    backoff. *)
Lemma rate_limit_in_BulkWriteError_is_not_retried :
  let st := fixed_state (Raises throttled_bulk_error) (fun _ => false)
              [100; 200; 300; 400; 500; 600] in
  carries_rate_limit_signal throttled_bulk_error = true /\
  (forall coll docs, bulk_write coll docs (world st) = (Raises throttled_bulk_error, world st)) /\
  exists st',
    insert_batch "products" (seq 1 12) 10 0 0 st = Some (Returns 0, st') /\
    log st' = [ EBulkWrite "products" (seq 1 10); ESleep (inject_Z (BATCH_DELAY * 2)) ] /\
    insert_calls "products" (log st') = 1%nat /\
    insert_calls "products" (log st') <> 6%nat /\
    rng st' = rng st.
Proof.
  intros st. split; [ reflexivity | ]. split; [ reflexivity | ].
  eexists. split; [ vm_compute; reflexivity | ].
  split; [ reflexivity | ]. split; [ reflexivity | ].
  split; [ discriminate | reflexivity ].
Qed.

(** The same run evaluated: six attempts on the batch of ten documents,
    followed by sleeps of 2.05, 4.10, 8.15, 16.20, 32.25 and 64.30
    seconds, and nothing inserted. *)
Lemma rate_limited_batch_trace :
  let st := fake_state [] true [100; 200; 300; 400; 500; 600] in
  let batch := seq 1 10 in
  exists st',
    insert_batch "products" (seq 1 12) 10 0 0 st = Some (Returns 0, st') /\
    log st' = [ EBulkWrite "products" batch; ESleep (backoff_delay 0 (100 # 1000));
                EBulkWrite "products" batch; ESleep (backoff_delay 1 (200 # 1000));
                EBulkWrite "products" batch; ESleep (backoff_delay 2 (300 # 1000));
                EBulkWrite "products" batch; ESleep (backoff_delay 3 (400 # 1000));
                EBulkWrite "products" batch; ESleep (backoff_delay 4 (500 # 1000));
                EBulkWrite "products" batch; ESleep (backoff_delay 5 (600 # 1000)) ] /\
    world st' = world st.
Proof.
  intros st batch. eexists. split; [ vm_compute; reflexivity | ].
  split; vm_compute; reflexivity.
Qed.

(** C4 on a collection that already holds 50 documents, with the constants
    of the script. *)
Lemma populated_collection_witness :
  let st := fake_state (map (fun d => ("products"%string, d)) (seq 1 50)) false [] in
  count_documents "products" (world st) = Returns 50 /\
  MIN_DOCS_PER_COLLECTION <= 50 /\
  upload_collection FORCE_UPLOAD MIN_DOCS_PER_COLLECTION 0 "products" (seq 51 50) st
    = Some (Returns None, st).
Proof.
  intros st.
  assert (Hcount : count_documents "products" (world st) = Returns 50)
    by (vm_compute; reflexivity).
  assert (Hmin : MIN_DOCS_PER_COLLECTION <= 50) by (unfold MIN_DOCS_PER_COLLECTION; lia).
  split; [ exact Hcount | ]. split; [ exact Hmin | ].
  exact (proj1 (populated_collection_upload_skipped
                  MIN_DOCS_PER_COLLECTION 0 "products" (seq 51 50) st 50 Hcount Hmin)).
Defined.

(** C9, the code at a failing input: uploading 50 documents to an empty
    collection with the constants of the script issues five bulk writes of
    ten documents each, although [BATCH_SIZE] is 5: [insert_in_batches] is
    called with its default [batch_size=10] and never reads [BATCH_SIZE]. *)
Lemma bulk_writes_ignore_BATCH_SIZE :
  let st := fake_state [] false [] in
  exists st',
    upload_collection FORCE_UPLOAD MIN_DOCS_PER_COLLECTION 0 "products" (seq 1 50) st
      = Some (Returns (Some 50), st') /\
    bulk_write_sizes (log st') = [10; 10; 10; 10; 10]%nat /\
    BATCH_SIZE = 5 /\
    ~ Forall (fun k => Z.of_nat k <= BATCH_SIZE) (bulk_write_sizes (log st')).
Proof.
  intros st. eexists. split; [ vm_compute; reflexivity | ].
  split; [ vm_compute; reflexivity | ]. split; [ reflexivity | ].
  intros Hall. inversion Hall as [ | k l Hk _ ]; subst.
  unfold BATCH_SIZE in Hk. simpl in Hk. lia.
Qed.

(** ** Concrete runs of the dashboard queries *)

(** C7 on [get_category_stats]. *)
Lemma dashboard_query_witness :
  let q := {| q_run := get_category_stats;
              q_source := fun c => aggregate c "products" category_pipeline;
              q_message := "Error loading category stats: " |} in
  In q dashboard_queries /\
  degrades_to_empty_frame (q_run q) (q_source q) (q_message q).
Proof.
  intros q.
  assert (Hin : In q dashboard_queries) by (simpl; tauto).
  split; [ exact Hin | exact (dashboard_query_degrades_to_empty_frame q Hin) ].
Defined.

(** The loaders and aggregations on a client with empty collections and on
    a client whose queries raise. *)
Lemma dashboard_runs_on_empty_and_failing_clients :
  load_orders (Returns empty_client) [] = (Returns empty_frame, []) /\
  get_category_stats (Returns empty_client) [] = (Returns empty_frame, []) /\
  load_orders (Returns failing_client) []
    = (Returns empty_frame, ["Error loading orders: cursor timed out"%string]) /\
  get_category_stats (Returns failing_client) []
    = (Returns empty_frame, ["Error loading category stats: connection reset"%string]) /\
  load_orders (Raises (OtherException "no route to host")) []
    = (Returns empty_frame,
       ["Failed to connect to Azure Cosmos DB: no route to host"%string]).
Proof. repeat split. Qed.

(* ===================================================================== *)
(** * Part III. Further properties of the code                            *)
(* ===================================================================== *)

(** ** The generators *)

Section MoreGeneratorFacts.
Context {G : Type} {R : Rng G} {L : RngLaws G}.

Local Abbreviation M := (@M G).
Local Abbreviation ensures := (@ensures G).
Local Abbreviation returns := (@returns G).

Notation "x <- m ;; k" := (bind m (fun x => k))
  (at level 61, m at next level, right associativity).

Ltac gen_step :=
  eapply returns_bind;
  [ first [ apply returns_random_randint; first [ lia | simpl; lia ]
          | apply returns_random_choice; first [ discriminate | assumption ]
          | apply returns_random_uniform; lra
          | apply returns_py_index; simpl in *; lia ]
  | cbv beta; intros ? ? ].

Lemma returns_generate_product_fields (i : nat) :
  returns (generate_product i) (product_fields_ok i).
Proof.
  unfold generate_product.
  gen_step. gen_step. gen_step. gen_step. gen_step. gen_step. gen_step. gen_step.
  apply returns_ret. unfold product_fields_ok; simpl.
  repeat split; try assumption; lia.
Qed.

(** X1. [generate_products(n)] never fails and returns exactly [n]
    products; the product at position [i] (from 1) is named after its
    category and [i], has a category and a brand of the fixed lists, a
    stock between 0 and 500, between 0 and 200 reviews, and a creation
    date 30 to 365 days back. *)
Theorem generate_products_fields (n : nat) (g : G) :
  exists ps g',
    generate_products n g = (Returns ps, g') /\
    List.length ps = n /\
    Forall2 product_fields_ok (seq 1 n) ps.
Proof.
  assert (Hspec : returns (generate_products n)
                          (fun ps => Forall2 product_fields_ok (seq 1 n) ps)).
  { unfold generate_products. rewrite range_1_succ.
    apply returns_collect. intros i _. apply returns_generate_product_fields. }
  destruct (Hspec g) as (ps & g' & Hrun & Hall).
  exists ps, g'. split; [ exact Hrun | ]. split; [ | exact Hall ].
  rewrite <- (Forall2_length Hall). apply length_seq.
Qed.

Lemma returns_generate_customer_fields (i : nat) :
  returns (generate_customer i) (customer_fields_ok i).
Proof.
  unfold generate_customer.
  gen_step. gen_step. gen_step. gen_step. gen_step.
  apply returns_ret. unfold customer_fields_ok, loyalty_tiers; simpl.
  repeat split; try assumption; lia.
Qed.

(** X2. [generate_customers(n)] never fails and returns exactly [n]
    customers; the customer at position [i] has the name [Customer i], the
    address [customeri@email.com], one of the four loyalty tiers, zeroed
    spend and order counters, and joined 1 to 730 days back. *)
Theorem generate_customers_fields (n : nat) (g : G) :
  exists cs g',
    generate_customers n g = (Returns cs, g') /\
    List.length cs = n /\
    Forall2 customer_fields_ok (seq 1 n) cs.
Proof.
  assert (Hspec : returns (generate_customers n)
                          (fun cs => Forall2 customer_fields_ok (seq 1 n) cs)).
  { unfold generate_customers. rewrite range_1_succ.
    apply returns_collect. intros i _. apply returns_generate_customer_fields. }
  destruct (Hspec g) as (cs & g' & Hrun & Hall).
  exists cs, g'. split; [ exact Hrun | ]. split; [ | exact Hall ].
  rewrite <- (Forall2_length Hall). apply length_seq.
Qed.

(** *** Orders *)

Lemma ensures_generate_item_copies (products : list Product) (k : nat)
    (st : list Item * Q) :
  Forall (fun it => item_copies_product products it /\ 1 <= i_quantity it <= 3) (fst st) ->
  ensures (generate_item products k st)
          (fun st' => Forall (fun it => item_copies_product products it
                                        /\ 1 <= i_quantity it <= 3) (fst st')).
Proof.
  destruct st as [items total]. simpl. intros Hall. unfold generate_item.
  eapply ensures_bind; [ apply ensures_random_choice | intros p Hp ].
  eapply ensures_bind; [ apply ensures_random_randint | intros q Hq ].
  apply ensures_ret. simpl. apply Forall_app. split; [ exact Hall | ].
  constructor; [ | constructor ]. split; [ | exact Hq ].
  exists p. simpl. repeat split. exact Hp.
Qed.

Lemma ensures_generate_order_fields (customers : list Customer) (products : list Product)
    (i : nat) :
  ensures (generate_order customers products i)
          (fun o => order_fields_ok customers products o /\
                    Forall (fun it => 1 <= i_quantity it <= 3) (o_items o)).
Proof.
  unfold generate_order.
  eapply ensures_bind; [ apply ensures_random_choice | intros c Hc ].
  eapply ensures_bind; [ apply ensures_random_randint | intros days Hdays ].
  eapply ensures_bind; [ apply ensures_random_randint | intros num_items _ ].
  eapply ensures_bind.
  { apply (ensures_for_each _
             (fun _ st => Forall (fun it => item_copies_product products it
                                            /\ 1 <= i_quantity it <= 3) (fst st))
             _ [] ([], 0%Q)); [ constructor | ].
    intros pre k st _ Hst. apply ensures_generate_item_copies, Hst. }
  intros [items total] Hitems. simpl in Hitems.
  eapply ensures_bind; [ apply ensures_random_uniform; lra | intros shipping _ ].
  eapply ensures_bind; [ apply ensures_random_choice | intros status Hstatus ].
  eapply ensures_bind; [ apply ensures_random_choice | intros payment Hpayment ].
  apply ensures_ret. unfold order_fields_ok; simpl.
  cbv beta in Hdays, Hstatus, Hpayment.
  split; [ split; [ | split; [ | split; [ | split; [ | split ] ] ] ] | ].
  - exists c. repeat split. exact Hc.
  - eapply Forall_impl; [ | exact Hitems ]. intros it [Hit _]. exact Hit.
  - reflexivity.
  - simpl in Hstatus. simpl. tauto.
  - exact Hpayment.
  - lia.
  - eapply Forall_impl; [ | exact Hitems ]. intros it [_ Hq]. exact Hq.
Qed.

(** X3. Every order returned by [generate_orders] copies the id, name, city
    and state of one and the same customer of the list it was given; each
    of its items copies the id, name, category and price of one product of
    the list, with a quantity from 1 to 3; the order is dated 0 to 180 days
    back and its status and payment method are from the fixed lists.
    There are exactly [n] orders. *)
Theorem generate_orders_copy_customers_and_products
    (customers : list Customer) (products : list Product) (n : nat)
    (g g' : G) (os : list Order) :
  generate_orders customers products n g = (Returns os, g') ->
  List.length os = n /\
  Forall (order_fields_ok customers products) os /\
  Forall (fun o => Forall (fun it => 1 <= i_quantity it <= 3) (o_items o)) os.
Proof.
  intros Hrun.
  assert (Hspec : ensures (generate_orders customers products n)
            (fun os => Forall2 (fun (_ : nat) o =>
                          order_fields_ok customers products o /\
                          Forall (fun it => 1 <= i_quantity it <= 3) (o_items o))
                       (seq 1 n) os)).
  { unfold generate_orders. rewrite range_1_succ.
    apply ensures_collect. intros i _. apply ensures_generate_order_fields. }
  pose proof (Hspec g os g' Hrun) as Hall. cbv beta in Hall.
  split; [ rewrite <- (Forall2_length Hall); apply length_seq | ].
  split; apply Forall_forall; intros o Ho;
    destruct (Forall2_In_r _ _ _ _ Hall Ho) as (i & _ & H1 & H2); assumption.
Qed.

(** Raising computations. *)
Lemma raises_bind_left {A B} (m : M A) (k : A -> M B) (e : exn) :
  raises_with m e -> raises_with (bind m k) e.
Proof.
  intros Hm g. destruct (Hm g) as (g' & Em). exists g'. unfold bind. rewrite Em. reflexivity.
Qed.

Lemma raises_bind_right {A B} (m : M A) (k : A -> M B) (P : A -> Prop) (e : exn) :
  returns m P -> (forall a, P a -> raises_with (k a) e) -> raises_with (bind m k) e.
Proof.
  intros Hm Hk g. destruct (Hm g) as (a & g1 & Em & Pa).
  destruct (Hk a Pa g1) as (g' & Ek). exists g'. unfold bind. rewrite Em. exact Ek.
Qed.

Lemma raises_random_choice_empty {A} :
  raises_with (random_choice (@nil A)) empty_choice_error.
Proof. intros g. exists g. reflexivity. Qed.

Lemma raises_generate_order (customers : list Customer) (products : list Product) (i : nat) :
  customers = [] \/ products = [] ->
  raises_with (generate_order customers products i) empty_choice_error.
Proof.
  intros Hempty. unfold generate_order.
  destruct customers as [ | c0 cs ].
  - apply raises_bind_left, raises_random_choice_empty.
  - destruct Hempty as [ Hc | -> ]; [ discriminate Hc | ].
    eapply raises_bind_right; [ apply returns_random_choice; discriminate | intros c _ ].
    eapply raises_bind_right; [ apply returns_random_randint; lia | intros days _ ].
    eapply raises_bind_right; [ apply returns_random_randint; lia | intros num_items Hn ].
    cbv beta in Hn. apply raises_bind_left.
    unfold range. rewrite Nat.sub_0_r.
    destruct (Z.to_nat num_items) as [ | k ] eqn:Ek; [ lia | ].
    simpl for_each. apply raises_bind_left.
    unfold generate_item. apply raises_bind_left, raises_random_choice_empty.
Qed.

(** X4. [generate_orders] needs both lists: asked for at least one order
    with no customer or no product to choose from, it raises the
    [IndexError] of [random.choice]; asked for no order, or given a
    customer and a product, it returns exactly [n] orders. *)
Theorem generate_orders_needs_customers_and_products
    (customers : list Customer) (products : list Product) (n : nat) (g : G) :
  ((0 < n)%nat -> customers = [] \/ products = [] ->
   exists g', generate_orders customers products n g = (Raises empty_choice_error, g')) /\
  (n = 0%nat \/ (customers <> [] /\ products <> []) ->
   exists os g', generate_orders customers products n g = (Returns os, g') /\
                 List.length os = n).
Proof.
  split.
  - intros Hn Hempty. unfold generate_orders. rewrite range_1_succ.
    destruct n as [ | n ]; [ lia | ].
    simpl for_each.
    apply (raises_bind_left _ _ empty_choice_error).
    apply raises_bind_left. apply raises_generate_order. exact Hempty.
  - intros [ -> | [Hc Hp] ].
    + exists [], g. split; reflexivity.
    + destruct (generate_orders_returns customers products n Hc Hp g)
        as (os & g' & Hrun & Hall).
      exists os, g'. split; [ exact Hrun | ].
      rewrite <- (Forall2_length Hall). apply length_seq.
Qed.

(** *** Reviews *)

(** Loop rule for [for i in range(a, a + n)], with an invariant on the
    next index. *)
Lemma ensures_for_each_seq {S} (body : nat -> S -> M S) (I : nat -> S -> Prop) :
  forall (n a : nat) (acc : S),
    I a acc ->
    (forall i acc', (a <= i < a + n)%nat -> I i acc' ->
                    ensures (body i acc') (I (Datatypes.S i))) ->
    ensures (for_each (seq a n) body acc) (I (a + n)%nat).
Proof.
  induction n as [ | n IH ]; intros a acc Hacc Hbody; simpl.
  - rewrite Nat.add_0_r. apply ensures_ret. exact Hacc.
  - eapply ensures_bind; [ apply (Hbody a acc); [ lia | exact Hacc ] | ].
    intros acc' Hacc'. replace (a + Datatypes.S n)%nat with (Datatypes.S a + n)%nat by lia.
    apply IH; [ exact Hacc' | ].
    intros i acc'' Hi. apply Hbody. lia.
Qed.

Lemma ensures_generate_review_ids (orders : list Order) (i : nat) (acc : list Review) :
  (1 <= i)%nat ->
  review_ids_below i acc ->
  ensures (generate_review orders i acc) (review_ids_below (Datatypes.S i)).
Proof.
  intros Hi (idxs & Hmap & Hnd & Hlt). unfold generate_review.
  eapply ensures_bind; [ apply ensures_random_choice | intros o _ ].
  destruct (o_items o) as [ | it0 its ].
  - apply ensures_ret. exists idxs. split; [ exact Hmap | ]. split; [ exact Hnd | ].
    eapply Forall_impl; [ | exact Hlt ]. intros j Hj. cbv beta in Hj. lia.
  - eapply ensures_bind; [ apply ensures_random_choice | intros it _ ].
    eapply ensures_bind; [ apply ensures_random_randint | intros rating _ ].
    eapply ensures_bind; [ apply ensures_random_randint | intros days _ ].
    eapply ensures_bind; [ apply ensures_random_randint | intros votes _ ].
    apply ensures_ret. exists (idxs ++ [i]). split; [ | split ].
    + rewrite !map_app, Hmap. reflexivity.
    + apply NoDup_app; [ exact Hnd | constructor; [ intros [] | constructor ] | ].
      intros j Hj [ <- | [] ]. rewrite Forall_forall in Hlt.
      specialize (Hlt _ Hj). cbv beta in Hlt. lia.
    + apply Forall_app. split.
      * eapply Forall_impl; [ | exact Hlt ]. intros j Hj. cbv beta in Hj. lia.
      * constructor; [ lia | constructor ].
Qed.

(** One more iteration runs from the state the previous ones leave. *)
Lemma generate_reviews_succ (orders : list Order) (n : nat) (g : G) :
  generate_reviews orders (Datatypes.S n) g
  = match generate_reviews orders n g with
    | (Returns rs, g1) => generate_review orders (Datatypes.S n) rs g1
    | (Raises e, g1) => (Raises e, g1)
    end.
Proof.
  unfold generate_reviews. rewrite !range_1_succ, seq_S, for_each_app.
  destruct (for_each (seq 1 n) (generate_review orders) [] g) as [ [ rs | e ] g1 ];
    [ | reflexivity ].
  simpl. unfold bind.
  destruct (generate_review orders (Datatypes.S n) rs g1) as [ [ rs' | e ] g2 ]; reflexivity.
Qed.

(** The reviews are those of the iterations whose order has an item, in
    order. *)
Lemma generate_reviews_iterations (orders : list Order) (g : G) :
  forall (n : nat) (g' : G) (rs : list Review),
    generate_reviews orders n g = (Returns rs, g') ->
    Forall2 (fun i r => r_review_id r = String "R" (fmt_0d 5 i) /\
                        exists order, chosen_order orders g i = Returns order /\
                                      r_order_id r = o_order_id order)
            (filter (appends_review orders g) (seq 1 n)) rs.
Proof.
  induction n as [ | n IH ]; intros g' rs Hrun.
  - unfold generate_reviews in Hrun. simpl in Hrun. injection Hrun as <- _. constructor.
  - rewrite generate_reviews_succ in Hrun.
    destruct (generate_reviews orders n g) as [ [ rs_n | e ] g1 ] eqn:En;
      [ | discriminate Hrun ].
    specialize (IH g1 rs_n eq_refl).
    rewrite seq_S, filter_app. cbn [filter].
    unfold appends_review at 2, chosen_order. cbn [pred Nat.add]. rewrite En. cbn [snd].
    unfold generate_review, bind in Hrun.
    destruct (random_choice orders g1) as [ [ order | e ] g2 ] eqn:Ec;
      [ | discriminate Hrun ].
    cbn [fst].
    destruct (o_items order) as [ | it0 its ] eqn:Eitems.
    + unfold ret in Hrun. injection Hrun as <- _. rewrite List.app_nil_r. exact IH.
    + destruct (random_choice (it0 :: its) g2) as [ [ item | e ] g3 ];
        [ | discriminate Hrun ].
      destruct (random_randint 1 5 g3) as [ [ rating | e ] g4 ]; [ | discriminate Hrun ].
      destruct (random_randint 1 30 g4) as [ [ days | e ] g5 ]; [ | discriminate Hrun ].
      destruct (random_randint 0 50 g5) as [ [ votes | e ] g6 ]; [ | discriminate Hrun ].
      unfold ret in Hrun. injection Hrun as <- _.
      apply Forall2_app; [ exact IH | ].
      constructor; [ | constructor ].
      split; [ reflexivity | ].
      exists order. split; [ | reflexivity ].
      unfold chosen_order. cbn [pred]. rewrite En. cbn [snd]. rewrite Ec. reflexivity.
Qed.

(** X5. [generate_reviews(orders, n)] returns one review for each
    iteration whose chosen order has an item, in order, and none for the
    others; each review carries the index of its iteration in its id and
    the [order_id] of the order chosen at that iteration.  Hence there are
    at most [n] reviews, and their ids are [R] followed by distinct
    indices between 1 and [n], pairwise distinct also when iterations are
    skipped. *)
Theorem generate_reviews_ids_distinct_when_skipping
    (orders : list Order) (n : nat) (g g' : G) (rs : list Review) :
  generate_reviews orders n g = (Returns rs, g') ->
  Forall2 (fun i r => r_review_id r = String "R" (fmt_0d 5 i) /\
                      exists order, chosen_order orders g i = Returns order /\
                                    r_order_id r = o_order_id order)
          (filter (appends_review orders g) (seq 1 n)) rs /\
  (List.length rs <= n)%nat /\
  review_ids_from n rs /\
  NoDup (map r_review_id rs).
Proof.
  intros Hrun. split; [ exact (generate_reviews_iterations orders g n g' rs Hrun) | ].
  assert (Hspec : ensures (generate_reviews orders n) (review_ids_below (1 + n))).
  { unfold generate_reviews. rewrite range_1_succ.
    apply (ensures_for_each_seq (generate_review orders) review_ids_below n 1 []).
    - exists []. repeat split; constructor.
    - intros i acc Hi Hacc. apply ensures_generate_review_ids; [ lia | exact Hacc ]. }
  destruct (Hspec g rs g' Hrun) as (idxs & Hmap & Hnd & Hlt).
  assert (Hlen : List.length rs = List.length idxs).
  { rewrite <- (length_map r_review_id rs), Hmap, length_map. reflexivity. }
  assert (Hincl : incl idxs (seq 1 n)).
  { intros j Hj. rewrite Forall_forall in Hlt. specialize (Hlt _ Hj). cbv beta in Hlt.
    apply in_seq. lia. }
  split; [ | split ].
  - rewrite Hlen. pose proof (NoDup_incl_length Hnd Hincl) as Hle.
    rewrite length_seq in Hle. exact Hle.
  - exists idxs. split; [ exact Hmap | ]. split; [ exact Hnd | ].
    eapply Forall_impl; [ | exact Hlt ]. intros j Hj. cbv beta in Hj. lia.
  - rewrite Hmap. apply Injective_map_NoDup; [ | exact Hnd ].
    intros i j E. inversion E. eapply fmt_0d_inj; eassumption.
Qed.

Lemma ensures_generate_review_fields (orders : list Order) (i : nat) (acc : list Review) :
  Forall (review_fields_ok orders) acc ->
  ensures (generate_review orders i acc) (Forall (review_fields_ok orders)).
Proof.
  intros Hacc. unfold generate_review.
  eapply ensures_bind; [ apply ensures_random_choice | intros o Ho ].
  destruct (o_items o) as [ | it0 its ] eqn:Eit.
  - apply ensures_ret. exact Hacc.
  - eapply ensures_bind; [ apply ensures_random_choice | intros it Hit ].
    eapply ensures_bind; [ apply ensures_random_randint | intros rating Hrating ].
    eapply ensures_bind; [ apply ensures_random_randint | intros days Hdays ].
    eapply ensures_bind; [ apply ensures_random_randint | intros votes Hvotes ].
    cbv beta in Hrating, Hdays, Hvotes.
    apply ensures_ret. apply Forall_app. split; [ exact Hacc | ].
    constructor; [ | constructor ].
    unfold review_fields_ok; simpl. split; [ | repeat split; lia ].
    exists o, it. rewrite Eit. repeat split; try assumption; lia.
Qed.

(** X6. Every review returned by [generate_reviews] is about one order of
    the list and one item of that order: it copies the order's id, customer
    id and customer name and the item's product id and product name, and is
    dated 1 to 30 days after the order; its rating is from 1 to 5, its text
    is the fixed sentence of that rating, and it has 0 to 50 helpful
    votes. *)
Theorem generate_reviews_fields
    (orders : list Order) (n : nat) (g g' : G) (rs : list Review) :
  generate_reviews orders n g = (Returns rs, g') ->
  Forall (review_fields_ok orders) rs.
Proof.
  intros Hrun.
  assert (Hspec : ensures (generate_reviews orders n) (Forall (review_fields_ok orders))).
  { unfold generate_reviews.
    apply (ensures_for_each _ (fun _ acc => Forall (review_fields_ok orders) acc) _ [] []).
    - constructor.
    - intros pre i acc _ Hacc. apply ensures_generate_review_fields, Hacc. }
  exact (Hspec g rs g' Hrun).
Qed.

Lemma returns_generate_review_itemless (orders : list Order) (i : nat) :
  orders <> [] ->
  Forall (fun o => o_items o = []) orders ->
  returns (generate_review orders i []) (fun rs => rs = []).
Proof.
  intros Hne Hall. unfold generate_review.
  eapply returns_bind; [ apply returns_random_choice, Hne | intros o Ho ].
  rewrite Forall_forall in Hall. rewrite (Hall o Ho).
  apply returns_ret. reflexivity.
Qed.

(** X7. Edge cases of [generate_reviews]: with no order to choose from and
    at least one review asked for, it raises the [IndexError] of
    [random.choice] before drawing anything; with orders that all have an
    empty item list, it returns no review at all, whatever [n]. *)
Theorem generate_reviews_without_orders_or_items
    (orders : list Order) (n : nat) (g : G) :
  ((0 < n)%nat -> orders = [] ->
   generate_reviews orders n g = (Raises empty_choice_error, g)) /\
  (orders <> [] -> Forall (fun o => o_items o = []) orders ->
   exists g', generate_reviews orders n g = (Returns [], g')).
Proof.
  split.
  - intros Hn ->. unfold generate_reviews. rewrite range_1_succ.
    destruct n as [ | n ]; [ lia | ]. reflexivity.
  - intros Hne Hall.
    assert (Hspec : returns (generate_reviews orders n) (fun rs => rs = [])).
    { unfold generate_reviews.
      apply (returns_for_each _ (fun _ acc => acc = []) _ [] []); [ reflexivity | ].
      intros pre i acc _ ->. apply returns_generate_review_itemless; assumption. }
    destruct (Hspec g) as (rs & g' & Hrun & ->). exists g'. exact Hrun.
Qed.

(** *** The generation step of the uploader *)

(** A run of [generate_data] is a run of the four generators in sequence,
    each on the lists of the previous ones. *)
Lemma generate_data_runs (min_docs : Z) (g : G) :
  exists ps cs os rs g1 g2 g3 g4,
    generate_products (Z.to_nat (py_max min_docs 25)) g = (Returns ps, g1) /\
    generate_customers (Z.to_nat (py_max min_docs 25)) g1 = (Returns cs, g2) /\
    generate_orders cs ps (Z.to_nat (py_max min_docs 30)) g2 = (Returns os, g3) /\
    generate_reviews os (Z.to_nat (py_max min_docs 25)) g3 = (Returns rs, g4) /\
    generate_data min_docs g
      = (Returns {| products := ps; customers := cs; orders := os; reviews := rs |}, g4).
Proof.
  pose proof (py_max_lower min_docs 25) as H25.
  pose proof (py_max_lower min_docs 30) as H30.
  destruct (generate_products_spec (Z.to_nat (py_max min_docs 25)) g)
    as (ps & g1 & Hps & Pps).
  destruct (generate_customers_spec (Z.to_nat (py_max min_docs 25)) g1)
    as (cs & g2 & Hcs & Pcs).
  apply Forall2_seq_nonempty in Pps; [ | lia ].
  apply Forall2_seq_nonempty in Pcs; [ | lia ].
  destruct (generate_orders_returns cs ps (Z.to_nat (py_max min_docs 30)) Pcs Pps g2)
    as (os & g3 & Hos & Pos).
  apply Forall2_seq_nonempty in Pos; [ | lia ].
  destruct (generate_reviews_returns os (Z.to_nat (py_max min_docs 25)) Pos g3)
    as (rs & g4 & Hrs & _).
  exists ps, cs, os, rs, g1, g2, g3, g4.
  repeat (split; [ assumption | ]).
  unfold generate_data, bind. rewrite Hps, Hcs, Hos, Hrs. reflexivity.
Qed.

(** X8. The generation step of the uploader never fails and produces
    [max(min_docs, 25)] products, as many customers and reviews, and
    [max(min_docs, 30)] orders (50 of each with the constant of the
    script); no review iteration is skipped, since every generated order
    has an item. *)
Theorem generate_data_sizes (min_docs : Z) (g : G) :
  exists d g',
    generate_data min_docs g = (Returns d, g') /\
    Z.of_nat (List.length (products d)) = py_max min_docs 25 /\
    Z.of_nat (List.length (customers d)) = py_max min_docs 25 /\
    Z.of_nat (List.length (orders d)) = py_max min_docs 30 /\
    Z.of_nat (List.length (reviews d)) = py_max min_docs 25.
Proof.
  pose proof (py_max_lower min_docs 25) as H25.
  pose proof (py_max_lower min_docs 30) as H30.
  destruct (generate_data_runs min_docs g)
    as (ps & cs & os & rs & g1 & g2 & g3 & g4 & Hps & Hcs & Hos & Hrs & Hrun).
  eexists _, _. split; [ exact Hrun | ]. simpl.
  pose proof (ensures_of_returns _ _ (generate_products_spec _) _ _ _ Hps) as Pps.
  pose proof (ensures_of_returns _ _ (generate_customers_spec _) _ _ _ Hcs) as Pcs.
  pose proof (generate_orders_ensures _ _ _ _ _ _ Hos) as Pos.
  pose proof (generate_reviews_ids os _ (generated_orders_have_items _ _ _ _ Pos) _ _ _ Hrs)
    as Prs.
  cbv beta in Pps, Pcs, Pos, Prs.
  apply Forall2_length in Pps, Pcs, Pos, Prs. rewrite length_seq in Pps, Pcs, Pos, Prs.
  rewrite <- Pps, <- Pcs, <- Pos, <- Prs. repeat split; lia.
Qed.

(** X9. In the data the uploader generates, every order's [total_amount]
    is exactly the sum of the [item_total] fields of its items: the
    generated prices are whole cents and the quantities whole numbers, so
    (with the floats read as the exact decimals they stand for) no
    rounding error is left. *)
Theorem generated_orders_totals_exact (min_docs : Z) (g g' : G) (d : Dataset) :
  generate_data min_docs g = (Returns d, g') ->
  Forall (fun o => o_total_amount o == Qsum (map i_item_total (o_items o)))%Q (orders d).
Proof.
  intros Hrun.
  destruct (generate_data_runs min_docs g)
    as (ps & cs & os & rs & g1 & g2 & g3 & g4 & Hps & Hcs & Hos & Hrs & Hrun').
  rewrite Hrun' in Hrun. inversion Hrun; subst. simpl.
  pose proof (ensures_of_returns _ _ (generate_products_spec _) _ _ _ Hps) as Pps.
  cbv beta in Pps.
  assert (Hcents : Forall (fun p => has_decimals 2 (p_price p)) ps).
  { apply Forall_forall. intros p Hp.
    destruct (Forall2_In_r _ _ _ _ Pps Hp) as (i & _ & _ & _ & [_ Hdec] & _). exact Hdec. }
  apply Forall_forall. intros o Ho.
  exact (order_total_exact_for_cent_prices cs ps _ g2 g3 os o Hcents Hos Ho).
Qed.

End MoreGeneratorFacts.

(** ** The batches of [insert_in_batches] *)

Section Batches.
Local Open Scope nat_scope.

Lemma firstn_add_skipn {A} (a b : nat) (l : list A) :
  firstn (a + b) l = firstn a l ++ firstn b (skipn a l).
Proof.
  revert l. induction a as [ | a IH ]; intros l; simpl; [ reflexivity | ].
  destruct l as [ | x l ]; simpl.
  - rewrite firstn_nil. reflexivity.
  - rewrite IH. reflexivity.
Qed.

Lemma skipn_add {A} (a b : nat) (l : list A) :
  skipn (a + b) l = skipn b (skipn a l).
Proof.
  revert l. induction a as [ | a IH ]; intros l; simpl; [ reflexivity | ].
  destruct l as [ | x l ]; simpl; [ rewrite skipn_nil; reflexivity | apply IH ].
Qed.

(** Consecutive slices of width [b] put end to end are a prefix. *)
Lemma chunks_concat {A} (b : nat) (data : list A) :
  forall m a,
    List.concat (map (fun k => firstn b (skipn (k * b) data)) (seq a m))
    = firstn (m * b) (skipn (a * b) data).
Proof.
  induction m as [ | m IH ]; intros a; [ reflexivity | ].
  cbn [seq map List.concat]. rewrite IH.
  change (Datatypes.S m * b) with (b + m * b). rewrite firstn_add_skipn.
  f_equal. f_equal. rewrite <- skipn_add. f_equal. simpl. lia.
Qed.

(** The slices of [batches] in terms of naturals. *)
Lemma batches_as_chunks {A} (data : list A) (batch_size : Z) :
  (0 < batch_size)%Z ->
  batches data batch_size
  = map (fun k => firstn (Z.to_nat batch_size) (skipn (k * Z.to_nat batch_size) data))
        (seq 0 (Z.to_nat ((Z.of_nat (List.length data) + batch_size - 1) / batch_size))).
Proof.
  intros Hbs. unfold batches, py_range_step.
  destruct (batch_size =? 0)%Z eqn:E0; [ apply Z.eqb_eq in E0; lia | ].
  destruct (batch_size <? 0)%Z eqn:E1; [ apply Z.ltb_lt in E1; lia | ].
  rewrite map_map. apply map_ext. intros k. unfold py_slice.
  f_equal; [ f_equal; lia | ]. f_equal.
  rewrite Z2Nat.inj_mul, Nat2Z.id by lia. reflexivity.
Qed.

Lemma ceil_div_bounds (n b : Z) :
  (0 <= n)%Z -> (0 < b)%Z ->
  (n <= (n + b - 1) / b * b /\ ((n + b - 1) / b - 1) * b < n)%Z.
Proof.
  intros Hn Hb.
  pose proof (Z.div_mod (n + b - 1) b ltac:(lia)) as Hdm.
  pose proof (Z.mod_pos_bound (n + b - 1) b Hb) as Hmod.
  split; nia.
Qed.

Lemma ceil_div_nat (n : nat) (batch_size : Z) :
  (0 < batch_size)%Z ->
  let m := Z.to_nat ((Z.of_nat n + batch_size - 1) / batch_size) in
  let b := Z.to_nat batch_size in
  n <= m * b /\ (forall k, k < m -> k * b < n).
Proof.
  intros Hbs m b.
  destruct (ceil_div_bounds (Z.of_nat n) batch_size ltac:(lia) Hbs) as [Hup Hlow].
  assert (Hc : (0 <= (Z.of_nat n + batch_size - 1) / batch_size)%Z)
    by (apply Z.div_pos; lia).
  assert (Em : Z.of_nat m = ((Z.of_nat n + batch_size - 1) / batch_size)%Z)
    by (unfold m; lia).
  assert (Eb : Z.of_nat b = batch_size) by (unfold b; lia).
  clearbody m b. rewrite <- Em, <- Eb in *. clear Em Eb Hc.
  split; [ nia | ]. intros k Hk. nia.
Qed.

Lemma batches_concat {A} (data : list A) (batch_size : Z) :
  (0 < batch_size)%Z -> List.concat (batches data batch_size) = data.
Proof.
  intros Hbs. rewrite batches_as_chunks by exact Hbs.
  destruct (ceil_div_nat (List.length data) batch_size Hbs) as [Hup _].
  rewrite (chunks_concat _ data _ 0). simpl skipn. apply firstn_all2. exact Hup.
Qed.

(** X10. The batches of [insert_in_batches], for a positive batch size,
    cut the data into consecutive pieces: put end to end they give back the
    data, none is empty or longer than the batch size, and all but the last
    one have exactly the batch size. *)
Theorem batches_cover_data_once {A} (data : list A) (batch_size : Z) :
  (0 < batch_size)%Z ->
  List.concat (batches data batch_size) = data /\
  Forall (fun b => 1 <= List.length b /\ (Z.of_nat (List.length b) <= batch_size)%Z)
         (batches data batch_size) /\
  (forall k b,
      nth_error (batches data batch_size) k = Some b ->
      Datatypes.S k < List.length (batches data batch_size) ->
      Z.of_nat (List.length b) = batch_size).
Proof.
  intros Hbs. rewrite batches_as_chunks by exact Hbs.
  destruct (ceil_div_nat (List.length data) batch_size Hbs) as [Hup Hlow].
  set (m := Z.to_nat ((Z.of_nat (List.length data) + batch_size - 1) / batch_size)) in *.
  set (b := Z.to_nat batch_size) in *.
  assert (Hb : (Z.of_nat b = batch_size)%Z) by (unfold b; lia).
  split; [ | split ].
  - rewrite (chunks_concat b data m 0). simpl skipn. apply firstn_all2. lia.
  - apply Forall_forall. intros c Hc. apply in_map_iff in Hc.
    destruct Hc as (k & <- & Hk). apply in_seq in Hk.
    rewrite length_firstn, length_skipn.
    pose proof (Hlow k ltac:(lia)). lia.
  - intros k c Hk Hlast. rewrite length_map, length_seq in Hlast.
    rewrite nth_error_map in Hk.
    rewrite (nth_error_nth' _ 0) in Hk by (rewrite length_seq; lia).
    rewrite seq_nth in Hk by lia. simpl in Hk. inversion Hk; subst c.
    rewrite length_firstn, length_skipn.
    pose proof (Hlow (Datatypes.S k) Hlast). lia.
Qed.

End Batches.

(** ** The outcomes of a bulk write *)

Section MoreUploaderFacts.
Context {G : Type} {R : Rng G} {L : RngLaws G} {W Doc Id : Type} {S : Store W Doc Id}.

Local Abbreviation UState := (@UState G W Doc Id).
Local Abbreviation event := (event Doc Id).


Lemma insert_one_docs_app (l1 l2 : list event) :
  insert_one_docs (l1 ++ l2) = insert_one_docs l1 ++ insert_one_docs l2.
Proof. unfold insert_one_docs. apply flat_map_app. Qed.

(** One successful attempt ends the loop for the batch. *)
Lemma insert_batch_success (coll : string) (data : list Doc) (batch_size i inserted : Z)
    (st : UState) (result : bulk_write_result) (w' : W) :
  bulk_write coll (py_slice data i (i + batch_size)) (world st) = (Returns result, w') ->
  insert_batch coll data batch_size i inserted st
  = Some (Returns (inserted + match inserted_count result with
                               | Some k => k
                               | None => Z.of_nat (List.length (py_slice data i (i + batch_size)))
                               end),
          {| world := w'; rng := rng st;
             log := log st ++ [ EBulkWrite coll (py_slice data i (i + batch_size));
                                ESleep (inject_Z BATCH_DELAY) ] |}).
Proof.
  intros Hbw. unfold insert_batch. simpl write_loop.
  unfold bindU at 1, call_bulk_write. rewrite Hbw.
  unfold bindU, sleep, retU. cbn [world rng log].
  rewrite <- List.app_assoc. reflexivity.
Qed.

Lemma for_each_batch_success (Inv : W -> Prop) (coll : string) (data : list Doc)
    (batch_size : Z) :
  (forall batch w, Inv w ->
     exists result w',
       bulk_write coll batch w = (Returns result, w') /\
       (inserted_count result = None \/
        inserted_count result = Some (Z.of_nat (List.length batch))) /\
       Inv w') ->
  forall (starts : list Z) (inserted : Z) (st : UState),
    Inv (world st) ->
    exists st',
      for_eachU starts (insert_batch coll data batch_size) inserted st
        = Some (Returns (inserted
                         + Z.of_nat (List.length
                             (List.concat (map (fun i => py_slice data i (i + batch_size))
                                               starts)))),
                st') /\
      log st' = log st ++ success_trace coll
                            (map (fun i => py_slice data i (i + batch_size)) starts) /\
      rng st' = rng st /\
      Inv (world st').
Proof.
  intros Hok. induction starts as [ | i starts IH ]; intros inserted st Hinv.
  - exists st. simpl. rewrite Z.add_0_r, List.app_nil_r. repeat split; assumption.
  - destruct (Hok (py_slice data i (i + batch_size)) (world st) Hinv)
      as (result & w' & Hbw & Hcount & Hinv').
    pose proof (insert_batch_success coll data batch_size i inserted st result w' Hbw)
      as Hstep.
    set (st1 := {| world := w'; rng := rng st;
                   log := log st ++ [ EBulkWrite coll (py_slice data i (i + batch_size));
                                      ESleep (inject_Z BATCH_DELAY) ] |}) in *.
    assert (Hk : match inserted_count result with
                 | Some k => k
                 | None => Z.of_nat (List.length (py_slice data i (i + batch_size)))
                 end = Z.of_nat (List.length (py_slice data i (i + batch_size)))).
    { destruct Hcount as [ -> | -> ]; reflexivity. }
    rewrite Hk in Hstep.
    destruct (IH (inserted + Z.of_nat (List.length (py_slice data i (i + batch_size))))
                 st1 Hinv') as (st' & Hrest & Hlog & Hrng & Hinv'').
    exists st'. split; [ | split; [ | split ] ].
    + cbn [for_eachU]. unfold bindU at 1. rewrite Hstep, Hrest.
      cbn [map List.concat]. rewrite length_app. do 3 f_equal. lia.
    + rewrite Hlog. unfold st1. cbn [log map success_trace flat_map].
      rewrite <- List.app_assoc. reflexivity.
    + rewrite Hrng. reflexivity.
    + exact Hinv''.
Qed.

(** X11. When the store accepts every bulk write, acknowledging the whole
    batch (or giving no count), [insert_in_batches] with a positive batch
    size writes each batch once, in order, sleeps [BATCH_DELAY] seconds
    after each, draws no random number and returns the number of
    documents of the data. *)
Theorem insert_in_batches_all_accepted (Inv : W -> Prop) (coll : string)
    (data : list Doc) (batch_size : Z) (st : UState) :
  0 < batch_size ->
  Inv (world st) ->
  (forall batch w, Inv w ->
     exists result w',
       bulk_write coll batch w = (Returns result, w') /\
       (inserted_count result = None \/
        inserted_count result = Some (Z.of_nat (List.length batch))) /\
       Inv w') ->
  exists st',
    insert_in_batches coll data batch_size st
      = Some (Returns (Z.of_nat (List.length data)), st') /\
    log st' = log st ++ success_trace coll (batches data batch_size) /\
    rng st' = rng st.
Proof.
  intros Hbs Hinv Hok.
  pose proof (batches_concat data batch_size Hbs) as Hcat.
  unfold insert_in_batches. unfold batches in Hcat |- *.
  destruct (py_range_step (Z.of_nat (List.length data)) batch_size) as [ starts | e ] eqn:Er.
  - destruct (for_each_batch_success Inv coll data batch_size Hok starts 0 st Hinv)
      as (st' & Hrun & Hlog & Hrng & _).
    exists st'. rewrite Hcat in Hrun. split; [ exact Hrun | ]. split; assumption.
  - unfold py_range_step in Er.
    destruct (batch_size =? 0) eqn:E0; [ apply Z.eqb_eq in E0; lia | ].
    destruct (batch_size <? 0); discriminate Er.
Qed.

(** X12. A [BulkWriteError] ends the loop of the batch at once: the batch
    is written once and never retried, the count grows by the [nInserted]
    the error reports (0 when it reports none), and the uploader sleeps
    twice [BATCH_DELAY] before the next batch, without drawing a random
    number. *)
Theorem bulk_write_error_counts_reported_and_moves_on
    (coll : string) (data : list Doc) (batch_size i inserted : Z) (st : UState)
    (details : option bulk_details) (w' : W) :
  bulk_write coll (py_slice data i (i + batch_size)) (world st)
    = (Raises (BulkWriteError details), w') ->
  insert_batch coll data batch_size i inserted st
  = Some (Returns (inserted + reported_inserted details),
          {| world := w'; rng := rng st;
             log := log st ++ [ EBulkWrite coll (py_slice data i (i + batch_size));
                                ESleep (inject_Z (BATCH_DELAY * 2)) ] |}).
Proof.
  intros Hbw. unfold insert_batch. simpl write_loop.
  unfold bindU at 1, call_bulk_write. rewrite Hbw.
  unfold bindU, sleep, retU, reported_inserted. cbn [world rng log].
  rewrite <- List.app_assoc. reflexivity.
Qed.

(** The per-document fallback tries every document once, in order. *)
Lemma insert_one_by_one_spec (coll : string) (batch : list Doc) :
  forall (inserted : Z) (st : UState),
    exists k st' evs,
      insert_one_by_one coll batch inserted st = Some (Returns (inserted + k), st') /\
      0 <= k <= Z.of_nat (List.length batch) /\
      log st' = log st ++ evs /\
      insert_one_docs evs = batch /\
      bulk_write_sizes evs = [] /\
      rng st' = rng st /\
      k = accepted_one_by_one coll batch (world st) /\
      sleep_durations evs = repeat (1 # 2)%Q (Z.to_nat k).
Proof.
  induction batch as [ | doc rest IH ]; intros inserted st.
  - exists 0, st, []. simpl. rewrite Z.add_0_r, List.app_nil_r.
    repeat split; reflexivity || lia.
  - cbn [insert_one_by_one accepted_one_by_one]. unfold bindU at 1, call_insert_one.
    destruct (insert_one coll doc (world st)) as [ [ [] | e ] w' ].
    + unfold bindU at 1, sleep.
      match goal with |- context [ insert_one_by_one coll rest ?n ?s ] =>
        destruct (IH n s)
          as (k & st' & evs & Hrun & Hk & Hlog & Hdocs & Hbulk & Hrng & Hacc & Hsleeps) end.
      exists (1 + k), st', (EInsertOne coll doc :: ESleep (1 # 2) :: evs).
      rewrite Hrun. cbn [log rng world] in Hlog, Hrng, Hacc.
      split; [ do 3 f_equal; lia | ].
      split; [ cbn [List.length]; lia | ].
      split; [ rewrite Hlog, <- !List.app_assoc; reflexivity | ].
      split; [ simpl; rewrite Hdocs; reflexivity | ].
      split; [ simpl; exact Hbulk | ].
      split; [ exact Hrng | ].
      split; [ rewrite Hacc; reflexivity | ].
      replace (Z.to_nat (1 + k)) with (Datatypes.S (Z.to_nat k)) by lia.
      change (sleep_durations (EInsertOne coll doc :: ESleep (1 # 2) :: evs))
        with ((1 # 2)%Q :: sleep_durations evs).
      rewrite Hsleeps. reflexivity.
    + match goal with |- context [ insert_one_by_one coll rest ?n ?s ] =>
        destruct (IH n s)
          as (k & st' & evs & Hrun & Hk & Hlog & Hdocs & Hbulk & Hrng & Hacc & Hsleeps) end.
      exists k, st', (EInsertOne coll doc :: evs).
      rewrite Hrun. cbn [log rng world] in Hlog, Hrng, Hacc.
      split; [ reflexivity | ].
      split; [ cbn [List.length]; lia | ].
      split; [ rewrite Hlog, <- !List.app_assoc; reflexivity | ].
      split; [ simpl; rewrite Hdocs; reflexivity | ].
      split; [ simpl; exact Hbulk | ].
      split; [ exact Hrng | ].
      split; [ exact Hacc | ].
      change (sleep_durations (EInsertOne coll doc :: evs)) with (sleep_durations evs).
      exact Hsleeps.
Qed.

(** X13. A [PyMongoError] that is not a rate-limit error makes the uploader
    fall back to [insert_one]: after the one failed bulk write, every
    document of the batch is passed to [insert_one] exactly once, in order;
    the count grows by exactly the number of documents that went through,
    and the fallback sleeps half a second as many times, and not
    otherwise; a failing document raises nothing, and the bulk write is
    not tried again. *)
Theorem other_pymongo_error_falls_back_to_insert_one
    (coll : string) (data : list Doc) (batch_size i inserted : Z) (st : UState)
    (msg : string) (w' : W) :
  let batch := py_slice data i (i + batch_size) in
  bulk_write coll batch (world st) = (Raises (PyMongoError msg), w') ->
  is_rate_limit msg = false ->
  exists st' evs,
    insert_batch coll data batch_size i inserted st
      = Some (Returns (inserted + accepted_one_by_one coll batch w'), st') /\
    0 <= accepted_one_by_one coll batch w' <= Z.of_nat (List.length batch) /\
    log st' = log st ++ EBulkWrite coll batch :: evs /\
    insert_one_docs evs = batch /\
    bulk_write_sizes evs = [] /\
    sleep_durations evs = repeat (1 # 2)%Q (Z.to_nat (accepted_one_by_one coll batch w')).
Proof.
  intros batch Hbw Hmsg. unfold insert_batch. fold batch. simpl write_loop.
  unfold bindU at 1, call_bulk_write. rewrite Hbw, Hmsg.
  match goal with |- context [ insert_one_by_one coll batch inserted ?s ] =>
    destruct (insert_one_by_one_spec coll batch inserted s)
      as (k & st' & evs & Hrun & Hk & Hlog & Hdocs & Hbulk & _ & Hacc & Hsleeps) end.
  cbn [log world] in Hlog, Hacc. subst k.
  exists st', evs. rewrite Hrun.
  split; [ reflexivity | ]. split; [ exact Hk | ].
  split; [ rewrite Hlog, <- List.app_assoc; reflexivity | ].
  split; [ exact Hdocs | ]. split; [ exact Hbulk | exact Hsleeps ].
Qed.






Lemma write_loop_unexpected_exception (coll : string) (batch : list Doc)
    (fuel : nat) (attempt inserted : Z) (st : UState) (e : exn) (w' : W) :
  attempt <= max_retries ->
  is_PyMongoError e = false ->
  bulk_write coll batch (world st) = (Raises e, w') ->
  write_loop (Datatypes.S fuel) coll batch attempt inserted st
  = Some (Raises e,
          {| world := w'; rng := rng st; log := log st ++ [EBulkWrite coll batch] |}).
Proof.
  intros Hatt He Hbw. cbn [write_loop].
  destruct (attempt <=? max_retries) eqn:Ele; [ | apply Z.leb_gt in Ele; lia ].
  unfold bindU at 1, call_bulk_write. rewrite Hbw.
  destruct e; try discriminate He; reflexivity.
Qed.

(** X15. An exception of [bulk_write] that is not a [PyMongoError] is not
    handled by [insert_in_batches]: raised by the write of the first batch,
    it leaves the function at once, after that single call, with no sleep,
    no retry and none of the other batches written. *)
Theorem unexpected_exception_aborts_insert_in_batches
    (coll : string) (data : list Doc) (batch_size : Z) (st : UState) (e : exn) (w' : W) :
  data <> [] ->
  0 < batch_size ->
  is_PyMongoError e = false ->
  bulk_write coll (py_slice data 0 batch_size) (world st) = (Raises e, w') ->
  insert_in_batches coll data batch_size st
  = Some (Raises e,
          {| world := w'; rng := rng st;
             log := log st ++ [EBulkWrite coll (py_slice data 0 batch_size)] |}).
Proof.
  intros Hdata Hbs He Hbw. unfold insert_in_batches, py_range_step.
  destruct (batch_size =? 0) eqn:E0; [ apply Z.eqb_eq in E0; lia | ].
  destruct (batch_size <? 0) eqn:E1; [ apply Z.ltb_lt in E1; lia | ].
  assert (Hm : (0 < Z.to_nat ((Z.of_nat (List.length data) + batch_size - 1) / batch_size))%nat).
  { destruct data as [ | d data ]; [ congruence | ].
    assert (1 <= (Z.of_nat (List.length (d :: data)) + batch_size - 1) / batch_size).
    { apply Z.div_le_lower_bound; [ lia | ]. cbn [List.length]. lia. }
    lia. }
  destruct (Z.to_nat ((Z.of_nat (List.length data) + batch_size - 1) / batch_size))
    as [ | m ]; [ lia | ].
  cbn [seq map for_eachU]. change (Z.of_nat 0 * batch_size) with 0.
  unfold bindU at 1. unfold insert_batch.
  change (0 + batch_size) with batch_size.
  rewrite (write_loop_unexpected_exception coll _ _ 0 0 st e w');
    [ reflexivity | unfold max_retries; lia | exact He | exact Hbw ].
Qed.

(** ** [clear_collection_safely] *)

(** X16. The delete loop has no bound: on a collection that is not empty
    and whose every [delete_many] fails with a [PyMongoError], it sleeps
    and tries again for ever, so no amount of fuel lets
    [clear_collection_safely] return. *)
Theorem clear_collection_retries_for_ever
    (Inv : W -> Prop) (coll : string) (st : UState) (fuel : nat) :
  Inv (world st) ->
  (forall w, Inv w ->
     exists id ids e w',
       find_ids coll 20 w = Returns (id :: ids) /\
       delete_many coll (id :: ids) w = (Raises e, w') /\
       is_PyMongoError e = true /\
       Inv w') ->
  clear_collection_safely fuel coll st = None.
Proof.
  intros Hinv Hfail. unfold clear_collection_safely.
  generalize 0 as deleted. revert st Hinv.
  induction fuel as [ | fuel IH ]; intros st Hinv deleted; [ reflexivity | ].
  destruct (Hfail (world st) Hinv) as (id & ids & e & w' & Hfind & Hdel & He & Hinv').
  cbn [clear_loop]. unfold bindU at 1, call_find_ids. rewrite Hfind.
  unfold bindU at 1, call_delete_many. rewrite Hdel, He.
  unfold bindU at 1, sleep. cbn [world rng log].
  apply IH. exact Hinv'.
Qed.

(** *** A batch that goes through after some retries *)

Lemma write_loop_recovers (coll : string) (batch : list Doc)
    (result : bulk_write_result) (w_end : W) :
  forall (k fuel : nat) (attempt inserted : Z) (st : UState),
    0 <= attempt ->
    attempt + Z.of_nat k <= max_retries ->
    (k < fuel)%nat ->
    throttled_then_accepted coll batch k (world st) result w_end ->
    exists us st',
      write_loop fuel coll batch attempt inserted st
        = Some (Returns (inserted + batch_inserted batch result), st') /\
      List.length us = k /\
      log st' = log st ++ backoff_trace coll batch attempt us
                       ++ [EBulkWrite coll batch; ESleep (inject_Z BATCH_DELAY)] /\
      world st' = w_end.
Proof.
  unfold max_retries.
  induction k as [ | k IH ]; intros fuel attempt inserted st Hatt Hk Hfuel Hstore;
    (destruct fuel as [ | fuel ]; [ lia | ]);
    cbn [write_loop]; unfold max_retries;
    (destruct (attempt <=? 5) eqn:Ele; [ | apply Z.leb_gt in Ele; lia ]).
  - cbn [throttled_then_accepted] in Hstore.
    unfold bindU at 1, call_bulk_write. rewrite Hstore.
    unfold bindU, sleep, retU. cbn [world rng log].
    exists []. eexists. split; [ reflexivity | ]. split; [ reflexivity | ].
    split; [ cbn [backoff_trace app log]; rewrite <- List.app_assoc; reflexivity
           | reflexivity ].
  - cbn [throttled_then_accepted] in Hstore.
    destruct Hstore as (msg & w1 & Hbw & Hmsg & Hstore).
    unfold bindU at 1, call_bulk_write. rewrite Hbw, Hmsg.
    unfold bindU at 1, randomU. cbn [world rng log].
    destruct (next_float (rng st)) as [u g'].
    unfold bindU at 1, sleep. cbn [world rng log].
    destruct (attempt + 1 >? 5) eqn:Egt; [ apply Z.gtb_lt in Egt; lia | ].
    match goal with |- context [ write_loop fuel coll batch (attempt + 1) inserted ?s ] =>
      destruct (IH fuel (attempt + 1) inserted s ltac:(lia) ltac:(lia) ltac:(lia) Hstore)
        as (us & st' & Hrun & Hlen & Hlog & Hend) end.
    exists (u :: us), st'. split; [ exact Hrun | ].
    split; [ cbn [List.length]; rewrite Hlen; reflexivity | ].
    split; [ | exact Hend ].
    rewrite Hlog. cbn [log backoff_trace app]. rewrite <- !List.app_assoc. reflexivity.
Qed.

(** X24. The retry recovers a rate-limited batch: when the store rejects
    the bulk write of a batch [k] times in a row with a rate-limit error,
    with [k] at most [max_retries = 5], and then accepts it, the batch is
    written [k + 1] times, with one backoff sleep after each rejection and
    the sleep of [BATCH_DELAY] after the success, and it is counted once. *)
Theorem rate_limited_batch_recovers_within_max_retries
    (coll : string) (data : list Doc) (batch_size i inserted : Z) (st : UState)
    (k : nat) (result : bulk_write_result) (w_end : W) :
  let batch := py_slice data i (i + batch_size) in
  (k <= 5)%nat ->
  throttled_then_accepted coll batch k (world st) result w_end ->
  exists us st',
    insert_batch coll data batch_size i inserted st
      = Some (Returns (inserted + batch_inserted batch result), st') /\
    List.length us = k /\
    log st' = log st ++ backoff_trace coll batch 0 us
                     ++ [EBulkWrite coll batch; ESleep (inject_Z BATCH_DELAY)] /\
    world st' = w_end.
Proof.
  intros batch Hk Hstore. unfold insert_batch. fold batch.
  apply write_loop_recovers; [ lia | unfold max_retries; lia | | exact Hstore ].
  unfold max_retries. simpl Z.to_nat. lia.
Qed.

(** *** The kinds of calls of each function *)

Section AddsOnly.
Variable P : event -> Prop.

Lemma adds_only_nothing {A} (m : @U G W Doc Id A) :
  (forall st r st', m st = Some (r, st') -> log st' = log st) ->
  adds_only P m.
Proof.
  intros Hm st r st' Hrun. exists []. rewrite List.app_nil_r.
  split; [ exact (Hm _ _ _ Hrun) | constructor ].
Qed.

Lemma adds_only_one {A} (m : @U G W Doc Id A) (e : event) :
  P e ->
  (forall st r st', m st = Some (r, st') -> log st' = log st ++ [e]) ->
  adds_only P m.
Proof.
  intros He Hm st r st' Hrun. exists [e].
  split; [ exact (Hm _ _ _ Hrun) | constructor; [ exact He | constructor ] ].
Qed.

Lemma adds_only_bind {A B} (m : @U G W Doc Id A) (k : A -> @U G W Doc Id B) :
  adds_only P m -> (forall a, adds_only P (k a)) -> adds_only P (bindU m k).
Proof.
  intros Hm Hk st r st' Hrun. unfold bindU in Hrun.
  destruct (m st) as [ [ [ a | e ] st1 ] | ] eqn:Em; [ | | discriminate Hrun ].
  - destruct (Hm _ _ _ Em) as (evs1 & Hlog1 & Hall1).
    destruct (Hk a _ _ _ Hrun) as (evs2 & Hlog2 & Hall2).
    exists (evs1 ++ evs2). split.
    + rewrite Hlog2, Hlog1, List.app_assoc. reflexivity.
    + apply Forall_app. split; assumption.
  - inversion Hrun; subst. exact (Hm _ _ _ Em).
Qed.

Lemma adds_only_retU {A} (a : A) :
  adds_only P (retU (G := G) (W := W) (Doc := Doc) (Id := Id) a).
Proof. apply adds_only_nothing. intros st r st' [= _ <-]. reflexivity. Qed.

Lemma adds_only_raiseU {A} (e : exn) :
  adds_only P (raiseU (G := G) (W := W) (Doc := Doc) (Id := Id) (A := A) e).
Proof. apply adds_only_nothing. intros st r st' [= _ <-]. reflexivity. Qed.

Lemma adds_only_out_of_fuel {A} :
  adds_only P (out_of_fuel (G := G) (W := W) (Doc := Doc) (Id := Id) (A := A)).
Proof. intros st r st' Hrun. discriminate Hrun. Qed.

Lemma adds_only_randomU :
  adds_only P (randomU (W := W) (Doc := Doc) (Id := Id)).
Proof.
  apply adds_only_nothing. intros st r st'. unfold randomU.
  destruct (next_float (rng st)). intros [= _ <-]. reflexivity.
Qed.

Lemma adds_only_count (coll : string) :
  adds_only P (call_count_documents (G := G) (Doc := Doc) (Id := Id) coll).
Proof.
  apply adds_only_nothing. intros st r st'. unfold call_count_documents.
  destruct (count_documents coll (world st)); intros [= _ <-]; reflexivity.
Qed.

Lemma adds_only_find_ids (coll : string) (limit : Z) :
  adds_only P (call_find_ids (G := G) (Doc := Doc) coll limit).
Proof.
  apply adds_only_nothing. intros st r st'. unfold call_find_ids.
  destruct (find_ids coll limit (world st)); intros [= _ <-]; reflexivity.
Qed.

Lemma adds_only_sleep (seconds : Q) :
  P (ESleep seconds) ->
  adds_only P (sleep (G := G) (W := W) (Doc := Doc) (Id := Id) seconds).
Proof.
  intros HP. apply (adds_only_one _ (ESleep seconds) HP).
  intros st r st' [= _ <-]. reflexivity.
Qed.

Lemma adds_only_bulk_write (coll : string) (docs : list Doc) :
  P (EBulkWrite coll docs) ->
  adds_only P (call_bulk_write (G := G) coll docs).
Proof.
  intros HP. apply (adds_only_one _ (EBulkWrite coll docs) HP).
  intros st r st'. unfold call_bulk_write.
  destruct (bulk_write coll docs (world st)). intros [= _ <-]. reflexivity.
Qed.

Lemma adds_only_insert_one (coll : string) (doc : Doc) :
  P (EInsertOne coll doc) ->
  adds_only P (call_insert_one (G := G) coll doc).
Proof.
  intros HP. apply (adds_only_one _ (EInsertOne coll doc) HP).
  intros st r st'. unfold call_insert_one.
  destruct (insert_one coll doc (world st)). intros [= _ <-]. reflexivity.
Qed.

Lemma adds_only_delete_many (coll : string) (ids : list Id) :
  P (EDeleteMany coll ids) ->
  adds_only P (call_delete_many (G := G) coll ids).
Proof.
  intros HP. apply (adds_only_one _ (EDeleteMany coll ids) HP).
  intros st r st'. unfold call_delete_many.
  destruct (delete_many coll ids (world st)). intros [= _ <-]. reflexivity.
Qed.

Lemma adds_only_for_eachU {A B} (body : A -> B -> @U G W Doc Id B) :
  (forall x acc, adds_only P (body x acc)) ->
  forall xs acc, adds_only P (for_eachU xs body acc).
Proof.
  intros Hbody. induction xs as [ | x xs IH ]; intros acc; simpl.
  - apply adds_only_retU.
  - apply adds_only_bind; [ apply Hbody | intros acc'; apply IH ].
Qed.

Ltac adds :=
  repeat first
    [ apply adds_only_retU | apply adds_only_raiseU | apply adds_only_out_of_fuel
    | apply adds_only_randomU | apply adds_only_count | apply adds_only_find_ids
    | apply adds_only_sleep; solve [ auto ]
    | apply adds_only_bulk_write; solve [ auto ]
    | apply adds_only_insert_one; solve [ auto ]
    | apply adds_only_delete_many; solve [ auto ]
    | apply adds_only_bind; [ | intros ? ] ].

Section Inserting.
Variable coll : string.
Hypothesis P_sleep : forall seconds, P (ESleep seconds).
Hypothesis P_bulk_write : forall docs, P (EBulkWrite coll docs).
Hypothesis P_insert_one : forall doc, P (EInsertOne coll doc).

Lemma adds_only_insert_one_by_one (batch : list Doc) :
  forall inserted, adds_only P (insert_one_by_one (G := G) coll batch inserted).
Proof.
  induction batch as [ | doc rest IH ]; intros inserted; simpl.
  - adds.
  - apply adds_only_bind; [ adds | intros [ [] | e ] ]; adds; apply IH.
Qed.

Lemma adds_only_write_loop (batch : list Doc) :
  forall fuel attempt inserted,
    adds_only P (write_loop (G := G) fuel coll batch attempt inserted).
Proof.
  induction fuel as [ | fuel IH ]; intros attempt inserted; simpl.
  - adds.
  - destruct (attempt <=? max_retries); [ | adds ].
    apply adds_only_bind; [ adds | ].
    intros [ result | [ details | msg | msg | msg | msg ] ]; adds.
    destruct (is_rate_limit msg).
    + adds. destruct (attempt + 1 >? max_retries); [ adds | apply IH ].
    + apply adds_only_insert_one_by_one.
Qed.

Lemma adds_only_insert_in_batches (data : list Doc) (batch_size : Z) :
  adds_only P (insert_in_batches (G := G) coll data batch_size).
Proof.
  unfold insert_in_batches.
  destruct (py_range_step _ batch_size) as [ starts | e ]; [ | adds ].
  apply adds_only_for_eachU. intros i inserted. apply adds_only_write_loop.
Qed.

End Inserting.

Section Clearing.
Variable coll : string.
Hypothesis P_sleep : forall seconds, P (ESleep seconds).
Hypothesis P_delete_many : forall ids, P (EDeleteMany coll ids).

Lemma adds_only_clear_loop (batch_size : Z) :
  forall fuel deleted,
    adds_only P (clear_loop (G := G) (Doc := Doc) fuel coll batch_size deleted).
Proof.
  induction fuel as [ | fuel IH ]; intros deleted; simpl.
  - adds.
  - apply adds_only_bind; [ adds | intros [ | id ids ] ]; [ adds | ].
    apply adds_only_bind; [ adds | intros [ n | e ] ].
    + adds. apply IH.
    + destruct (is_PyMongoError e); adds. apply IH.
Qed.

End Clearing.

End AddsOnly.

Lemma clear_loop_ends_on_empty_scan (coll : string) (batch_size : Z) :
  forall (fuel : nat) (deleted n : Z) (st st' : UState),
    clear_loop fuel coll batch_size deleted st = Some (Returns n, st') ->
    find_ids coll batch_size (world st') = Returns [].
Proof.
  induction fuel as [ | fuel IH ]; intros deleted n st st' Hrun; [ discriminate Hrun | ].
  cbn [clear_loop] in Hrun. unfold bindU at 1, call_find_ids in Hrun.
  destruct (find_ids coll batch_size (world st)) as [ [ | id ids ] | e ] eqn:Efind;
    [ | | discriminate Hrun ].
  - injection Hrun as _ <-. exact Efind.
  - unfold bindU at 1, call_delete_many in Hrun.
    destruct (delete_many coll (id :: ids) (world st)) as [ [ k | e ] w' ].
    + unfold bindU at 1, sleep in Hrun. exact (IH _ _ _ _ Hrun).
    + destruct (is_PyMongoError e); [ | discriminate Hrun ].
      unfold bindU at 1, sleep in Hrun. exact (IH _ _ _ _ Hrun).
Qed.

(** X17. [clear_collection_safely] returns only after a scan of the
    collection that found no document, and all it has done until then is
    to call [delete_many] on that collection and to sleep: it inserts
    nothing and touches no other collection. *)
Theorem clear_collection_only_deletes_until_scan_is_empty
    (fuel : nat) (coll : string) (st st' : UState) (deleted : Z) :
  clear_collection_safely fuel coll st = Some (Returns deleted, st') ->
  find_ids coll 20 (world st') = Returns [] /\
  exists evs, log st' = log st ++ evs /\ Forall (clear_event coll) evs.
Proof.
  intros Hrun. split.
  - exact (clear_loop_ends_on_empty_scan coll 20 fuel 0 deleted st st' Hrun).
  - refine (adds_only_clear_loop (clear_event coll) coll _ _ 20 fuel 0 st _ st' Hrun).
    + intros seconds. exact I.
    + intros ids. reflexivity.
Qed.

Lemma finishes_unforced_upload
    (min_docs : Z) (fuel : nat) (coll : string) (data : list Doc) :
  finishes (upload_collection (G := G) false min_docs fuel coll data).
Proof.
  intros st. unfold upload_collection. unfold bindU at 1, call_count_documents.
  destruct (count_documents coll (world st)) as [ count | e ]; [ | eexists _, _; reflexivity ].
  rewrite Bool.andb_false_r.
  destruct (false || (count <? min_docs)); [ | eexists _, _; reflexivity ].
  unfold bindU at 1, retU at 1.
  destruct (finishes_insert_in_batches coll data 10 st) as (r & st' & Hrun).
  unfold bindU. rewrite Hrun. destruct r; eexists _, _; reflexivity.
Qed.

Lemma upload_skipped_when_populated
    (min_docs : Z) (fuel : nat) (coll : string) (data : list Doc) (st : UState) (count : Z) :
  count_documents coll (world st) = Returns count ->
  min_docs <= count ->
  upload_collection false min_docs fuel coll data st = Some (Returns None, st).
Proof.
  intros Hcount Hmin. unfold upload_collection, bindU, call_count_documents.
  rewrite Hcount.
  destruct (count <? min_docs) eqn:E; [ apply Z.ltb_lt in E; lia | reflexivity ].
Qed.

(** X18. With [FORCE_UPLOAD] off, the upload block of a collection always
    comes to an end, whatever the store answers and without any fuel for
    the delete loop, and it never calls [delete_many]: a collection below
    the threshold keeps the documents it has, the generated ones are
    added to them. *)
Theorem unforced_upload_ends_and_never_deletes
    (min_docs : Z) (fuel : nat) (coll : string) (data : list Doc) (st : UState) :
  exists r st' evs,
    upload_collection false min_docs fuel coll data st = Some (r, st') /\
    log st' = log st ++ evs /\
    Forall (fun e => is_delete e = false) evs.
Proof.
  assert (Hadds : adds_only (fun e => is_delete e = false)
                    (upload_collection (G := G) false min_docs fuel coll data)).
  { unfold upload_collection.
    apply adds_only_bind; [ apply adds_only_count | intros count ].
    rewrite Bool.andb_false_r.
    destruct (false || (count <? min_docs)); [ | apply adds_only_retU ].
    apply adds_only_bind; [ apply adds_only_retU | intros _ ].
    apply adds_only_bind; [ | intros n; apply adds_only_retU ].
    apply adds_only_insert_in_batches; intros; reflexivity. }
  destruct (finishes_unforced_upload min_docs fuel coll data st) as (r & st' & Hrun).
  destruct (Hadds st r st' Hrun) as (evs & Hlog & Hall).
  exists r, st', evs. repeat split; assumption.
Qed.

Lemma adds_only_bind_split (P Q : event -> Prop) {A B}
    (m : @U G W Doc Id A) (k : A -> @U G W Doc Id B) :
  adds_only P m -> (forall a, adds_only Q (k a)) ->
  forall st r st', bindU m k st = Some (r, st') ->
    exists evs1 evs2, log st' = log st ++ evs1 ++ evs2 /\ Forall P evs1 /\ Forall Q evs2.
Proof.
  intros Hm Hk st r st' Hrun. unfold bindU in Hrun.
  destruct (m st) as [ [ [ a | e ] st1 ] | ] eqn:Em; [ | | discriminate Hrun ].
  - destruct (Hm _ _ _ Em) as (evs1 & Hlog1 & Hall1).
    destruct (Hk a _ _ _ Hrun) as (evs2 & Hlog2 & Hall2).
    exists evs1, evs2. split; [ | split; assumption ].
    rewrite Hlog2, Hlog1, List.app_assoc. reflexivity.
  - inversion Hrun; subst. destruct (Hm _ _ _ Em) as (evs1 & Hlog1 & Hall1).
    exists evs1, []. rewrite List.app_nil_r. split; [ exact Hlog1 | ].
    split; [ exact Hall1 | constructor ].
Qed.

(** X25. With [FORCE_UPLOAD] on, the upload block of a collection deletes
    first and inserts afterwards: its calls are [delete_many] calls on the
    collection (and sleeps), followed by writes to the collection (and
    sleeps) among which there is no delete, so that it never deletes a
    document it has just inserted. *)
Theorem forced_upload_deletes_before_it_inserts
    (min_docs : Z) (fuel : nat) (coll : string) (data : list Doc)
    (st st' : UState) (r : py (option Z)) :
  upload_collection true min_docs fuel coll data st = Some (r, st') ->
  exists deletes inserts,
    log st' = log st ++ deletes ++ inserts /\
    Forall (clear_event coll) deletes /\
    Forall (fun e => is_delete e = false /\ event_on coll e) inserts.
Proof.
  intros Hrun. unfold upload_collection in Hrun.
  unfold bindU at 1, call_count_documents in Hrun.
  destruct (count_documents coll (world st)) as [ count | e ].
  - cbn [orb] in Hrun. rewrite Bool.andb_true_r in Hrun.
    revert Hrun. apply adds_only_bind_split.
    + destruct (count >? 0).
      * apply adds_only_clear_loop; [ intros; exact I | intros; reflexivity ].
      * apply adds_only_retU.
    + intros _. apply adds_only_bind; [ | intros n; apply adds_only_retU ].
      apply adds_only_insert_in_batches; intros; split; reflexivity || exact I.
  - injection Hrun as _ <-. exists [], []. rewrite List.app_nil_r.
    repeat split; constructor.
Qed.

(** X19. With [FORCE_UPLOAD] off, a collection that counts fewer than
    [min_docs] documents, on a store that accepts every bulk write, gets
    the whole data set: one bulk write per batch of ten, in order, each
    followed by the sleep of [BATCH_DELAY] seconds, and nothing else; the
    block reports as many insertions as there are documents. *)
Theorem underpopulated_collection_gets_all_data
    (Inv : W -> Prop) (min_docs : Z) (fuel : nat) (coll : string) (data : list Doc)
    (st : UState) (count : Z) :
  count_documents coll (world st) = Returns count ->
  count < min_docs ->
  Inv (world st) ->
  (forall batch w, Inv w -> exists result w',
       bulk_write coll batch w = (Returns result, w') /\
       (inserted_count result = None \/
        inserted_count result = Some (Z.of_nat (List.length batch))) /\ Inv w') ->
  exists st',
    upload_collection false min_docs fuel coll data st
      = Some (Returns (Some (Z.of_nat (List.length data))), st') /\
    log st' = log st ++ success_trace coll (batches data 10) /\
    List.concat (batches data 10) = data.
Proof.
  intros Hcount Hlt Hinv Hok.
  unfold upload_collection. unfold bindU at 1, call_count_documents. rewrite Hcount.
  rewrite Bool.andb_false_r.
  destruct (count <? min_docs) eqn:E; [ | apply Z.ltb_ge in E; lia ].
  cbn [orb]. unfold bindU at 1, retU at 1.
  pose proof (batches_concat data 10 ltac:(lia)) as Hcat.
  unfold insert_in_batches. unfold batches in Hcat |- *.
  destruct (py_range_step (Z.of_nat (List.length data)) 10) as [ starts | e ] eqn:Er;
    [ | discriminate Er ].
  destruct (for_each_batch_success Inv coll data 10 Hok starts 0 st Hinv)
    as (st' & Hrun & Hlog & _).
  exists st'. unfold bindU. rewrite Hrun, Hcat.
  split; [ reflexivity | ]. split; [ exact Hlog | reflexivity ].
Qed.

End MoreUploaderFacts.

(* --------------------------------------------------------------------- *)
(** ** The script as a whole                                                *)
(* --------------------------------------------------------------------- *)

Section UploadScriptFacts.
Context {G : Type} {R : Rng G} {L : RngLaws G} {W Id : Type}
        {S : Store W AnyDoc Id} {C : Client W AnyDoc}.

Local Abbreviation UState := (@UState G W AnyDoc Id).
Local Abbreviation U := (@U G W AnyDoc Id).

Lemma finishes_retU {A} (a : A) : finishes (retU a : U A).
Proof. intros st. eexists _, _. reflexivity. Qed.

Lemma finishes_call_read {A} (f : W -> py A) : finishes (call_read f : U A).
Proof. intros st. eexists _, _. reflexivity. Qed.

Lemma finishes_run_generator {A} (m : @M G A) : finishes (run_generator m : U A).
Proof.
  intros st. unfold run_generator. destruct (m (rng st)) as [r g']. eexists _, _. reflexivity.
Qed.

Lemma finishes_reset_database (reset : bool) : finishes (reset_database reset : U unit).
Proof.
  intros st. destruct reset; [ | eexists _, _; reflexivity ].
  unfold reset_database, try_exceptU, bindU, call_drop_database, sleep, retU.
  destruct (drop_database (world st)) as [ [ [] | e ] w' ]; eexists _, _; reflexivity.
Qed.

Lemma check_existing_reads (st : UState) : exists r, check_existing st = Some (r, st).
Proof.
  unfold check_existing, call_read. unfold bindU at 1.
  destruct (list_collection_names (world st)) as [ existing | e ];
    [ | eexists; reflexivity ].
  unfold COLLECTIONS. cbn [for_eachU]. unfold bindU, call_count_documents, retU.
  repeat match goal with
         | |- context [ existsb ?f existing ] => destruct (existsb f existing)
         | |- context [ count_documents ?c (world st) ] =>
             destruct (count_documents c (world st))
         end;
    eexists; reflexivity.
Qed.

Lemma verify_collections_reads (min_docs : Z) (st : UState) :
  exists r, verify_collections min_docs st = Some (r, st) /\
            (r = Returns true -> all_populated min_docs (world st)).
Proof.
  unfold verify_collections, all_populated, COLLECTIONS.
  cbn [for_eachU]. unfold bindU, call_count_documents, retU.
  destruct (count_documents "products" (world st)) as [ n1 | e ] eqn:E1;
    [ | eexists; split; [ reflexivity | discriminate ] ].
  destruct (count_documents "customers" (world st)) as [ n2 | e ] eqn:E2;
    [ | eexists; split; [ reflexivity | discriminate ] ].
  destruct (count_documents "orders" (world st)) as [ n3 | e ] eqn:E3;
    [ | eexists; split; [ reflexivity | discriminate ] ].
  destruct (count_documents "reviews" (world st)) as [ n4 | e ] eqn:E4;
    [ | eexists; split; [ reflexivity | discriminate ] ].
  eexists. split; [ reflexivity | ].
  destruct (n1 <? min_docs) eqn:L1, (n2 <? min_docs) eqn:L2,
           (n3 <? min_docs) eqn:L3, (n4 <? min_docs) eqn:L4;
    try discriminate.
  intros _. apply Z.ltb_ge in L1, L2, L3, L4.
  repeat constructor; eexists; split; eassumption.
Qed.

Lemma show_samples_reads (st : UState) : exists r, show_samples st = Some (r, st).
Proof.
  unfold show_samples. cbn [for_eachU]. unfold bindU, call_read, retU.
  repeat match goal with
         | |- context [ find_one ?c (world st) ] => destruct (find_one c (world st))
         end;
    eexists; reflexivity.
Qed.

(** The end of the function, from the summary on. *)
Lemma summary_reads (min_docs : Z) (st : UState) :
  exists r,
    bindU (verify_collections min_docs) (fun all_success =>
    bindU show_samples (fun _ =>
    bindU (call_read client_close) (fun _ =>
    retU all_success))) st = Some (r, st) /\
    (r = Returns true -> all_populated min_docs (world st)).
Proof.
  destruct (verify_collections_reads min_docs st) as (r1 & Hrun1 & Hpop).
  unfold bindU at 1. rewrite Hrun1.
  destruct r1 as [ all_success | e ]; [ | eexists; split; [ reflexivity | discriminate ] ].
  destruct (show_samples_reads st) as (r2 & Hrun2).
  unfold bindU at 1. rewrite Hrun2.
  destruct r2 as [ [] | e ]; [ | eexists; split; [ reflexivity | discriminate ] ].
  unfold bindU, call_read, retU.
  destruct (client_close (world st)) as [ [] | e ];
    [ | eexists; split; [ reflexivity | discriminate ] ].
  eexists; split; [ reflexivity | ]. intros [= ->]. apply Hpop. reflexivity.
Qed.

Lemma bindU_returns_inv {A B} (m : U A) (k : A -> U B) (st st' : UState) (b : B) :
  bindU m k st = Some (Returns b, st') ->
  exists a st1, m st = Some (Returns a, st1) /\ k a st1 = Some (Returns b, st').
Proof.
  unfold bindU. destruct (m st) as [ [ [ a | e ] st1 ] | ]; try discriminate.
  intros Hk. exists a, st1. split; [ reflexivity | exact Hk ].
Qed.

(** The body of the [try] statement of [upload_to_cosmos_db]. *)
Lemma upload_body_spec (fuel : nat) (st : UState) :
  exists b st',
    upload_to_cosmos_db fuel st = Some (Returns b, st') /\
    (b = true -> all_populated MIN_DOCS_PER_COLLECTION (world st')).
Proof.
  unfold upload_to_cosmos_db, try_exceptU.
  match goal with |- context [ match ?body st with _ => _ end ] => set (run := body st) end.
  assert (Hfin : exists r st', run = Some (r, st')).
  { subst run.
    repeat (apply finishes_bind;
            [ first [ apply finishes_call_read | apply finishes_reset_database
                    | apply finishes_run_generator
                    | apply finishes_unforced_upload
                    | intros s; destruct (check_existing_reads s) as (r & Hr);
                      eexists _, _; exact Hr ]
            | intros ? ]).
    intros s. destruct (summary_reads MIN_DOCS_PER_COLLECTION s) as (r & Hr & _).
    eexists _, _; exact Hr. }
  destruct Hfin as (r & st' & Hrun).
  destruct r as [ b | e ]; rewrite Hrun.
  - exists b, st'. split; [ reflexivity | ]. intros ->.
    subst run.
    do 8 (apply bindU_returns_inv in Hrun; destruct Hrun as (? & ? & _ & Hrun)).
    match type of Hrun with _ ?s = _ =>
      destruct (summary_reads MIN_DOCS_PER_COLLECTION s) as (r & Hr & Hpop) end.
    rewrite Hr in Hrun. injection Hrun as -> <-. apply Hpop. reflexivity.
  - exists false, st'. split; [ reflexivity | discriminate ].
Qed.

(** X20. The script always comes to an end with the exit code 0 or 1,
    whatever the connection string, the store and the random source do
    (no exception leaves [upload_to_cosmos_db]), and it exits with 0 only
    when each of the four collections counts at least
    [MIN_DOCS_PER_COLLECTION] documents in the database it leaves. *)
Theorem exit_code_0_only_if_every_collection_is_populated
    (connection_string : option string) (fuel : nat) (st : UState) :
  exists code st',
    main connection_string fuel st = Some (Returns code, st') /\
    (code = 0 \/ code = 1) /\
    (code = 0 -> all_populated MIN_DOCS_PER_COLLECTION (world st')).
Proof.
  unfold main.
  destruct connection_string as [ [ | c s ] | ];
    try (exists 1, st; split; [ reflexivity | split; [ right; reflexivity | discriminate ] ]).
  destruct (upload_body_spec fuel st) as (b & st' & Hrun & Hpop).
  unfold bindU. rewrite Hrun. destruct b.
  - exists 0, st'. split; [ reflexivity | ]. split; [ left; reflexivity | ].
    intros _. apply Hpop. reflexivity.
  - exists 1, st'. split; [ reflexivity | ]. split; [ right; reflexivity | discriminate ].
Qed.

(** X21. Without a connection string, or when the server cannot be
    reached, the script exits with 1 and has done nothing: no record is
    generated (the random source is where it was), nothing is written to
    the database and no sleep is taken. *)
Theorem no_connection_exits_1_untouched
    (connection_string : option string) (fuel : nat) (st : UState) :
  connection_string = None \/ connection_string = Some EmptyString \/
  (exists e, client_server_info (world st) = Raises e) ->
  main connection_string fuel st = Some (Returns 1, st).
Proof.
  intros Hno. unfold main.
  destruct connection_string as [ [ | c s ] | ]; try reflexivity.
  destruct Hno as [ Hno | [ Hno | (e & Hinfo) ] ]; try discriminate Hno.
  unfold upload_to_cosmos_db, try_exceptU. unfold bindU at 1. unfold bindU at 1.
  unfold call_read at 1. rewrite Hinfo. reflexivity.
Qed.

(** X22. Run again on a database whose four collections already count
    [MIN_DOCS_PER_COLLECTION] documents or more (and whose reads succeed),
    the script exits with 0 without a single write: the records are
    generated, consuming random numbers, and then thrown away. *)
Theorem populated_database_is_left_alone
    (connection_string : string) (fuel : nat) (st : UState) :
  connection_string <> EmptyString ->
  client_server_info (world st) = Returns tt ->
  (exists names, list_collection_names (world st) = Returns names) ->
  all_populated MIN_DOCS_PER_COLLECTION (world st) ->
  (forall coll, exists sample, find_one coll (world st) = Returns sample) ->
  client_close (world st) = Returns tt ->
  exists g',
    main (Some connection_string) fuel st
    = Some (Returns 0, {| world := world st; rng := g'; log := log st |}).
Proof.
  intros Hconn Hinfo (names & Hnames) Hpop Hfind Hclose.
  assert (Hup : exists g', upload_to_cosmos_db fuel st
            = Some (Returns true, {| world := world st; rng := g'; log := log st |})).
  { unfold upload_to_cosmos_db, try_exceptU.
    unfold bindU at 1. unfold call_read at 1. rewrite Hinfo. cbv beta iota.
    unfold bindU at 1. unfold RESET_DATABASE, reset_database, retU at 1. cbv beta iota.
    unfold bindU at 1, run_generator.
    destruct (generate_data_runs MIN_DOCS_PER_COLLECTION (rng st))
      as (ps & cs & os & rs & g1 & g2 & g3 & g4 & _ & _ & _ & _ & Hgen).
    rewrite Hgen. cbv beta iota. cbn [products customers orders reviews].
    exists g4.
    set (st1 := {| world := world st; rng := g4; log := log st |}).
    pose proof Hpop as Hpop2. unfold all_populated, COLLECTIONS in Hpop2.
    change (world st) with (world st1) in Hpop2, Hnames, Hclose, Hfind.
    apply Forall_cons_iff in Hpop2 as [ (n1 & Hc1 & Hn1) Hpop2 ].
    apply Forall_cons_iff in Hpop2 as [ (n2 & Hc2 & Hn2) Hpop2 ].
    apply Forall_cons_iff in Hpop2 as [ (n3 & Hc3 & Hn3) Hpop2 ].
    apply Forall_cons_iff in Hpop2 as [ (n4 & Hc4 & Hn4) _ ].
    destruct (check_existing_reads st1) as (r0 & Hcheck).
    assert (Hr0 : r0 = Returns tt).
    { revert Hcheck. unfold check_existing, call_read. unfold bindU at 1.
      rewrite Hnames. cbv beta iota.
      unfold COLLECTIONS. cbn [for_eachU]. unfold bindU, call_count_documents, retU.
      repeat match goal with
             | |- context [ existsb ?f names ] => destruct (existsb f names)
             end;
        repeat (first [ rewrite Hc1 | rewrite Hc2 | rewrite Hc3 | rewrite Hc4 ];
                cbv beta iota);
        intros [= <-]; reflexivity. }
    subst r0.
    unfold bindU at 1. rewrite Hcheck. cbv beta iota.
    unfold FORCE_UPLOAD.
    unfold bindU at 1.
    rewrite (upload_skipped_when_populated _ fuel "products" _ st1 n1 Hc1 Hn1).
    cbv beta iota. unfold bindU at 1.
    rewrite (upload_skipped_when_populated _ fuel "customers" _ st1 n2 Hc2 Hn2).
    cbv beta iota. unfold bindU at 1.
    rewrite (upload_skipped_when_populated _ fuel "orders" _ st1 n3 Hc3 Hn3).
    cbv beta iota. unfold bindU at 1.
    rewrite (upload_skipped_when_populated _ fuel "reviews" _ st1 n4 Hc4 Hn4).
    cbv beta iota.
    unfold verify_collections, COLLECTIONS, show_samples. cbn [for_eachU].
    unfold bindU, call_count_documents, call_read, retU.
    assert (L1 : (n1 <? MIN_DOCS_PER_COLLECTION) = false) by (apply Z.ltb_ge; exact Hn1).
    assert (L2 : (n2 <? MIN_DOCS_PER_COLLECTION) = false) by (apply Z.ltb_ge; exact Hn2).
    assert (L3 : (n3 <? MIN_DOCS_PER_COLLECTION) = false) by (apply Z.ltb_ge; exact Hn3).
    assert (L4 : (n4 <? MIN_DOCS_PER_COLLECTION) = false) by (apply Z.ltb_ge; exact Hn4).
    destruct (Hfind "products"%string) as (s1 & Hf1).
    destruct (Hfind "orders"%string) as (s2 & Hf2).
    destruct (Hfind "reviews"%string) as (s3 & Hf3).
    repeat (first [ rewrite Hc1, L1 | rewrite Hc2, L2 | rewrite Hc3, L3 | rewrite Hc4, L4
                  | rewrite Hf1 | rewrite Hf2 | rewrite Hf3 | rewrite Hclose ];
            cbv beta iota).
    reflexivity. }
  destruct Hup as (g' & Hup). exists g'.
  unfold main. destruct connection_string as [ | c s ]; [ congruence | ].
  unfold bindU. rewrite Hup. reflexivity.
Qed.

End UploadScriptFacts.

(* --------------------------------------------------------------------- *)
(** ** The aggregation functions of the dashboard                          *)
(* --------------------------------------------------------------------- *)

Section MoreDashboardFacts.

Lemma run_aggregation_labels (connect : py MongoClient) (coll : string)
    (pipeline : list stage) (columns : list string) (message : string)
    (out : list string) :
  exists df out',
    run_aggregation connect coll pipeline columns message out = (Returns df, out') /\
    (df = empty_frame \/
     (df_columns df = columns /\ out' = out /\
      exists client data,
        connect = Returns client /\
        aggregate client coll pipeline = Returns data /\
        data <> [] /\
        df_rows df = df_rows (frame_of_records data) /\
        List.length (df_columns (frame_of_records data)) = List.length columns)).
Proof.
  unfold run_aggregation, init_connection, try_except, bindD, liftD, retD, st_error.
  destruct connect as [ client | e ];
    [ destruct (server_info client) as [ [] | e ] | ];
    try (eexists _, _; split; [ reflexivity | left; reflexivity ]).
  destruct (aggregate client coll pipeline) as [ [ | d data ] | e ] eqn:Eagg;
    try (eexists _, _; split; [ reflexivity | left; reflexivity ]).
  unfold set_columns.
  destruct (List.length columns =? List.length (df_columns (frame_of_records (d :: data))))%nat
    eqn:Elen;
    [ | eexists _, _; split; [ reflexivity | left; reflexivity ] ].
  eexists _, _. split; [ reflexivity | right ].
  split; [ reflexivity | ]. split; [ reflexivity | ].
  exists client, (d :: data).
  split; [ reflexivity | ]. split; [ exact Eagg | ]. split; [ discriminate | ].
  split; [ reflexivity | ]. apply Nat.eqb_eq in Elen. symmetry. exact Elen.
Qed.

(** X23. Whatever the database answers, each of the three aggregation
    functions returns a frame that is either the empty frame or carries
    exactly the column labels of that function: a labelled frame comes
    without an error message, from a connected client whose aggregation
    returned at least one document, its rows are those of the frame built
    from the documents (the columns are renamed by position), and that
    frame had as many columns as there are labels. *)
Theorem aggregation_frame_is_empty_or_labelled
    (run : py MongoClient -> D DataFrame) (source : MongoClient -> py (list document))
    (labels : list string) (connect : py MongoClient) (out : list string) :
  In (run, source, labels) aggregations ->
  exists df out',
    run connect out = (Returns df, out') /\
    (df = empty_frame \/
     (df_columns df = labels /\ out' = out /\
      exists client data,
        connect = Returns client /\
        source client = Returns data /\
        data <> [] /\
        df_rows df = df_rows (frame_of_records data) /\
        List.length (df_columns (frame_of_records data)) = List.length labels)).
Proof.
  intros Hin. unfold aggregations in Hin.
  destruct Hin as [ [= <- <- <-] | [ [= <- <- <-] | [ [= <- <- <-] | [] ] ] ];
    apply run_aggregation_labels.
Qed.

End MoreDashboardFacts.

(* --------------------------------------------------------------------- *)
(** ** Concrete runs of the further properties                             *)
(* --------------------------------------------------------------------- *)

(** X1 on three products drawn from an exhausted tape. *)
Lemma generate_products_fields_witness :
  exists ps g',
    generate_products 3 ([] : tape) = (Returns ps, g') /\
    List.length ps = 3%nat /\
    Forall2 product_fields_ok (seq 1 3) ps.
Proof. exact (generate_products_fields (G := tape) 3 []). Defined.

(** X2 on three customers. *)
Lemma generate_customers_fields_witness :
  exists cs g',
    generate_customers 3 ([5; 17; 2] : tape) = (Returns cs, g') /\
    List.length cs = 3%nat /\
    Forall2 customer_fields_ok (seq 1 3) cs.
Proof. exact (generate_customers_fields (G := tape) 3 [5; 17; 2]). Defined.

(** X3 on the order built from [demo_order_tape]. *)
Lemma generate_orders_copy_customers_and_products_witness :
  generate_orders demo_customers demo_products 1 demo_order_tape
    = (Returns [demo_order], []) /\
  List.length [demo_order] = 1%nat /\
  Forall (order_fields_ok demo_customers demo_products) [demo_order] /\
  Forall (fun o => Forall (fun it => 1 <= i_quantity it <= 3) (o_items o)) [demo_order].
Proof.
  split; [ exact demo_order_run | ].
  exact (generate_orders_copy_customers_and_products
           demo_customers demo_products 1 demo_order_tape [] [demo_order] demo_order_run).
Defined.

(** X4 without a customer, and with one customer and one product. *)
Lemma generate_orders_needs_customers_and_products_witness :
  (exists g', generate_orders [] demo_products 1 demo_order_tape
              = (Raises empty_choice_error, g')) /\
  (exists os g', generate_orders demo_customers demo_products 2 demo_order_tape
                 = (Returns os, g') /\ List.length os = 2%nat).
Proof.
  split.
  - apply (proj1 (generate_orders_needs_customers_and_products
                    [] demo_products 1 demo_order_tape)); [ lia | left; reflexivity ].
  - apply (proj2 (generate_orders_needs_customers_and_products
                    demo_customers demo_products 2 demo_order_tape)).
    right. split; discriminate.
Defined.

(** X5 on three iterations over [demo_order] and an order without items:
    the second iteration draws the latter and is skipped, so that the
    reviews are numbered 1 and 3. *)
Lemma generate_reviews_ids_distinct_when_skipping_witness :
  let orders := [demo_order; itemless_order] in
  filter (appends_review orders skipping_review_tape) (seq 1 3) = [1; 3]%nat /\
  chosen_order orders skipping_review_tape 2 = Returns itemless_order /\
  exists rs g',
    generate_reviews orders 3 skipping_review_tape = (Returns rs, g') /\
    map r_review_id rs = ["R00001"; "R00003"]%string /\
    Forall2 (fun i r => r_review_id r = String "R" (fmt_0d 5 i) /\
                        exists order,
                          chosen_order orders skipping_review_tape i = Returns order /\
                          r_order_id r = o_order_id order)
            [1; 3]%nat rs /\
    (List.length rs <= 3)%nat /\
    review_ids_from 3 rs /\
    NoDup (map r_review_id rs).
Proof.
  intros orders.
  assert (Hkept : filter (appends_review orders skipping_review_tape) (seq 1 3) = [1; 3]%nat)
    by (vm_compute; reflexivity).
  split; [ exact Hkept | ]. split; [ vm_compute; reflexivity | ].
  destruct (generate_reviews orders 3 skipping_review_tape) as [ [ rs | e ] g' ] eqn:Erun;
    [ | vm_compute in Erun; discriminate Erun ].
  pose proof (generate_reviews_ids_distinct_when_skipping
                orders 3 skipping_review_tape g' rs Erun) as Hall.
  rewrite Hkept in Hall.
  exists rs, g'. split; [ reflexivity | ].
  split; [ | exact Hall ].
  vm_compute in Erun. injection Erun as <- _. reflexivity.
Defined.

(** X6 on two reviews of [demo_order]. *)
Lemma generate_reviews_fields_witness :
  exists rs g',
    generate_reviews [demo_order] 2 demo_review_tape = (Returns rs, g') /\
    Forall (review_fields_ok [demo_order]) rs.
Proof.
  destruct (generate_reviews [demo_order] 2 demo_review_tape)
    as [ [ rs | e ] g' ] eqn:Erun; [ | vm_compute in Erun; discriminate Erun ].
  exists rs, g'. split; [ reflexivity | ].
  exact (generate_reviews_fields [demo_order] 2 demo_review_tape g' rs Erun).
Defined.

(** X7 without an order, and with an order without items. *)
Lemma generate_reviews_without_orders_or_items_witness :
  generate_reviews [] 3 demo_review_tape = (Raises empty_choice_error, demo_review_tape) /\
  exists g', generate_reviews [itemless_order] 3 demo_review_tape = (Returns [], g').
Proof.
  split.
  - apply (proj1 (generate_reviews_without_orders_or_items [] 3 demo_review_tape));
      [ lia | reflexivity ].
  - apply (proj2 (generate_reviews_without_orders_or_items
                    [itemless_order] 3 demo_review_tape)).
    + discriminate.
    + repeat constructor.
Defined.

(** X8 with the constant of the script. *)
Lemma generate_data_sizes_witness :
  exists d g',
    generate_data MIN_DOCS_PER_COLLECTION demo_order_tape = (Returns d, g') /\
    Z.of_nat (List.length (products d)) = py_max MIN_DOCS_PER_COLLECTION 25 /\
    Z.of_nat (List.length (customers d)) = py_max MIN_DOCS_PER_COLLECTION 25 /\
    Z.of_nat (List.length (orders d)) = py_max MIN_DOCS_PER_COLLECTION 30 /\
    Z.of_nat (List.length (reviews d)) = py_max MIN_DOCS_PER_COLLECTION 25.
Proof. exact (generate_data_sizes (G := tape) MIN_DOCS_PER_COLLECTION demo_order_tape). Defined.

(** X9 on the data generated with the constant of the script. *)
Lemma generated_orders_totals_exact_witness :
  exists d g',
    generate_data MIN_DOCS_PER_COLLECTION demo_order_tape = (Returns d, g') /\
    Forall (fun o => o_total_amount o == Qsum (map i_item_total (o_items o)))%Q (orders d).
Proof.
  destruct (generate_data_runs (G := tape) MIN_DOCS_PER_COLLECTION demo_order_tape)
    as (ps & cs & os & rs & g1 & g2 & g3 & g4 & _ & _ & _ & _ & Hrun).
  eexists _, g4. split; [ exact Hrun | ].
  exact (generated_orders_totals_exact MIN_DOCS_PER_COLLECTION demo_order_tape g4 _ Hrun).
Defined.

(** X10 on 25 documents cut into batches of 10. *)
Lemma batches_cover_data_once_witness :
  0 < 10 /\
  List.concat (batches (seq 1 25) 10) = seq 1 25 /\
  Forall (fun b => (1 <= List.length b)%nat /\ Z.of_nat (List.length b) <= 10)
         (batches (seq 1 25) 10) /\
  (forall k b,
      nth_error (batches (seq 1 25) 10) k = Some b ->
      (Datatypes.S k < List.length (batches (seq 1 25) 10))%nat ->
      Z.of_nat (List.length b) = 10).
Proof.
  split; [ lia | ].
  exact (batches_cover_data_once (seq 1 25) 10 ltac:(lia)).
Defined.

Lemma fake_store_accepts (coll : string) (batch : list nat) (w : FakeDb) :
  fk_throttled w = false ->
  exists result w',
    bulk_write coll batch w = (Returns result, w') /\
    (inserted_count result = None \/
     inserted_count result = Some (Z.of_nat (List.length batch))) /\
    fk_throttled w' = false.
Proof.
  intros Hw. simpl. rewrite Hw. eexists _, _.
  split; [ reflexivity | ]. split; [ right; reflexivity | reflexivity ].
Qed.

(** X11 on 25 documents and a store that accepts every write. *)
Lemma insert_in_batches_all_accepted_witness :
  let st := fake_state [] false [] in
  0 < 10 /\
  fk_throttled (world st) = false /\
  exists st',
    insert_in_batches "products" (seq 1 25) 10 st = Some (Returns 25, st') /\
    log st' = log st ++ success_trace "products" (batches (seq 1 25) 10) /\
    rng st' = rng st.
Proof.
  intros st. split; [ lia | ]. split; [ reflexivity | ].
  exact (insert_in_batches_all_accepted
           (fun w => fk_throttled w = false) "products" (seq 1 25) 10 st
           ltac:(lia) eq_refl (fake_store_accepts "products")).
Defined.

#[local] Existing Instance script_store.
#[local] Existing Instance script_client.

(** X12 on a first batch that fails in part, three documents inserted. *)
Lemma bulk_write_error_counts_reported_and_moves_on_witness :
  let st := script_state (Doc := nat) true 0 [Raises (BulkWriteError partial_failure)] [] in
  let batch := py_slice (seq 1 12) 0 (0 + 10) in
  bulk_write "products" batch (world st)
    = (Raises (BulkWriteError partial_failure),
       {| sd_online := true; sd_count := 0; sd_replies := [] |}) /\
  insert_batch "products" (seq 1 12) 10 0 0 st
  = Some (Returns (0 + reported_inserted partial_failure),
          {| world := {| sd_online := true; sd_count := 0; sd_replies := [] |};
             rng := rng st;
             log := log st ++ [ EBulkWrite "products" batch;
                                ESleep (inject_Z (BATCH_DELAY * 2)) ] |}).
Proof.
  intros st batch. split; [ reflexivity | ].
  exact (bulk_write_error_counts_reported_and_moves_on
           "products" (seq 1 12) 10 0 0 st partial_failure _ eq_refl).
Defined.

(** X13 on a first batch of ten documents rejected with an error that is
    no rate limit, on a store whose [insert_one] rejects the even
    documents: five documents go through. *)
Lemma other_pymongo_error_falls_back_to_insert_one_witness :
  let st := fixed_state (Raises (PyMongoError "connection reset by peer")) Nat.even [] in
  let batch := py_slice (seq 1 12) 0 (0 + 10) in
  bulk_write "products" batch (world st)
    = (Raises (PyMongoError "connection reset by peer"), world st) /\
  is_rate_limit "connection reset by peer" = false /\
  accepted_one_by_one "products" batch (world st) = 5 /\
  exists st' evs,
    insert_batch "products" (seq 1 12) 10 0 0 st = Some (Returns (0 + 5), st') /\
    0 <= 5 <= Z.of_nat (List.length batch) /\
    log st' = log st ++ EBulkWrite "products" batch :: evs /\
    insert_one_docs evs = batch /\
    bulk_write_sizes evs = [] /\
    sleep_durations evs = repeat (1 # 2)%Q (Z.to_nat 5).
Proof.
  intros st batch.
  assert (Hacc : accepted_one_by_one "products" batch (world st) = 5) by reflexivity.
  split; [ reflexivity | ]. split; [ reflexivity | ]. split; [ exact Hacc | ].
  rewrite <- Hacc.
  exact (other_pymongo_error_falls_back_to_insert_one
           "products" (seq 1 12) 10 0 0 st "connection reset by peer" (world st)
           eq_refl eq_refl).
Defined.

(** X24 on a batch rejected twice and then accepted. *)
Lemma rate_limited_batch_recovers_within_max_retries_witness :
  let st := script_state (Doc := nat) true 0
              [Raises fk_rate_limit_error; Raises fk_rate_limit_error]
              [250; 750; 1; 2] in
  let batch := py_slice (seq 1 12) 0 (0 + 10) in
  let result := {| inserted_count := Some 10 |} in
  let w_end := {| sd_online := true; sd_count := 0; sd_replies := [] |} in
  (2 <= 5)%nat /\
  throttled_then_accepted "products" batch 2 (world st) result w_end /\
  exists us st',
    insert_batch "products" (seq 1 12) 10 0 0 st
      = Some (Returns (0 + batch_inserted batch result), st') /\
    List.length us = 2%nat /\
    log st' = log st ++ backoff_trace "products" batch 0 us
                     ++ [EBulkWrite "products" batch; ESleep (inject_Z BATCH_DELAY)] /\
    world st' = w_end.
Proof.
  intros st batch result w_end.
  assert (Hstore : throttled_then_accepted "products" batch 2 (world st) result w_end).
  { cbn [throttled_then_accepted]. eexists _, _. split; [ reflexivity | ].
    split; [ reflexivity | ]. eexists _, _. split; [ reflexivity | ].
    split; reflexivity. }
  split; [ lia | ]. split; [ exact Hstore | ].
  exact (rate_limited_batch_recovers_within_max_retries
           "products" (seq 1 12) 10 0 0 st 2 result w_end ltac:(lia) Hstore).
Defined.

(** X15 on a first batch whose write raises a [ValueError]. *)
Lemma unexpected_exception_aborts_insert_in_batches_witness :
  let st := script_state (Doc := nat) true 0
              [Raises (ValueError "document must be a dict")] [] in
  seq 1 25 <> [] /\
  0 < 10 /\
  is_PyMongoError (ValueError "document must be a dict") = false /\
  insert_in_batches "products" (seq 1 25) 10 st
  = Some (Raises (ValueError "document must be a dict"),
          {| world := {| sd_online := true; sd_count := 0; sd_replies := [] |};
             rng := rng st;
             log := log st ++ [EBulkWrite "products" (py_slice (seq 1 25) 0 10)] |}).
Proof.
  intros st. split; [ discriminate | ]. split; [ lia | ]. split; [ reflexivity | ].
  exact (unexpected_exception_aborts_insert_in_batches
           "products" (seq 1 25) 10 st (ValueError "document must be a dict") _
           ltac:(discriminate) ltac:(lia) eq_refl eq_refl).
Defined.

(** X16 on a throttled store that holds one product. *)
Lemma clear_collection_retries_for_ever_witness :
  let st := fake_state [("products"%string, 1%nat)] true [] in
  find_ids "products" 20 (world st) = Returns [1%nat] /\
  delete_many "products" [1%nat] (world st) = (Raises fk_rate_limit_error, world st) /\
  is_PyMongoError fk_rate_limit_error = true /\
  clear_collection_safely 1000 "products" st = None.
Proof.
  intros st. split; [ reflexivity | ]. split; [ reflexivity | ]. split; [ reflexivity | ].
  apply (clear_collection_retries_for_ever (fun w => w = world st) "products" st 1000 eq_refl).
  intros w ->. exists 1%nat, [], fk_rate_limit_error, (world st).
  repeat split; reflexivity.
Defined.

(** X17 on a store that holds two products and one customer. *)
Lemma clear_collection_only_deletes_until_scan_is_empty_witness :
  let st := fake_state [("products"%string, 1%nat); ("customers"%string, 7%nat);
                        ("products"%string, 2%nat)] false [] in
  exists st',
    clear_collection_safely 5 "products" st = Some (Returns 2, st') /\
    find_ids "products" 20 (world st') = Returns [] /\
    exists evs, log st' = log st ++ evs /\ Forall (clear_event "products") evs.
Proof.
  intros st.
  destruct (clear_collection_safely 5 "products" st) as [ [ r st' ] | ] eqn:Erun;
    [ | vm_compute in Erun; discriminate Erun ].
  assert (Hr : r = Returns 2) by (vm_compute in Erun; congruence).
  subst r. exists st'. split; [ reflexivity | ].
  exact (clear_collection_only_deletes_until_scan_is_empty 5 "products" st st' 2 Erun).
Defined.

(** X25 on a store that holds two products, with five new ones. *)
Lemma forced_upload_deletes_before_it_inserts_witness :
  let st := fake_state [("products"%string, 1%nat); ("products"%string, 2%nat)] false [] in
  exists st',
    upload_collection true MIN_DOCS_PER_COLLECTION 5 "products" (seq 3 5) st
      = Some (Returns (Some 5), st') /\
    exists deletes inserts,
      log st' = log st ++ deletes ++ inserts /\
      Forall (clear_event "products") deletes /\
      Forall (fun e => is_delete e = false /\ event_on "products" e) inserts.
Proof.
  intros st.
  destruct (upload_collection true MIN_DOCS_PER_COLLECTION 5 "products" (seq 3 5) st)
    as [ [ r st' ] | ] eqn:Erun; [ | vm_compute in Erun; discriminate Erun ].
  assert (Hr : r = Returns (Some 5)) by (vm_compute in Erun; congruence).
  subst r. exists st'. split; [ reflexivity | ].
  exact (forced_upload_deletes_before_it_inserts
           MIN_DOCS_PER_COLLECTION 5 "products" (seq 3 5) st st' _ Erun).
Defined.

(** X19 on a collection of one document and a store that accepts every
    write. *)
Lemma underpopulated_collection_gets_all_data_witness :
  let st := fake_state [("products"%string, 1%nat)] false [] in
  count_documents "products" (world st) = Returns 1 /\
  1 < MIN_DOCS_PER_COLLECTION /\
  fk_throttled (world st) = false /\
  exists st',
    upload_collection false MIN_DOCS_PER_COLLECTION 0 "products" (seq 2 50) st
      = Some (Returns (Some 50), st') /\
    log st' = log st ++ success_trace "products" (batches (seq 2 50) 10) /\
    List.concat (batches (seq 2 50) 10) = seq 2 50.
Proof.
  intros st. split; [ reflexivity | ]. split; [ reflexivity | ]. split; [ reflexivity | ].
  exact (underpopulated_collection_gets_all_data
           (fun w => fk_throttled w = false) MIN_DOCS_PER_COLLECTION 0 "products"
           (seq 2 50) st 1 eq_refl eq_refl eq_refl (fake_store_accepts "products")).
Defined.

(** X21 on a server that cannot be reached. *)
Lemma no_connection_exits_1_untouched_witness :
  let st := script_state (Doc := AnyDoc) false 0 [] demo_order_tape in
  client_server_info (Doc := AnyDoc) (world st) = Raises (PyMongoError "No servers found yet") /\
  main (Some "mongodb://localhost"%string) 0 st = Some (Returns 1, st).
Proof.
  intros st. split; [ reflexivity | ].
  apply (no_connection_exits_1_untouched (Some "mongodb://localhost"%string) 0 st).
  right. right. exists (PyMongoError "No servers found yet"). reflexivity.
Defined.

(** X22 on a database whose collections count 50 documents each. *)
Lemma populated_database_is_left_alone_witness :
  let st := script_state (Doc := AnyDoc) true 50 [] demo_order_tape in
  "mongodb://localhost"%string <> EmptyString /\
  client_server_info (Doc := AnyDoc) (world st) = Returns tt /\
  all_populated (Doc := AnyDoc) (Id := nat) MIN_DOCS_PER_COLLECTION (world st) /\
  client_close (Doc := AnyDoc) (world st) = Returns tt /\
  exists g',
    main (Some "mongodb://localhost"%string) 0 st
    = Some (Returns 0, {| world := world st; rng := g'; log := log st |}).
Proof.
  intros st.
  assert (Hpop : all_populated (Doc := AnyDoc) (Id := nat) MIN_DOCS_PER_COLLECTION (world st)).
  { repeat constructor; exists 50; split; reflexivity || (unfold MIN_DOCS_PER_COLLECTION; lia). }
  split; [ discriminate | ]. split; [ reflexivity | ]. split; [ exact Hpop | ].
  split; [ reflexivity | ].
  apply (populated_database_is_left_alone "mongodb://localhost" 0 st).
  - discriminate.
  - reflexivity.
  - exists COLLECTIONS. reflexivity.
  - exact Hpop.
  - intros coll. exists None. reflexivity.
  - reflexivity.
Defined.

(** X23 on the category statistics of a database with one category. *)
Lemma aggregation_frame_is_empty_or_labelled_witness :
  In (get_category_stats,
      (fun c : MongoClient => aggregate c "products" category_pipeline),
      ["category"; "total_products"; "avg_price"; "avg_rating"; "total_stock"]%string)
     aggregations /\
  exists df out',
    get_category_stats (Returns one_category_client) [] = (Returns df, out') /\
    (df = empty_frame \/
     (df_columns df
        = ["category"; "total_products"; "avg_price"; "avg_rating"; "total_stock"]%string /\
      out' = [] /\
      exists client data,
        Returns one_category_client = Returns client /\
        aggregate client "products" category_pipeline = Returns data /\
        data <> [] /\
        df_rows df = df_rows (frame_of_records data) /\
        List.length (df_columns (frame_of_records data)) = 5%nat)).
Proof.
  split; [ left; reflexivity | ].
  exact (aggregation_frame_is_empty_or_labelled
           get_category_stats (fun c => aggregate c "products" category_pipeline)
           ["category"; "total_products"; "avg_price"; "avg_rating"; "total_stock"]%string
           (Returns one_category_client) [] (or_introl eq_refl)).
Defined.
